(** * Vulkan matrix multiplication (aten/src/ATen/native/vulkan/ops/Mm.cpp)

    A shallow embedding of the eligibility checks, the staged 2x2 tiling
    copy, the prepacked context and the kernel dispatcher of [Mm.cpp],
    followed by the properties of the specification that concern them.

    Conventions.
    - [int64_t] quantities are integers of [Z].  Signed overflow is
      undefined in C++ and the quantities are tensor extents and element
      offsets of tensors that exist in memory, so no wrap-around is written.
      C++ [/] and [%] truncate towards zero: [Z.quot] and [Z.rem].
    - [TORCH_CHECK], [TORCH_INTERNAL_ASSERT] and the exceptions of the tensor
      library are the [Err] case of [result].
    - Element values are kept as raw bit patterns ([Z]); the code only moves
      them with [memcpy] and clears them with [memset]. *)

From Stdlib Require Import ZArith List Bool Lia QArith.
From stdpp Require Import base list.

Local Open Scope Z_scope.

(** ** Errors *)

Inductive Error : Type :=
| AssertInputNotQuantized   (* Mm.cpp:20  input packing, quantized tensor *)
| AssertInput2D             (* Mm.cpp:24  input packing, rank is not 2 *)
| InputMustBeOnVulkan       (* Mm.cpp:34 *)
| InputNotWidthPacked       (* Mm.cpp:42 *)
| AssertWeightNotQuantized  (* Mm.cpp:51 *)
| AssertWeight2D            (* Mm.cpp:55 *)
| WeightMustBeOnVulkan      (* Mm.cpp:66 *)
| WeightNotHeightPacked     (* Mm.cpp:75 *)
| BatchWeightNot3D          (* Mm.cpp:105 *)
| InputDimBelow2            (* Mm.cpp:408 *)
| NotUsable                 (* Mm.cpp:444 and Mm.cpp:702 *)
| QuantizedWithUnquantized  (* Mm.cpp:451 *)
| UnpackedWeight            (* Mm.cpp:456 *)
| BatchInputNot3D           (* Mm.cpp:683 *)
| NotAvailable              (* Mm.cpp:892 *)
| IndexError                (* Tensor::size with a dimension out of range *)
| OutOfBounds               (* an array or pointer access out of range *)
| DTypeMismatch             (* Tensor::data_ptr<T> on another element type *)
| ShapeMismatch             (* Tensor::reshape to another element count *)
| DowncastOverflow.         (* safe_downcast of a value that does not fit *)

Inductive result (A : Type) : Type :=
| Ok (a : A)
| Err (e : Error).
Arguments Ok {A} a.
Arguments Err {A} e.

Definition bind {A B : Type} (m : result A) (k : A -> result B) : result B :=
  match m with
  | Ok a => k a
  | Err e => Err e
  end.

Notation "x <- m ;; k" := (bind m (fun x => k))
  (at level 100, m at next level, right associativity).

(** [TORCH_CHECK(cond, ...)]. *)
Definition torch_check (cond : bool) (e : Error) : result unit :=
  if cond then Ok tt else Err e.

(** The short-circuit [a && b] of C++ when the operands can raise: [b] is
    evaluated only when [a] is true. *)
Definition andthen (a b : result bool) : result bool :=
  x <- a ;; if x then b else Ok false.
Infix "&&&" := andthen (at level 40, left associativity).

(** The bitwise [a &= b] of C++ on [bool]: [b] is always evaluated. *)
Definition andalways (a b : result bool) : result bool :=
  x <- a ;; y <- b ;; Ok (x && y).

(** ** Tensors *)

Inductive DeviceType : Type := CPU | Vulkan | CUDA.

Inductive ScalarType : Type :=
| kFloat | kDouble | kInt | kChar | kQInt8 | kQUInt8 | kQInt32.

Inductive GPUMemoryLayout : Type :=
| TENSOR_WIDTH_PACKED
| TENSOR_HEIGHT_PACKED
| TENSOR_CHANNELS_PACKED.

Definition DeviceType_eqb (a b : DeviceType) : bool :=
  match a, b with
  | CPU, CPU | Vulkan, Vulkan | CUDA, CUDA => true
  | _, _ => false
  end.

Definition ScalarType_eqb (a b : ScalarType) : bool :=
  match a, b with
  | kFloat, kFloat | kDouble, kDouble | kInt, kInt | kChar, kChar
  | kQInt8, kQInt8 | kQUInt8, kQUInt8 | kQInt32, kQInt32 => true
  | _, _ => false
  end.

Definition GPUMemoryLayout_eqb (a b : GPUMemoryLayout) : bool :=
  match a, b with
  | TENSOR_WIDTH_PACKED, TENSOR_WIDTH_PACKED
  | TENSOR_HEIGHT_PACKED, TENSOR_HEIGHT_PACKED
  | TENSOR_CHANNELS_PACKED, TENSOR_CHANNELS_PACKED => true
  | _, _ => false
  end.

(** [vTensor]: the device image behind a Vulkan tensor, with its layout
    tag and the quantization parameters kept on the image. *)
Record vTensor : Type := mk_vTensor {
  v_sizes : list Z;
  v_dtype : ScalarType;
  gpu_memory_layout : GPUMemoryLayout;
  v_is_quantized : bool;
  get_scale : Q;
  get_zero_point : Z;
  v_data : list Z
}.

(** [at::Tensor] as this file reads it.  [is_quantized] is the tensor's own
    answer (Mm.cpp:21, 52, 84); the image's answer is [v_is_quantized]
    (Mm.cpp:400, 453).  [opaque] is the image [convert] hands out. *)
Record Tensor : Type := mk_Tensor {
  defined : bool;
  sizes : list Z;
  device : DeviceType;
  scalar_type : ScalarType;
  requires_grad : bool;
  is_quantized : bool;
  q_scale : Q;
  q_zero_point : Z;
  data : list Z;
  opaque : vTensor
}.

Definition ndimension (t : Tensor) : Z := Z.of_nat (length (sizes t)).
Definition dim (t : Tensor) : Z := ndimension t.
Definition is_cpu (t : Tensor) : bool := DeviceType_eqb (device t) CPU.
Definition is_vulkan (t : Tensor) : bool := DeviceType_eqb (device t) Vulkan.

(** [IntArrayRef::operator[]]. *)
Definition at_index (l : list Z) (i : Z) : result Z :=
  if i <? 0 then Err OutOfBounds
  else match l !! Z.to_nat i with
       | Some x => Ok x
       | None => Err OutOfBounds
       end.

(** [Tensor::size(d)]: a negative [d] counts from the end, a dimension out
    of range raises. *)
Definition size (t : Tensor) (d : Z) : result Z :=
  let d' := if d <? 0 then d + ndimension t else d in
  if (0 <=? d') && (d' <? ndimension t)
  then match sizes t !! Z.to_nat d' with
       | Some x => Ok x
       | None => Err IndexError
       end
  else Err IndexError.

(** The axis indices of [Layout] (ops/Common.h, not part of this file's
    source): a parameter matrix is (height, width), a batch of matrices is
    (batch, height, width), as the messages at Mm.cpp:108 and Mm.cpp:686
    spell out.  [Param] is the source's [Layout::Parameter]. *)
Module Layout.
Module Param.
Definition height : Z := 0.
Definition width : Z := 1.
End Param.
Module BatchMatrices.
Definition batch : Z := 0.
Definition height : Z := 1.
Definition width : Z := 2.
End BatchMatrices.
End Layout.

(** [convert(const Tensor&)]: the image of a tensor. *)
Definition convert (t : Tensor) : vTensor := opaque t.

(** Process-wide state the file consults: [api::available()] and
    [at::globalContext().releaseWeightsWhenPrepacking()]. *)
Record GlobalContext : Type := mk_GlobalContext {
  api_available : bool;
  releaseWeightsWhenPrepacking : bool
}.

(** ** Eligibility: [available] and [usable] *)

Definition on_cpu_or_vulkan (t : Tensor) : bool :=
  is_cpu t || DeviceType_eqb Vulkan (device t).

(** Mm.cpp:284-336.  The bias conjuncts are accumulated with [&=], which
    evaluates every one of them: [bias->size(...)] is reached, and raises,
    for a bias of rank 0. *)
Definition available_check_with_batch
    (weight : Tensor) (bias : option Tensor) : result bool :=
  weight_available <-
    Ok (3 =? ndimension weight)
    &&& (s <- size weight Layout.BatchMatrices.batch ;; Ok (0 <? s))
    &&& (s <- size weight Layout.BatchMatrices.height ;; Ok (0 <? s))
    &&& (s <- size weight Layout.BatchMatrices.width ;; Ok (0 <? s))
    &&& Ok (on_cpu_or_vulkan weight)
    &&& Ok (ScalarType_eqb kFloat (scalar_type weight))
    &&& Ok (negb (requires_grad weight)) ;;
  if negb weight_available then Ok false
  else
    match bias with
    | None => Ok true
    | Some b =>
      if negb (defined b) then Ok true
      else
        let same_or_one (bd wd : Z) : result bool :=
          bs <- size b bd ;;
          ws <- size weight wd ;;
          Ok ((bs =? ws) || (bs =? 1)) in
        let bias_available := Ok true in
        let bias_available :=
          andalways bias_available (Ok (0 <? ndimension b)) in
        let bias_available :=
          andalways bias_available (Ok (on_cpu_or_vulkan b)) in
        let bias_available :=
          andalways bias_available
            (Ok (ScalarType_eqb kFloat (scalar_type b))) in
        let bias_available :=
          if ndimension b =? 3 then
            andalways
              (andalways bias_available
                 (same_or_one Layout.BatchMatrices.width
                              Layout.BatchMatrices.width))
              (same_or_one Layout.BatchMatrices.batch
                           Layout.BatchMatrices.batch)
          else if ndimension b =? 2 then
            andalways bias_available
              (same_or_one Layout.BatchMatrices.height
                           Layout.BatchMatrices.width)
          else
            andalways bias_available
              (same_or_one Layout.BatchMatrices.batch
                           Layout.BatchMatrices.width) in
        andalways bias_available (Ok (negb (requires_grad b)))
    end.

(** Mm.cpp:338-374. *)
Definition available
    (g : GlobalContext) (weight : Tensor) (bias : option Tensor)
    (use_batch : bool) : result bool :=
  if negb (api_available g) then Ok false
  else if use_batch then available_check_with_batch weight bias
  else
    weight_available <-
      Ok (2 =? ndimension weight)
      &&& (s <- size weight Layout.Param.height ;; Ok (0 <? s))
      &&& (s <- size weight Layout.Param.width ;; Ok (0 <? s))
      &&& Ok (on_cpu_or_vulkan weight)
      &&& Ok (ScalarType_eqb kFloat (scalar_type weight)
              || ScalarType_eqb kQInt8 (scalar_type weight))
      &&& Ok (negb (requires_grad weight)) ;;
    if negb weight_available then Ok false
    else
      match bias with
      | Some b =>
        if defined b then
          Ok (0 <? ndimension b)
          &&& Ok (on_cpu_or_vulkan b)
          &&& Ok (ScalarType_eqb kFloat (scalar_type b))
          &&& (if 1 <? ndimension b
               then bs <- size b Layout.Param.width ;;
                    ws <- size weight Layout.Param.width ;;
                    Ok (bs =? ws)
               else Ok true)
          &&& Ok (negb (requires_grad b))
        else Ok true
      | None => Ok true
      end.

(** Mm.cpp:376-387. *)
Definition usable_check_with_batch
    (input : Tensor) (unpacked_weight_sizes : list Z) : result bool :=
  Ok (3 =? ndimension input)
  &&& Ok (DeviceType_eqb Vulkan (device input))
  &&& Ok (ScalarType_eqb kFloat (scalar_type input))
  &&& (s <- size input Layout.BatchMatrices.width ;;
       w <- at_index unpacked_weight_sizes Layout.BatchMatrices.height ;;
       Ok (s =? w))
  &&& (s <- size input Layout.BatchMatrices.batch ;;
       w <- at_index unpacked_weight_sizes Layout.BatchMatrices.batch ;;
       Ok (s =? w))
  &&& Ok (negb (requires_grad input))
  &&& Ok true.

(** Mm.cpp:389-405. *)
Definition usable
    (input : Tensor) (unpacked_weight_sizes : list Z) (use_batch : bool)
    : result bool :=
  if use_batch then usable_check_with_batch input unpacked_weight_sizes
  else
    let v_input := convert input in
    Ok (2 =? ndimension input)
    &&& Ok (DeviceType_eqb Vulkan (device input))
    &&& Ok (ScalarType_eqb kFloat (scalar_type input)
            || (v_is_quantized v_input
                && (ScalarType_eqb kQUInt8 (scalar_type input)
                    || ScalarType_eqb kQInt8 (scalar_type input))))
    &&& (s <- size input Layout.Param.width ;;
         w <- at_index unpacked_weight_sizes Layout.Param.height ;;
         Ok (s =? w))
    &&& Ok (negb (requires_grad input))
    &&& Ok true.

(** ** Layout packer *)

(** Modelled from the spec: [div_up] (api/Utils.h) is not part of this
    file's source.  The spec reads [div_up(n, 2)] as ceil(n/2); it is written
    here as the integer round-up with C++ division, and [div_up_ceil] below
    shows that this is the ceiling. *)
Definition div_up (numerator denominator : Z) : Z :=
  Z.quot (numerator + denominator - 1) denominator.

(** The ceiling of [n/d] in the spec's words, with the floor division of
    [Z]. *)
Definition ceil_div (n d : Z) : Z := - ((- n) / d).

(** [c10::irange(n)]: 0, 1, ..., n-1, empty when [n <= 0]. *)
Definition irange (n : Z) : list Z := seqZ 0 n.

(** A [for] loop over a range whose body updates [S] and can fail. *)
Fixpoint for_each {S : Type} (l : list Z) (body : Z -> S -> result S) (s : S)
    : result S :=
  match l with
  | [] => Ok s
  | i :: l' => s' <- body i s ;; for_each l' body s'
  end.

(** [memcpy(dst + di, src + si, sizeof(T))] of one element between two
    mapped arrays; touching an element outside either array is an error. *)
Definition memcpy1 (src : list Z) (di si : Z) (dst : list Z)
    : result (list Z) :=
  if (di <? 0) || (Z.of_nat (length dst) <=? di) then Err OutOfBounds
  else x <- at_index src si ;; Ok (<[Z.to_nat di := x]> dst).

Definition numel (l : list Z) : Z := fold_right Z.mul 1 l.

(** [vTensor v{context, sizes, dtype}]: a fresh image, channels-packed by
    default, not quantized, nothing uploaded yet. *)
Definition new_vTensor (szs : list Z) (dtype : ScalarType) : vTensor :=
  {| v_sizes := szs; v_dtype := dtype;
     gpu_memory_layout := TENSOR_CHANNELS_PACKED;
     v_is_quantized := false; get_scale := 1%Q; get_zero_point := 0;
     v_data := [] |}.

Definition set_is_quantized (v : vTensor) : vTensor :=
  {| v_sizes := v_sizes v; v_dtype := v_dtype v;
     gpu_memory_layout := gpu_memory_layout v;
     v_is_quantized := true; get_scale := get_scale v;
     get_zero_point := get_zero_point v; v_data := v_data v |}.

Definition set_scale (v : vTensor) (s : Q) : vTensor :=
  {| v_sizes := v_sizes v; v_dtype := v_dtype v;
     gpu_memory_layout := gpu_memory_layout v;
     v_is_quantized := v_is_quantized v; get_scale := s;
     get_zero_point := get_zero_point v; v_data := v_data v |}.

Definition set_zero_point (v : vTensor) (z : Z) : vTensor :=
  {| v_sizes := v_sizes v; v_dtype := v_dtype v;
     gpu_memory_layout := gpu_memory_layout v;
     v_is_quantized := v_is_quantized v; get_scale := get_scale v;
     get_zero_point := z; v_data := v_data v |}.

Definition set_layout (v : vTensor) (l : GPUMemoryLayout) : vTensor :=
  {| v_sizes := v_sizes v; v_dtype := v_dtype v;
     gpu_memory_layout := l;
     v_is_quantized := v_is_quantized v; get_scale := get_scale v;
     get_zero_point := get_zero_point v; v_data := v_data v |}.

(** [utils::pack_staging_to_vtensor(staging.buffer(), v)]: the staged
    elements become the contents of the image. *)
Definition pack_staging_to_vtensor (staging : list Z) (v : vTensor)
    : vTensor :=
  {| v_sizes := v_sizes v; v_dtype := v_dtype v;
     gpu_memory_layout := gpu_memory_layout v;
     v_is_quantized := v_is_quantized v; get_scale := get_scale v;
     get_zero_point := get_zero_point v; v_data := staging |}.

(** The staging buffer of an image: [gpu_numel()] elements, cleared by
    [memset(ptr, 0, nbytes())].  The images staged in this file have sizes
    (batch, 4, h, w), whose channel count is a whole texel, so the element
    count is the product of the sizes. *)
Definition zeroed_staging (v : vTensor) : list Z :=
  replicate (Z.to_nat (numel (v_sizes v))) 0.

(** Modelled from the spec: [Tensor::vulkan()], the device transfer of the
    generic tensor abstraction, is not part of this file's source.  The copy
    lives on the device behind a fresh channels-packed image and keeps the
    shape, element type, gradient flag, quantization and contents. *)
Definition vulkan (t : Tensor) : Tensor :=
  {| defined := defined t; sizes := sizes t; device := Vulkan;
     scalar_type := scalar_type t; requires_grad := requires_grad t;
     is_quantized := is_quantized t; q_scale := q_scale t;
     q_zero_point := q_zero_point t; data := data t;
     opaque :=
       {| v_sizes := sizes t; v_dtype := scalar_type t;
          gpu_memory_layout := TENSOR_CHANNELS_PACKED;
          v_is_quantized := is_quantized t; get_scale := q_scale t;
          get_zero_point := q_zero_point t; v_data := data t |} |}.

(** [convert(const vTensor&)]: the device tensor that wraps an image. *)
Definition convert_v (v : vTensor) : Tensor :=
  {| defined := true; sizes := v_sizes v; device := Vulkan;
     scalar_type := v_dtype v; requires_grad := false;
     is_quantized := false; q_scale := get_scale v;
     q_zero_point := get_zero_point v; data := v_data v; opaque := v |}.

(** Modelled from the spec: the image-relayout primitive of
    [impl/Packing.h] is not part of this file's source.  It re-tags the
    image; [v_data] keeps the logical contents, which a relayout preserves. *)
Module packing.
Definition convert_image_channels_packed_to_width_packed (v : vTensor)
    : vTensor := set_layout v TENSOR_WIDTH_PACKED.
Definition convert_image_channels_packed_to_height_packed (v : vTensor)
    : vTensor := set_layout v TENSOR_HEIGHT_PACKED.
End packing.

(** Mm.cpp:19-47. *)
Definition pack_inputs_using_height_packing (input_arg : Tensor)
    : result vTensor :=
  _ <- torch_check (negb (is_quantized input_arg)) AssertInputNotQuantized ;;
  _ <- torch_check (dim input_arg =? 2) AssertInput2D ;;
  let input := if is_cpu input_arg then vulkan input_arg else input_arg in
  _ <- torch_check (is_vulkan input) InputMustBeOnVulkan ;;
  let v_input := convert input in
  let v_input :=
    if GPUMemoryLayout_eqb (gpu_memory_layout v_input) TENSOR_CHANNELS_PACKED
    then packing.convert_image_channels_packed_to_width_packed v_input
    else v_input in
  _ <- torch_check
         (GPUMemoryLayout_eqb (gpu_memory_layout v_input) TENSOR_WIDTH_PACKED)
         InputNotWidthPacked ;;
  Ok v_input.

(** Mm.cpp:49-81. *)
Definition pack_weights_using_height_packing (weight_arg : Tensor)
    : result vTensor :=
  _ <- torch_check (negb (is_quantized weight_arg)) AssertWeightNotQuantized ;;
  _ <- torch_check (dim weight_arg =? 2) AssertWeight2D ;;
  let weight := if is_cpu weight_arg then vulkan weight_arg else weight_arg in
  _ <- torch_check (is_vulkan weight) WeightMustBeOnVulkan ;;
  let v_weight := convert weight in
  let v_weight :=
    if GPUMemoryLayout_eqb (gpu_memory_layout v_weight) TENSOR_CHANNELS_PACKED
    then packing.convert_image_channels_packed_to_height_packed v_weight
    else v_weight in
  _ <- torch_check
         (GPUMemoryLayout_eqb (gpu_memory_layout v_weight)
                              TENSOR_HEIGHT_PACKED)
         WeightNotHeightPacked ;;
  Ok v_weight.

(** Modelled from the spec: [stage_pack_weights<T>] (ops/Mm.h) is not part
    of this file's source.  Section 4.1: the destination is written
    zero-initialised, then each source element (h, w) is copied to channel
    2*(h%2)+(w%2), plane position (h/2, w/2); the batched variant carries a
    batch stride in both the source and the destination addressing.  The
    template parameter only fixes the width of an element. *)
Definition stage_pack_weights
    (v_weight : vTensor) (weight : Tensor)
    (src_kb_sz src_kh_sz src_kw_sz dst_kh_sz dst_kw_sz : Z)
    : result vTensor :=
  let src_matrix_sz := src_kw_sz * src_kh_sz in
  let dst_plane_sz := dst_kw_sz * dst_kh_sz in
  let dst_matrix_sz := dst_plane_sz * 4 in
  let src_weight_ptr := data weight in
  dst_weight_ptr <-
    for_each (irange src_kb_sz) (fun src_b =>
      for_each (irange src_kh_sz) (fun src_h =>
        for_each (irange src_kw_sz) (fun src_w =>
          let dst_plane := 2 * (Z.rem src_h 2) + (Z.rem src_w 2) in
          let dst_index := (Z.quot src_h 2) * dst_kw_sz + (Z.quot src_w 2) in
          memcpy1 src_weight_ptr
            (src_b * dst_matrix_sz + dst_plane * dst_plane_sz + dst_index)
            (src_b * src_matrix_sz + src_h * src_kw_sz + src_w))))
      (zeroed_staging v_weight) ;;
  Ok (pack_staging_to_vtensor dst_weight_ptr v_weight).

(** [Tensor::contiguous()]: [data] already is the row-major contents. *)
Definition contiguous (t : Tensor) : Tensor := t.

(** Mm.cpp:83-167. *)
Definition pack_weights (weight_arg : Tensor) (use_batch : bool)
    : result vTensor :=
  if negb (is_quantized weight_arg) && negb use_batch
  then pack_weights_using_height_packing weight_arg
  else
    let quantized :=
      match scalar_type weight_arg with
      | kQInt8 | kQUInt8 => true
      | _ => false
      end in
    let weight := contiguous weight_arg in
    let w_sizes := sizes weight in
    _ <- (if use_batch
          then torch_check (Z.of_nat (length w_sizes) =? 3) BatchWeightNot3D
          else Ok tt) ;;
    src_kb_sz <- (if use_batch
                  then at_index w_sizes Layout.BatchMatrices.batch
                  else Ok 1) ;;
    src_kw_sz <- (if use_batch
                  then at_index w_sizes Layout.BatchMatrices.width
                  else at_index w_sizes Layout.Param.width) ;;
    src_kh_sz <- (if use_batch
                  then at_index w_sizes Layout.BatchMatrices.height
                  else at_index w_sizes Layout.Param.height) ;;
    let dst_kb_sz := src_kb_sz in
    let dst_kw_sz := div_up src_kw_sz 2 in
    let dst_kh_sz := div_up src_kh_sz 2 in
    let dst_vtensor_sizes := [dst_kb_sz; 4; dst_kh_sz; dst_kw_sz] in
    let v_weight := new_vTensor dst_vtensor_sizes (scalar_type weight_arg) in
    let v_weight :=
      if quantized
      then set_zero_point
             (set_scale (set_is_quantized v_weight) (q_scale weight_arg))
             (q_zero_point weight_arg)
      else v_weight in
    if quantized
    then stage_pack_weights v_weight weight
           src_kb_sz src_kh_sz src_kw_sz dst_kh_sz dst_kw_sz
    else if use_batch
    then stage_pack_weights v_weight weight
           src_kb_sz src_kh_sz src_kw_sz dst_kh_sz dst_kw_sz
    else Ok v_weight.

(** [Tensor::data_ptr<float>()]: raises on a tensor of another element
    type, an undefined one included. *)
Definition data_ptr_float (t : Tensor) : result (list Z) :=
  if defined t && ScalarType_eqb (scalar_type t) kFloat
  then Ok (data t) else Err DTypeMismatch.

(** The staged bias copy, Mm.cpp:229-254. *)
Definition stage_pack_biases
    (v_bias : vTensor) (src_bias_ptr : list Z) (use_batch : bool)
    (src_kb_sz src_kh_sz src_kw_sz : Z)
    (src_matrix_sz dst_kw_sz dst_plane_sz dst_matrix_sz : Z)
    : result vTensor :=
  dst_bias_ptr <-
    for_each (irange src_kb_sz) (fun src_b =>
      for_each (irange (if src_kh_sz =? 1 then 2 else src_kh_sz))
        (fun src_h =>
        for_each
          (irange (if use_batch && (src_kw_sz =? 1) then 2 else src_kw_sz))
          (fun src_w =>
          let dst_plane := 2 * (Z.rem src_h 2) + (Z.rem src_w 2) in
          let dst_index := (Z.quot src_h 2) * dst_kw_sz + (Z.quot src_w 2) in
          memcpy1 src_bias_ptr
            (src_b * dst_matrix_sz + dst_plane * dst_plane_sz + dst_index)
            (src_b * src_matrix_sz
             + (if src_kh_sz =? 1 then 0 else src_h * src_kw_sz)
             + (if use_batch && (src_kw_sz =? 1) then 0 else src_w)))))
      (zeroed_staging v_bias) ;;
  Ok (pack_staging_to_vtensor dst_bias_ptr v_bias).

(** Mm.cpp:169-282. *)
Definition pack_biases
    (weight_arg : Tensor) (bias_arg : option Tensor) (use_batch : bool)
    : result vTensor :=
  match bias_arg with
  | Some bias_arg' =>
    if is_vulkan bias_arg' then Ok (convert bias_arg')
    else
      let bias := contiguous bias_arg' in
      let b_sizes := sizes bias in
      src_bias_ptr <- data_ptr_float bias ;;
      let staged (src_kb_sz src_kw_sz src_kh_sz : Z) : result vTensor :=
        let src_matrix_sz := src_kw_sz * src_kh_sz in
        let dst_kw_sz := div_up src_kw_sz 2 in
        let dst_kh_sz := div_up src_kh_sz 2 in
        let dst_plane_sz := dst_kw_sz * dst_kh_sz in
        let dst_matrix_sz := dst_plane_sz * 4 in
        let v_bias :=
          new_vTensor [src_kb_sz; 4; dst_kh_sz; dst_kw_sz]
                      (scalar_type bias_arg') in
        stage_pack_biases v_bias src_bias_ptr use_batch
          src_kb_sz src_kh_sz src_kw_sz
          src_matrix_sz dst_kw_sz dst_plane_sz dst_matrix_sz in
      if use_batch then
        if Z.of_nat (length (sizes bias)) =? 3 then
          src_kb_sz <- at_index b_sizes Layout.BatchMatrices.batch ;;
          src_kw_sz <- at_index b_sizes Layout.BatchMatrices.width ;;
          src_kh_sz <- at_index b_sizes Layout.BatchMatrices.height ;;
          staged src_kb_sz src_kw_sz src_kh_sz
        else if Z.of_nat (length (sizes bias)) =? 2 then
          src_kw_sz <- at_index b_sizes Layout.BatchMatrices.height ;;
          src_kh_sz <- at_index b_sizes Layout.BatchMatrices.batch ;;
          staged 1 src_kw_sz src_kh_sz
        else
          src_kw_sz <- at_index b_sizes Layout.BatchMatrices.batch ;;
          staged 1 src_kw_sz 1
      else if ScalarType_eqb (scalar_type bias) kFloat then
        Ok (convert (vulkan bias))
      else staged 0 0 0
  | None =>
    let v_bias := new_vTensor [1] (scalar_type weight_arg) in
    Ok (pack_staging_to_vtensor (zeroed_staging v_bias) v_bias)
  end.

(** ** Prepacked context *)

(** The values a [LinearPackedContext] boxes in its two lists. *)
Inductive IValue : Type :=
| IVTensor (t : Tensor)
| IVIntVector (l : list Z)
| IVBool (b : bool)
| IVNone.

Definition toTensor (v : IValue) : result Tensor :=
  match v with IVTensor t => Ok t | _ => Err OutOfBounds end.
Definition toIntVector (v : IValue) : result (list Z) :=
  match v with IVIntVector l => Ok l | _ => Err OutOfBounds end.
Definition toBool (v : IValue) : result bool :=
  match v with IVBool b => Ok b | _ => Err OutOfBounds end.

Definition IValue_of_optional (o : option Tensor) : IValue :=
  match o with Some t => IVTensor t | None => IVNone end.

Record LinearPackedContext : Type := mk_LinearPackedContext {
  packed_ : list IValue;
  unpacked_ : list IValue
}.

Module Packed.
Definition Weight : nat := 0.
Definition Bias : nat := 1.
Definition WeightSizes : nat := 2.
Definition BiasDefined : nat := 3.
Definition NumArgs : nat := 4.
End Packed.

Module Unpacked.
Definition Weight : nat := 0.
Definition Bias : nat := 1.
Definition NumArgs : nat := 2.
End Unpacked.

(** [LinearPackedContext::get_val]. *)
Definition get_val (c : LinearPackedContext) (i : nat) : result IValue :=
  match packed_ c !! i with
  | Some v => Ok v
  | None => Err OutOfBounds
  end.

(** [bias && bias->defined()]. *)
Definition has_defined (bias : option Tensor) : bool :=
  match bias with Some b => defined b | None => false end.

(** The constructor, Mm.cpp:887-909. *)
Definition LinearPackedContext_new
    (g : GlobalContext) (weight : Tensor) (bias : option Tensor)
    (use_batch : bool) : result LinearPackedContext :=
  ok <- available g weight bias use_batch ;;
  _ <- torch_check ok NotAvailable ;;
  w <- pack_weights weight use_batch ;;
  b <- pack_biases weight bias use_batch ;;
  let packed :=
    [ IVTensor (convert_v w);
      IVTensor (convert_v b);
      IVIntVector (sizes weight);
      IVBool (has_defined bias) ] in
  let unpacked :=
    if negb (releaseWeightsWhenPrepacking g)
    then [ IVTensor weight; IValue_of_optional bias ]
    else [] in
  Ok {| packed_ := packed; unpacked_ := unpacked |}.

(** ** Dispatcher *)

Inductive Kernel : Type :=
| VK_mm | VK_addmm
| VK_quantized_mm_qint8 | VK_quantized_mm_quint8
| VK_quantized_addmm_qint8 | VK_quantized_addmm_quint8
| VK_bmm | VK_baddbmm.

Definition uvec3 : Type := Z * Z * Z.

(** The uniform blocks, one constructor per anonymous [struct] of the
    source, fields in the order of the source. *)
Inductive ParamBlock : Type :=
| block_quantized_addmm    (* Mm.cpp:485-527 *)
    (size : uvec3) (K : Z) (um1_size : uvec3) (K1 : Z)
    (um2_size : uvec3) (K2 : Z) (ut_size : uvec3) (K3 : Z)
    (multiplier : Q * Q) (input_scales : Q * Q) (out_scale : Q) (_1 : Q)
    (input_zero_points : Z * Z) (out_zero_point : Z) (_2 : Z)
| block_addmm              (* Mm.cpp:531-546 *)
    (shader_extents : uvec3) (tensor_row_size : Z) (bias_size : uvec3)
    (pad : Z) (multiplier : Q * Q)
| block_quantized_mm       (* Mm.cpp:583-616 *)
    (size : uvec3) (K : Z) (um1_size : uvec3) (K1 : Z)
    (um2_size : uvec3) (K2 : Z)
    (input_scales : Q * Q) (out_scale : Q) (_1 : Q)
    (input_zero_points : Z * Z) (out_zero_point : Z) (_2 : Z)
| block_mm                 (* Mm.cpp:622-628 *)
    (shader_extents : uvec3) (tensor_row_size : Z)
| block_baddbmm            (* Mm.cpp:720-736 *)
    (size : uvec3) (k : Z) (bias_size : uvec3) (pad : Z)
    (multiplier : Q * Q)
| block_bmm                (* Mm.cpp:771-778 *)
    (size : uvec3) (k : Z).

(** One call of [context->submit_compute_job]. *)
Record ComputeJob : Type := mk_ComputeJob {
  shader : Kernel;
  global_work_group : uvec3;
  local_work_group : uvec3;
  job_output : vTensor;
  job_inputs : list vTensor;
  job_params : ParamBlock
}.

(** What a call can change: the command queue of [api::context()] and the
    contexts that live behind a [c10::intrusive_ptr]. *)
Record VkState : Type := mk_VkState {
  queue : list ComputeJob;
  heap : list (option LinearPackedContext)
}.

(** Dereferencing [linear_context]. *)
Definition deref (st : VkState) (p : nat) : result LinearPackedContext :=
  match heap st !! p with
  | Some (Some c) => Ok c
  | _ => Err OutOfBounds
  end.

(** [c10::make_intrusive<LinearPackedContext>(...)]: a new cell. *)
Definition make_intrusive (st : VkState) (c : LinearPackedContext)
    : nat * VkState :=
  (length (heap st),
   {| queue := queue st; heap := heap st ++ [Some c] |}).

(** The end of the life of the last [intrusive_ptr] to a cell. *)
Definition release (st : VkState) (p : nat) : VkState :=
  {| queue := queue st; heap := <[p := None]> (heap st) |}.

Definition submit_compute_job (st : VkState) (j : ComputeJob) : VkState :=
  {| queue := queue st ++ [j]; heap := heap st |}.

(** [safe_downcast<uint32_t>] and [safe_downcast<int32_t>] (api/Utils.h,
    not part of this file's source): a narrowing that raises when the value
    does not fit. *)
Definition safe_downcast_uint32 (x : Z) : result Z :=
  if (0 <=? x) && (x <? 2 ^ 32) then Ok x else Err DowncastOverflow.
Definition safe_downcast_int32 (x : Z) : result Z :=
  if (- 2 ^ 31 <=? x) && (x <? 2 ^ 31) then Ok x else Err DowncastOverflow.

(** [Tensor::reshape(shape)] with an explicit shape: the element count must
    be kept; the result differs in its shape only. *)
Definition reshape (t : Tensor) (shape : list Z) : result Tensor :=
  if numel shape =? numel (sizes t)
  then Ok {| defined := defined t; sizes := shape; device := device t;
             scalar_type := scalar_type t;
             requires_grad := requires_grad t;
             is_quantized := is_quantized t; q_scale := q_scale t;
             q_zero_point := q_zero_point t; data := data t;
             opaque :=
               {| v_sizes := shape; v_dtype := v_dtype (opaque t);
                  gpu_memory_layout := gpu_memory_layout (opaque t);
                  v_is_quantized := v_is_quantized (opaque t);
                  get_scale := get_scale (opaque t);
                  get_zero_point := get_zero_point (opaque t);
                  v_data := v_data (opaque t) |} |}
  else Err ShapeMismatch.

(** Mm.cpp:407-415.  [c10::multiply_integers(begin, end - 1)] is the product
    of all sizes but the last. *)
Definition reshape_to_2d (input_arg : Tensor) : result Tensor :=
  _ <- torch_check (2 <=? dim input_arg) InputDimBelow2 ;;
  let input_sizes := sizes input_arg in
  let d := numel (removelast input_sizes) in
  last_sz <- size input_arg (-1) ;;
  reshape input_arg [d; last_sz].

(** The shape rebuilt at Mm.cpp:667-672 and Mm.cpp:814-819:
    [input_arg.size(i)] for [i] below [dim() - 1], then [output.size(-1)]. *)
Fixpoint leading_sizes (input_arg : Tensor) (l : list Z)
    : result (list Z) :=
  match l with
  | [] => Ok []
  | i :: l' =>
    s <- size input_arg i ;;
    rest <- leading_sizes input_arg l' ;;
    Ok (s :: rest)
  end.

Definition restored_shape (input_arg output : Tensor) : result (list Z) :=
  shape <- leading_sizes input_arg (irange (dim input_arg - 1)) ;;
  last_sz <- size output (-1) ;;
  Ok (shape ++ [last_sz]).


Section Dispatch.

(** Two collaborators of the dispatcher that are not part of this file's
    source: [vTensor::extents()], the texture extents of an image, and the
    compute shader itself, taken as the contents it leaves in the output
    image of a job. *)
Variable extents : vTensor -> uvec3.
Variable run_shader : ComputeJob -> list Z.

(** The tensor returned for the output image of a submitted job. *)
Definition output_of (j : ComputeJob) : Tensor :=
  convert_v (pack_staging_to_vtensor (run_shader j) (job_output j)).

(** The kernel selection, uniform block and submission of
    [run_addmm_context], Mm.cpp:477-661; the result is the job handed to
    [submit_compute_job].  Both arms end in the same call, whose global work
    group is computed from the sizes of [v_output]. *)
Definition dispatch_addmm
    (input_arg : Tensor) (alpha beta : Q) (quantized : bool)
    (output_scale : Q) (output_zero_point : Z)
    (v_input packed_v_weight packed_v_bias v_output : vTensor)
    (bias_defined : bool) : result ComputeJob :=
  (* the call at Mm.cpp:552-578 and at Mm.cpp:635-660 *)
  let submit (compute_shader : Kernel) (params : ParamBlock)
             (images : list vTensor) : result ComputeJob :=
    w <- at_index (v_sizes v_output) Layout.Param.width ;;
    gx <- safe_downcast_uint32 (div_up w 4) ;;
    h <- at_index (v_sizes v_output) Layout.Param.height ;;
    gy <- safe_downcast_uint32 (div_up h 4) ;;
    Ok {| shader := compute_shader;
          global_work_group := (gx, gy, 1);
          local_work_group := (8, 8, 1);
          job_output := v_output;
          job_inputs := images;
          job_params := params |} in
  if bias_defined then
    selected <-
      (if quantized then
         let compute_shader :=
           if ScalarType_eqb kQInt8 (scalar_type input_arg)
           then VK_quantized_addmm_qint8
           else VK_quantized_addmm_quint8 in
         iw <- at_index (v_sizes v_input) Layout.Param.width ;;
         K <- safe_downcast_int32 (div_up iw 2) ;;
         izp <- safe_downcast_int32 (get_zero_point v_input) ;;
         wzp <- safe_downcast_int32 (get_zero_point packed_v_weight) ;;
         ozp <- safe_downcast_int32 output_zero_point ;;
         Ok (compute_shader,
             block_quantized_addmm
               (extents v_output) K (extents v_input) 0
               (extents packed_v_weight) 0 (extents packed_v_bias) 0
               (alpha, beta)
               (get_scale v_input, get_scale packed_v_weight)
               output_scale 0%Q (izp, wzp) ozp 0)
       else
         Ok (VK_addmm,
             block_addmm (extents v_output) (fst (fst (extents v_input)))
                         (extents packed_v_bias) 0 (alpha, beta))) ;;
    submit (fst selected) (snd selected)
           [v_input; packed_v_weight; packed_v_bias]
  else
    selected <-
      (if quantized then
         iw <- at_index (v_sizes v_input) Layout.Param.width ;;
         K <- safe_downcast_int32 (div_up iw 2) ;;
         izp <- safe_downcast_int32 (get_zero_point v_input) ;;
         wzp <- safe_downcast_int32 (get_zero_point packed_v_weight) ;;
         ozp <- safe_downcast_int32 output_zero_point ;;
         let compute_shader :=
           if ScalarType_eqb kQInt8 (scalar_type input_arg)
           then VK_quantized_mm_qint8
           else VK_quantized_mm_quint8 in
         Ok (compute_shader,
             block_quantized_mm
               (extents v_output) K (extents v_input) 0
               (extents packed_v_weight) 0
               (get_scale v_input, get_scale packed_v_weight)
               output_scale 0%Q (izp, wzp) ozp 0)
       else
         Ok (VK_mm,
             block_mm (extents v_output) (fst (fst (extents v_input))))) ;;
    submit (fst selected) (snd selected) [v_input; packed_v_weight].

(** The tensor [run_addmm_context] hands to [usable]: the input, collapsed
    to two dimensions and moved to the device (Mm.cpp:427-430). *)
Definition to_vulkan (t : Tensor) : Tensor :=
  if is_vulkan t then t else vulkan t.

(** The return of [run_addmm_context] and of [run_baddbmm_context]
    (Mm.cpp:663-673 and Mm.cpp:813-819). *)
Definition restore_shape (input_arg output : Tensor) : result Tensor :=
  shape <- restored_shape input_arg output ;;
  reshape output shape.

(** Mm.cpp:417-674. *)
Definition run_addmm_context
    (input_arg : Tensor) (alpha beta : Q) (linear_context : nat)
    (quantized : bool) (output_scale : Q) (output_zero_point : Z)
    (st : VkState) : result (Tensor * VkState) :=
  input_arg_2d <- (if dim input_arg =? 2 then Ok input_arg
                   else reshape_to_2d input_arg) ;;
  let input := to_vulkan input_arg_2d in
  v_input <- pack_inputs_using_height_packing input ;;
  ctx <- deref st linear_context ;;
  packed_v_weight <-
    (iv <- get_val ctx Packed.Weight ;; t <- toTensor iv ;; Ok (convert t)) ;;
  packed_v_bias <-
    (iv <- get_val ctx Packed.Bias ;; t <- toTensor iv ;; Ok (convert t)) ;;
  unpacked_weight_sizes <-
    (iv <- get_val ctx Packed.WeightSizes ;; toIntVector iv) ;;
  bias_defined <- (iv <- get_val ctx Packed.BiasDefined ;; toBool iv) ;;
  ok <- usable input unpacked_weight_sizes false ;;
  _ <- torch_check ok NotUsable ;;
  _ <- torch_check
         (negb quantized
          || (v_is_quantized packed_v_weight && v_is_quantized v_input))
         QuantizedWithUnquantized ;;
  _ <- torch_check
         (quantized
          || GPUMemoryLayout_eqb (gpu_memory_layout packed_v_weight)
                                 TENSOR_HEIGHT_PACKED)
         UnpackedWeight ;;
  out_h <- at_index (sizes input_arg_2d) Layout.Param.height ;;
  out_w <- at_index unpacked_weight_sizes Layout.Param.width ;;
  let v_output := new_vTensor [out_h; out_w] (scalar_type input_arg) in
  let v_output :=
    if quantized
    then set_zero_point (set_scale (set_is_quantized v_output) output_scale)
                        output_zero_point
    else v_output in
  job <- dispatch_addmm input_arg alpha beta quantized
           output_scale output_zero_point
           v_input packed_v_weight packed_v_bias v_output bias_defined ;;
  let st' := submit_compute_job st job in
  let output := output_of job in
  if dim input_arg =? 2 then Ok (output, st')
  else
    reshaped <- restore_shape input_arg output ;;
    Ok (reshaped, st').

(** The kernel selection, uniform block and submission of
    [run_baddbmm_context], Mm.cpp:719-811. *)
Definition dispatch_baddbmm
    (alpha beta : Q) (unpacked_weight_sizes : list Z)
    (v_input packed_v_weight packed_v_bias v_output : vTensor)
    (bias_defined : bool) : result ComputeJob :=
  (* the call at Mm.cpp:741-769 and at Mm.cpp:783-810 *)
  let submit (compute_shader : Kernel) (params : ParamBlock)
             (images : list vTensor) : result ComputeJob :=
    w <- at_index unpacked_weight_sizes Layout.BatchMatrices.width ;;
    gx <- safe_downcast_uint32 (div_up w 2) ;;
    h <- at_index (v_sizes v_input) Layout.BatchMatrices.height ;;
    gy <- safe_downcast_uint32 (div_up h 2) ;;
    b <- at_index (v_sizes v_input) Layout.BatchMatrices.batch ;;
    gz <- safe_downcast_uint32 (div_up b 4) ;;
    Ok {| shader := compute_shader;
          global_work_group := (gx, gy, gz);
          local_work_group := (8, 8, 1);
          job_output := v_output;
          job_inputs := images;
          job_params := params |} in
  iw <- at_index (v_sizes v_input) Layout.BatchMatrices.width ;;
  k <- safe_downcast_int32 (div_up iw 2) ;;
  if bias_defined then
    submit VK_baddbmm
           (block_baddbmm (extents v_output) k (extents packed_v_bias) 0
                          (alpha, beta))
           [v_input; packed_v_weight; packed_v_bias]
  else
    submit VK_bmm (block_bmm (extents v_output) k)
           [v_input; packed_v_weight].

(** Mm.cpp:676-820. *)
Definition run_baddbmm_context
    (input_arg : Tensor) (alpha beta : Q) (linear_context : nat)
    (st : VkState) : result (Tensor * VkState) :=
  _ <- torch_check (dim input_arg =? 3) BatchInputNot3D ;;
  let input := to_vulkan input_arg in
  let v_input := convert input in
  ctx <- deref st linear_context ;;
  packed_v_weight <-
    (iv <- get_val ctx Packed.Weight ;; t <- toTensor iv ;; Ok (convert t)) ;;
  packed_v_bias <-
    (iv <- get_val ctx Packed.Bias ;; t <- toTensor iv ;; Ok (convert t)) ;;
  unpacked_weight_sizes <-
    (iv <- get_val ctx Packed.WeightSizes ;; toIntVector iv) ;;
  bias_defined <- (iv <- get_val ctx Packed.BiasDefined ;; toBool iv) ;;
  ok <- usable input unpacked_weight_sizes true ;;
  _ <- torch_check ok NotUsable ;;
  out_b <- at_index (v_sizes v_input) Layout.BatchMatrices.batch ;;
  out_h <- at_index (v_sizes v_input) Layout.BatchMatrices.height ;;
  out_w <- at_index unpacked_weight_sizes Layout.BatchMatrices.width ;;
  let v_output := new_vTensor [out_b; out_h; out_w] (scalar_type input_arg) in
  job <- dispatch_baddbmm alpha beta unpacked_weight_sizes
           v_input packed_v_weight packed_v_bias v_output bias_defined ;;
  let st' := submit_compute_job st job in
  let output := output_of job in
  reshaped <- restore_shape input_arg output ;;
  Ok (reshaped, st').

(** A context built for one call: made, pointed to, used, and dropped with
    the temporary pointer (Mm.cpp:832, 844, 856, 870). *)
Definition with_temporary_context
    (c : result LinearPackedContext) (st : VkState)
    (call : nat -> VkState -> result (Tensor * VkState))
    : result (Tensor * VkState) :=
  ctx <- c ;;
  let '(p, st1) := make_intrusive st ctx in
  r <- call p st1 ;;
  Ok (fst r, release (snd r) p).

(** Mm.cpp:822-837. *)
Definition addmm (g : GlobalContext)
    (bias input weight : Tensor) (beta alpha : Q) (st : VkState)
    : result (Tensor * VkState) :=
  with_temporary_context (LinearPackedContext_new g weight (Some bias) false)
    st (fun p => run_addmm_context input alpha beta p false 0%Q 0).

(** Mm.cpp:839-849. *)
Definition mm (g : GlobalContext) (mat1_arg mat2_arg : Tensor)
    (st : VkState) : result (Tensor * VkState) :=
  with_temporary_context (LinearPackedContext_new g mat2_arg None false)
    st (fun p => run_addmm_context mat1_arg 1%Q 1%Q p false 0%Q 0).

(** Mm.cpp:851-858. *)
Definition bmm (g : GlobalContext) (mat1_arg mat2_arg : Tensor)
    (st : VkState) : result (Tensor * VkState) :=
  with_temporary_context (LinearPackedContext_new g mat2_arg None true)
    st (fun p => run_baddbmm_context mat1_arg 1%Q 1%Q p).

(** Mm.cpp:860-872. *)
Definition baddbmm (g : GlobalContext)
    (bias input weight : Tensor) (beta alpha : Q) (st : VkState)
    : result (Tensor * VkState) :=
  with_temporary_context (LinearPackedContext_new g weight (Some bias) true)
    st (fun p => run_baddbmm_context input alpha beta p).

(** Mm.cpp:917-922. *)
Definition create_linear_context (g : GlobalContext)
    (weight : Tensor) (bias : option Tensor) (st : VkState)
    : result (nat * VkState) :=
  ctx <- LinearPackedContext_new g weight bias false ;;
  Ok (make_intrusive st ctx).

(** Mm.cpp:924-928. *)
Definition run_linear_context (input : Tensor) (linear_context : nat)
    (st : VkState) : result (Tensor * VkState) :=
  run_addmm_context input 1%Q 1%Q linear_context false 0%Q 0 st.

(** Mm.cpp:930-943. *)
Definition run_qlinear_context
    (input_arg : Tensor) (output_scale : Q) (output_zero_point : Z)
    (linear_context : nat) (st : VkState) : result (Tensor * VkState) :=
  run_addmm_context input_arg 1%Q 1%Q linear_context true
                    output_scale output_zero_point st.

End Dispatch.

(** ** Sample operands *)

(** A defined host tensor that does not require gradients. *)
Definition host_tensor (szs : list Z) (dtype : ScalarType) (d : list Z)
    : Tensor :=
  {| defined := true; sizes := szs; device := CPU; scalar_type := dtype;
     requires_grad := false; is_quantized := false; q_scale := 1%Q;
     q_zero_point := 0; data := d; opaque := new_vTensor szs dtype |}.

(** A device tensor around an image with the given layout tag. *)
Definition device_tensor (szs : list Z) (dtype : ScalarType)
    (layout : GPUMemoryLayout) (d : list Z) : Tensor :=
  convert_v
    (set_layout (pack_staging_to_vtensor d (new_vTensor szs dtype)) layout).

Definition with_requires_grad (t : Tensor) : Tensor :=
  {| defined := defined t; sizes := sizes t; device := device t;
     scalar_type := scalar_type t; requires_grad := true;
     is_quantized := is_quantized t; q_scale := q_scale t;
     q_zero_point := q_zero_point t; data := data t; opaque := opaque t |}.

Definition vulkan_on : GlobalContext :=
  {| api_available := true; releaseWeightsWhenPrepacking := false |}.

Definition weight_3x4 : Tensor :=
  host_tensor [3; 4] kFloat [1; 2; 3; 4; 5; 6; 7; 8; 9; 10; 11; 12].
Definition bias_1x4 : Tensor := host_tensor [1; 4] kFloat [1; 2; 3; 4].
Definition bias_7 : Tensor :=
  host_tensor [7] kFloat [1; 2; 3; 4; 5; 6; 7].
Definition input_2x3 : Tensor :=
  host_tensor [2; 3] kFloat [1; 2; 3; 4; 5; 6].

(** A quantized host weight, as [at::quantize_per_tensor] gives it. *)
Definition quantized_host_tensor (szs : list Z) (dtype : ScalarType)
    (scale : Q) (zero_point : Z) (d : list Z) : Tensor :=
  {| defined := true; sizes := szs; device := CPU; scalar_type := dtype;
     requires_grad := false; is_quantized := true; q_scale := scale;
     q_zero_point := zero_point; data := d;
     opaque := new_vTensor szs dtype |}.

Definition qweight_3x3 : Tensor :=
  quantized_host_tensor [3; 3] kQInt8 (1 # 2) 0 [1; 2; 3; 4; 5; 6; 7; 8; 9].
Definition batch_weight_2x3x2 : Tensor :=
  host_tensor [2; 3; 2] kFloat [1; 2; 3; 4; 5; 6; 7; 8; 9; 10; 11; 12].
Definition batch_bias_1x2 : Tensor := host_tensor [1; 2] kFloat [5; 6].
Definition batch_input_2x2x3 : Tensor :=
  host_tensor [2; 2; 3] kFloat [1; 2; 3; 4; 5; 6; 7; 8; 9; 10; 11; 12].

(** Stand-ins for the two collaborators of the dispatcher, to run it on
    sample operands: extents read off the sizes (width, height, depth), and
    a shader that leaves a cleared output image. *)
Definition sample_extents (v : vTensor) : uvec3 :=
  match v_sizes v with
  | [w] => (w, 1, 1)
  | [h; w] => (w, h, 1)
  | [c; h; w] => (w, h, div_up c 4)
  | [n; c; h; w] => (w, h, n * div_up c 4)
  | _ => (1, 1, 1)
  end.

Definition sample_shader (j : ComputeJob) : list Z :=
  zeroed_staging (job_output j).

Definition empty_state : VkState := {| queue := []; heap := [] |}.

Definition input_2x2x5x3 : Tensor :=
  host_tensor [2; 2; 5; 3] kFloat (replicate 60 1).

(** A quantized device input: the tensor itself does not answer
    [is_quantized]; its image does. *)
Definition qinput_2x3 (dtype : ScalarType) : Tensor :=
  convert_v
    (set_scale
       (set_is_quantized
          (pack_staging_to_vtensor [1; 2; 3; 4; 5; 6]
             (new_vTensor [2; 3] dtype)))
       (1 # 4)).

Definition qweight_3x4 : Tensor :=
  quantized_host_tensor [3; 4] kQInt8 (1 # 2) 0
    [1; 2; 3; 4; 5; 6; 7; 8; 9; 10; 11; 12].
Definition bias_4 : Tensor := host_tensor [4] kFloat [1; 2; 3; 4].

(** The value of a successful call, for sample runs. *)
Definition ok_value {A : Type} (r : result A) (d : A) : A :=
  match r with Ok a => a | Err _ => d end.

(** A state that holds one context, for weight 3 x 4 and a bias of 4, behind
    pointer 0; and a first call of [run_linear_context] in it. *)
Definition sample_context_state : VkState :=
  snd (ok_value (create_linear_context vulkan_on weight_3x4 (Some bias_4)
                                       empty_state)
                (0%nat, empty_state)).

Definition sample_run : Tensor * VkState :=
  ok_value (run_linear_context sample_extents sample_shader input_2x3 0
                               sample_context_state)
           (input_2x3, empty_state).

(** A state that holds one batched context. *)
Definition sample_batch_state : VkState :=
  snd (make_intrusive empty_state
         (ok_value (LinearPackedContext_new vulkan_on batch_weight_2x3x2
                                            (Some batch_bias_1x2) true)
                   {| packed_ := []; unpacked_ := [] |})).

Definition sample_batch_run : Tensor * VkState :=
  ok_value (run_baddbmm_context sample_extents sample_shader
              batch_input_2x2x3 1%Q 1%Q 0 sample_batch_state)
           (input_2x3, empty_state).

Definition sample_run_4d : Tensor * VkState :=
  ok_value (run_addmm_context sample_extents sample_shader input_2x2x5x3
              1%Q 1%Q 0 false 0%Q 0 sample_context_state)
           (input_2x3, empty_state).

(** A float weight already on the device, behind a width-packed image. *)
Definition weight_3x4_width_packed : Tensor :=
  device_tensor [3; 4] kFloat TENSOR_WIDTH_PACKED
    [1; 2; 3; 4; 5; 6; 7; 8; 9; 10; 11; 12].

Definition sample_context : LinearPackedContext :=
  ok_value (LinearPackedContext_new vulkan_on weight_3x4 (Some bias_4) false)
           {| packed_ := []; unpacked_ := [] |}.

Definition input_double_2x3 : Tensor :=
  host_tensor [2; 3] kDouble [1; 2; 3; 4; 5; 6].
Definition input_5x3 : Tensor := host_tensor [5; 3] kFloat (replicate 15 1).
Definition weight_3x9 : Tensor := host_tensor [3; 9] kFloat (replicate 27 1).

(** The jobs a call left in the queue: kernel, global and local work
    group. *)
Definition submitted (r : result (Tensor * VkState))
    : list (Kernel * uvec3 * uvec3) :=
  match r with
  | Ok (_, st) =>
    map (fun j => (shader j, global_work_group j, local_work_group j))
        (queue st)
  | Err _ => []
  end.

(** [run_qlinear_context] in a context made for the call. *)
Definition qlinear (weight : Tensor) (bias : option Tensor) (input : Tensor)
    : result (Tensor * VkState) :=
  match create_linear_context vulkan_on weight bias empty_state with
  | Ok (p, st) =>
    run_qlinear_context sample_extents sample_shader input (1 # 8) 3 p st
  | Err e => Err e
  end.

(** A bias of rank 0. *)
Definition scalar_bias : Tensor := host_tensor [] kFloat [1].

(** ** Reading the staged copy *)

(** The element copies of a staged loop, in the order they are made, as
    pairs (destination offset, source offset), and their effect. *)
Fixpoint run_writes (src : list Z) (ws : list (Z * Z)) (dst : list Z)
    : result (list Z) :=
  match ws with
  | [] => Ok dst
  | (d, s) :: ws' => dst' <- memcpy1 src d s dst ;; run_writes src ws' dst'
  end.

Definition loop_writes (bs hs ws : list Z) (D S : Z -> Z -> Z -> Z)
    : list (Z * Z) :=
  flat_map (fun b =>
    flat_map (fun h => map (fun w => (D b h w, S b h w)) ws) hs) bs.

(** The offset of element (b, c, y, x) in the row-major contents of an
    image of sizes (B, 4, H, W): channel [c], plane position (y, x). *)
Definition image_offset (H W b c y x : Z) : Z :=
  ((b * 4 + c) * H + y) * W + x.

(** The offset of element (b, h, w) in the row-major contents of a batch of
    matrices of sizes (B, rows, cols). *)
Definition matrix_offset (rows cols b h w : Z) : Z :=
  (b * rows + h) * cols + w.

(** The destination offset both staged loops compute
    (Mm.cpp:241-245). *)
Definition tile_offset (dst_kh_sz dst_kw_sz src_b src_h src_w : Z) : Z :=
  src_b * (dst_kw_sz * dst_kh_sz * 4)
  + (2 * (Z.rem src_h 2) + (Z.rem src_w 2)) * (dst_kw_sz * dst_kh_sz)
  + ((Z.quot src_h 2) * dst_kw_sz + (Z.quot src_w 2)).

(** What "element (h, w) of matrix b is at channel 2*(h%2)+(w%2), plane
    position (h/2, w/2)" says of the row-major contents [src] of a batch of
    [kh] x [kw] matrices and the contents [img] of an image of sizes
    (kb, 4, H, W). *)
Definition tiled (src img : list Z) (kb kh kw H W : Z) : Prop :=
  forall b h w, 0 <= b < kb -> 0 <= h < kh -> 0 <= w < kw ->
    exists x,
      src !! Z.to_nat (matrix_offset kh kw b h w) = Some x
      /\ img !! Z.to_nat
                  (image_offset H W b (2 * (h mod 2) + w mod 2)
                                (h / 2) (w / 2)) = Some x.

(** The shape in which [pack_weights] reads a weight. *)
Definition weight_shape (use_batch : bool) (kb kh kw : Z) : list Z :=
  if use_batch then [kb; kh; kw] else [kh; kw].

(** The shapes in which the batched [pack_biases] reads a bias
    (Mm.cpp:188-203). *)
Definition bias_shape (b_sizes : list Z) (kb kh kw : Z) : Prop :=
  b_sizes = [kb; kh; kw]
  \/ (kb = 1 /\ b_sizes = [kh; kw])
  \/ (kb = 1 /\ kh = 1 /\ b_sizes = [kw]).

(** ** Reading the dispatcher *)

(** The kernel table of the spec: the kernel by the three booleans, and for
    the quantized kernels by the input's element type. *)
Definition spec_kernel
    (quantized bias_defined batched : bool) (input_dtype : ScalarType)
    : Kernel :=
  match batched, quantized, bias_defined with
  | true, _, false => VK_bmm
  | true, _, true => VK_baddbmm
  | false, false, false => VK_mm
  | false, false, true => VK_addmm
  | false, true, false =>
    if ScalarType_eqb kQInt8 input_dtype
    then VK_quantized_mm_qint8 else VK_quantized_mm_quint8
  | false, true, true =>
    if ScalarType_eqb kQInt8 input_dtype
    then VK_quantized_addmm_qint8 else VK_quantized_addmm_quint8
  end.

(** The output image [run_addmm_context] allocates (Mm.cpp:462-475). *)
Definition addmm_output
    (input_arg : Tensor) (quantized : bool) (output_scale : Q)
    (output_zero_point : Z) (out_h out_w : Z) : vTensor :=
  let v_output := new_vTensor [out_h; out_w] (scalar_type input_arg) in
  if quantized
  then set_zero_point (set_scale (set_is_quantized v_output) output_scale)
                      output_zero_point
  else v_output.

(** What one successful call of [run_addmm_context] went through. *)
Record addmm_run : Type := mk_addmm_run {
  r_input_2d : Tensor;
  r_v_input : vTensor;
  r_ctx : LinearPackedContext;
  r_weight : Tensor;
  r_bias : Tensor;
  r_weight_sizes : list Z;
  r_bias_defined : bool;
  r_out_h : Z;
  r_out_w : Z;
  r_job : ComputeJob
}.

Section DispatchReading.

Variable extents : vTensor -> uvec3.
Variable run_shader : ComputeJob -> list Z.

(** The steps of a successful [run_addmm_context], in the order of the
    source. *)
Definition addmm_steps
    (input_arg : Tensor) (alpha beta : Q) (linear_context : nat)
    (quantized : bool) (output_scale : Q) (output_zero_point : Z)
    (st : VkState) (out : Tensor) (st' : VkState) (r : addmm_run) : Prop :=
  (if dim input_arg =? 2 then Ok input_arg else reshape_to_2d input_arg)
  = Ok (r_input_2d r)
  /\ pack_inputs_using_height_packing (to_vulkan (r_input_2d r))
     = Ok (r_v_input r)
  /\ deref st linear_context = Ok (r_ctx r)
  /\ get_val (r_ctx r) Packed.Weight = Ok (IVTensor (r_weight r))
  /\ get_val (r_ctx r) Packed.Bias = Ok (IVTensor (r_bias r))
  /\ get_val (r_ctx r) Packed.WeightSizes = Ok (IVIntVector (r_weight_sizes r))
  /\ get_val (r_ctx r) Packed.BiasDefined = Ok (IVBool (r_bias_defined r))
  /\ usable (to_vulkan (r_input_2d r)) (r_weight_sizes r) false = Ok true
  /\ negb quantized
     || (v_is_quantized (convert (r_weight r))
         && v_is_quantized (r_v_input r)) = true
  /\ quantized
     || GPUMemoryLayout_eqb (gpu_memory_layout (convert (r_weight r)))
                            TENSOR_HEIGHT_PACKED = true
  /\ at_index (sizes (r_input_2d r)) Layout.Param.height = Ok (r_out_h r)
  /\ at_index (r_weight_sizes r) Layout.Param.width = Ok (r_out_w r)
  /\ dispatch_addmm extents input_arg alpha beta quantized
       output_scale output_zero_point
       (r_v_input r) (convert (r_weight r)) (convert (r_bias r))
       (addmm_output input_arg quantized output_scale output_zero_point
                     (r_out_h r) (r_out_w r))
       (r_bias_defined r) = Ok (r_job r)
  /\ st' = submit_compute_job st (r_job r)
  /\ (if dim input_arg =? 2 then Ok (output_of run_shader (r_job r))
      else restore_shape input_arg (output_of run_shader (r_job r)))
     = Ok out.

End DispatchReading.

(** What a call reads of the context behind [p]: two states agree on it
    when the four packed values are the same. *)
Definition same_packed (st st2 : VkState) (p : nat) : Prop :=
  forall ctx, deref st p = Ok ctx ->
  exists ctx2,
    deref st2 p = Ok ctx2
    /\ get_val ctx2 Packed.Weight = get_val ctx Packed.Weight
    /\ get_val ctx2 Packed.Bias = get_val ctx Packed.Bias
    /\ get_val ctx2 Packed.WeightSizes = get_val ctx Packed.WeightSizes
    /\ get_val ctx2 Packed.BiasDefined = get_val ctx Packed.BiasDefined.

(** ** Reading the errors *)

(** [r] raises nothing but errors of [P]. *)
Definition raises_only {A : Type} (P : Error -> Prop) (r : result A) : Prop :=
  forall e, r = Err e -> P e.

(** The two errors that turn an input away: the device check of the input
    packing (Mm.cpp:34) and the [usable] check (Mm.cpp:444). *)
Definition not_an_input_rejection (e : Error) : Prop :=
  e <> InputMustBeOnVulkan /\ e <> NotUsable.

(** The element types [usable] admits, unbatched (Mm.cpp:399-401). *)
Definition usable_dtype (t : Tensor) : Prop :=
  scalar_type t = kFloat
  \/ (v_is_quantized (convert t) = true
      /\ (scalar_type t = kQInt8 \/ scalar_type t = kQUInt8)).

(** The [usable] check of [run_addmm_context] turned the input away: the
    tensor it was handed is the two-dimensional form of the input, it lives
    on the device, and it fails one of the other conditions. *)
Definition usable_rejection (input_arg : Tensor) (uws : list Z) : Prop :=
  exists t,
    (if dim input_arg =? 2 then Ok input_arg else reshape_to_2d input_arg)
    = Ok t
    /\ device (to_vulkan t) = Vulkan
    /\ usable (to_vulkan t) uws false = Ok false
    /\ ~ (length (sizes (to_vulkan t)) = 2%nat
          /\ usable_dtype (to_vulkan t)
          /\ requires_grad (to_vulkan t) = false
          /\ exists k, sizes (to_vulkan t) !! 1%nat = Some k
                       /\ uws !! 0%nat = Some k).

(** The context [mm] builds for a host float weight (k, n). *)
Definition mm_context (g : GlobalContext) (k n : Z) (b : list Z)
    : LinearPackedContext :=
  {| packed_ :=
       [ IVTensor
           (convert_v
              (packing.convert_image_channels_packed_to_height_packed
                 (convert (vulkan (host_tensor [k; n] kFloat b)))));
         IVTensor
           (convert_v
              (pack_staging_to_vtensor
                 (zeroed_staging (new_vTensor [1] kFloat))
                 (new_vTensor [1] kFloat)));
         IVIntVector [k; n];
         IVBool false ];
     unpacked_ :=
       if negb (releaseWeightsWhenPrepacking g)
       then [ IVTensor (host_tensor [k; n] kFloat b); IVNone ]
       else [] |}.

Section JobOfMm.

Variable extents : vTensor -> uvec3.

(** The job [mm] submits for host float matrices (m, k) and (k, n). *)
Definition mm_job (m k n : Z) (a b : list Z) : ComputeJob :=
  let v_input :=
    packing.convert_image_channels_packed_to_width_packed
      (convert (vulkan (host_tensor [m; k] kFloat a))) in
  let v_output := new_vTensor [m; n] kFloat in
  {| shader := VK_mm;
     global_work_group := (div_up n 4, div_up m 4, 1);
     local_work_group := (8, 8, 1);
     job_output := v_output;
     job_inputs :=
       [ v_input;
         packing.convert_image_channels_packed_to_height_packed
           (convert (vulkan (host_tensor [k; n] kFloat b))) ];
     job_params :=
       block_mm (extents v_output) (fst (fst (extents v_input))) |}.

End JobOfMm.

(** ** Re-packing a context *)

(** [c10::impl::GenericList::get]. *)
Definition list_get (l : list IValue) (i : nat) : result IValue :=
  match l !! i with
  | Some v => Ok v
  | None => Err OutOfBounds
  end.

(** [get_optional_tensor(list, idx)] (ops/Utils.h, not part of this file's
    source): the tensor at [idx] when the entry is one, no tensor when it
    is any other value. *)
Definition get_optional_tensor (l : list IValue) (i : nat)
    : result (option Tensor) :=
  v <- list_get l i ;;
  Ok (match v with IVTensor t => Some t | _ => None end).

(** [LinearPackedContext::pack], Mm.cpp:911-915.  The constructor is called
    without [use_batch], which defaults to false. *)
Definition pack (g : GlobalContext) (unpacked : list IValue)
    : result LinearPackedContext :=
  weight <- (v <- list_get unpacked Unpacked.Weight ;; toTensor v) ;;
  bias <- get_optional_tensor unpacked Unpacked.Bias ;;
  LinearPackedContext_new g weight bias false.

(** ** Reading [available] *)

(** The conditions of [available] on the weight. *)
Definition weight_eligible (weight : Tensor) (use_batch : bool) : Prop :=
  length (sizes weight) = (if use_batch then 3 else 2)%nat
  /\ Forall (fun s => 0 < s) (sizes weight)
  /\ (device weight = CPU \/ device weight = Vulkan)
  /\ (scalar_type weight = kFloat
      \/ (use_batch = false /\ scalar_type weight = kQInt8))
  /\ requires_grad weight = false.

(** The conditions of [available] on a defined bias that do not depend on
    its shape. *)
Definition bias_eligible (b : Tensor) : Prop :=
  (1 <= length (sizes b))%nat
  /\ (device b = CPU \/ device b = Vulkan)
  /\ scalar_type b = kFloat
  /\ requires_grad b = false.

(** The shape condition of the unbatched [available] (Mm.cpp:367-370): for
    a bias of rank above 1, its size on axis 1 is the weight's width. *)
Definition bias_shape_unbatched (b_sizes w_sizes : list Z) : Prop :=
  (2 <= length b_sizes)%nat ->
  exists W, b_sizes !! 1%nat = Some W /\ w_sizes !! 1%nat = Some W.

(** The shape condition of the batched [available] (Mm.cpp:312-333), for a
    weight (Bw, Hw, Ww): rank 3 compares width and batch, rank 2 the last
    axis, any other rank the first axis; each may also be 1. *)
Definition bias_shape_batched (b_sizes : list Z) (Bw Ww : Z) : Prop :=
  match b_sizes with
  | [B; _; W] => (W = Ww \/ W = 1) /\ (B = Bw \/ B = 1)
  | [_; W] => W = Ww \/ W = 1
  | s0 :: _ => s0 = Ww \/ s0 = 1
  | [] => False
  end.

(** A tensor with other sizes. *)
Definition with_sizes (t : Tensor) (szs : list Z) : Tensor :=
  {| defined := defined t; sizes := szs; device := device t;
     scalar_type := scalar_type t; requires_grad := requires_grad t;
     is_quantized := is_quantized t; q_scale := q_scale t;
     q_zero_point := q_zero_point t; data := data t; opaque := opaque t |}.

Definition vulkan_off : GlobalContext :=
  {| api_available := false; releaseWeightsWhenPrepacking := false |}.

(** ** Reading the height and width packing *)

(** The tensor whose image the two packing functions read: the operand,
    moved to the device when it is on the host (Mm.cpp:30-32, 62-64). *)
Definition moved (t : Tensor) : Tensor :=
  if is_cpu t then vulkan t else t.

Definition input_2x3_height_packed : Tensor :=
  device_tensor [2; 3] kFloat TENSOR_HEIGHT_PACKED [1; 2; 3; 4; 5; 6].

(** ** Reading the staged bias image *)

(** The extents the bias loops run over (Mm.cpp:238-240): an axis of size 1
    is run over twice, the width only in a batched call. *)
Definition broadcast_extent (enabled : bool) (k : Z) : Z :=
  if enabled && (k =? 1) then 2 else k.

(** The element the staged bias image holds at channel [c], plane position
    (y, x) of matrix [b]: row h = 2y + c/2 and column w = 2x + c%2 of the
    bias, read modulo its sizes, inside the extents of the loops; zero
    outside. *)
Definition bias_image_element
    (src : list Z) (use_batch : bool) (kh kw b c y x : Z) : option Z :=
  let h := 2 * y + c / 2 in
  let w := 2 * x + c mod 2 in
  if (h <? broadcast_extent true kh) && (w <? broadcast_extent use_batch kw)
  then src !! Z.to_nat (matrix_offset kh kw b (h mod kh) (w mod kw))
  else Some 0.

Definition batch_bias_3x1 : Tensor := host_tensor [3; 1] kFloat [7; 8; 9].

Definition vulkan_releasing : GlobalContext :=
  {| api_available := true; releaseWeightsWhenPrepacking := true |}.

Definition sample_batch_context : LinearPackedContext :=
  ok_value (LinearPackedContext_new vulkan_on batch_weight_2x3x2
                                    (Some batch_bias_1x2) true)
           {| packed_ := []; unpacked_ := [] |}.

Definition sample_released_context : LinearPackedContext :=
  ok_value (LinearPackedContext_new vulkan_releasing weight_3x4
                                    (Some bias_4) false)
           {| packed_ := []; unpacked_ := [] |}.

Definition sample_output_20x4 : Tensor :=
  device_tensor [20; 4] kFloat TENSOR_CHANNELS_PACKED (replicate 80 0).

(** [mm] of two sample matrices, in a state that already holds a context. *)
Definition sample_mm : Tensor * VkState :=
  ok_value (mm sample_extents sample_shader vulkan_on input_2x3 weight_3x4
              sample_context_state)
           (input_2x3, empty_state).

(** A state that holds one context for a quantized weight 3 x 4, and a call
    of [run_qlinear_context] in it. *)
Definition sample_quantized_state : VkState :=
  snd (ok_value (create_linear_context vulkan_on qweight_3x4 (Some bias_4)
                                       empty_state)
                (0%nat, empty_state)).

Definition sample_quantized_run : Tensor * VkState :=
  ok_value (run_qlinear_context sample_extents sample_shader
              (qinput_2x3 kQInt8) (1 # 8) 3 0 sample_quantized_state)
           (input_2x3, empty_state).

(** The two element types [pack_weights] takes for quantized
    (Mm.cpp:91-99). *)
Definition quantized_dtype (t : ScalarType) : bool :=
  match t with kQInt8 | kQUInt8 => true | _ => false end.

Definition sample_quantized_weight : vTensor :=
  ok_value (pack_weights qweight_3x4 false) (new_vTensor [] kFloat).

Definition sample_quantized_context : LinearPackedContext :=
  ok_value (LinearPackedContext_new vulkan_on qweight_3x4 (Some bias_4) false)
           {| packed_ := []; unpacked_ := [] |}.

(** A state that holds one context without a bias, for weight 3 x 4. *)
Definition sample_no_bias_state : VkState :=
  snd (make_intrusive empty_state
         (mm_context vulkan_on 3 4 (data weight_3x4))).

(** * Properties *)

(** ** Decidable equalities *)

Lemma DeviceType_eqb_eq a b : DeviceType_eqb a b = true <-> a = b.
Proof. destruct a, b; simpl; split; congruence. Qed.

Lemma ScalarType_eqb_eq a b : ScalarType_eqb a b = true <-> a = b.
Proof. destruct a, b; simpl; split; congruence. Qed.

Lemma GPUMemoryLayout_eqb_eq a b : GPUMemoryLayout_eqb a b = true <-> a = b.
Proof. destruct a, b; simpl; split; congruence. Qed.

(** ** The error monad *)

Lemma andthen_true (a b : result bool) :
  a &&& b = Ok true <-> a = Ok true /\ b = Ok true.
Proof.
  unfold andthen, bind. split.
  - destruct a as [[|]|e]; intros H; try discriminate.
    split; [reflexivity | exact H].
  - intros [-> ->]. reflexivity.
Qed.

Lemma andthen_false_l (a b : result bool) :
  a = Ok false -> a &&& b = Ok false.
Proof. intros ->. reflexivity. Qed.

Lemma andthen_true_l (b : result bool) : Ok true &&& b = b.
Proof. reflexivity. Qed.

Lemma andthen_pure (x y : bool) : Ok x &&& Ok y = Ok (x && y).
Proof. destruct x; reflexivity. Qed.

Lemma ndimension_eqb (n : nat) (t : Tensor) :
  (Z.of_nat n =? ndimension t) = Nat.eqb n (length (sizes t)).
Proof.
  unfold ndimension.
  destruct (Nat.eqb_spec n (length (sizes t))) as [->|Hne].
  - apply Z.eqb_refl.
  - apply Z.eqb_neq. lia.
Qed.

Lemma size_lookup (t : Tensor) (i : nat) (x : Z) :
  sizes t !! i = Some x -> size t (Z.of_nat i) = Ok x.
Proof.
  intros H. unfold size, ndimension.
  assert (Hlt : (i < length (sizes t))%nat) by (eapply lookup_lt_Some; eauto).
  destruct (Z.ltb_spec (Z.of_nat i) 0) as [?|_]; [lia|].
  destruct (Z.leb_spec 0 (Z.of_nat i)) as [_|?]; [|lia].
  destruct (Z.ltb_spec (Z.of_nat i) (Z.of_nat (length (sizes t)))) as [_|?];
    [|lia].
  simpl. rewrite Nat2Z.id, H. reflexivity.
Qed.

Lemma at_index_lookup (l : list Z) (i : nat) :
  at_index l (Z.of_nat i) =
  match l !! i with Some x => Ok x | None => Err OutOfBounds end.
Proof.
  unfold at_index.
  destruct (Z.ltb_spec (Z.of_nat i) 0) as [?|_]; [lia|].
  rewrite Nat2Z.id. reflexivity.
Qed.

(** ** Eligibility *)

(** The weight conjunct of [available], unbatched: it never raises, and it
    holds exactly for an eligible weight. *)
Lemma weight_available_unbatched (weight : Tensor) :
  exists r : bool,
    Ok (2 =? ndimension weight)
    &&& (s <- size weight Layout.Param.height ;; Ok (0 <? s))
    &&& (s <- size weight Layout.Param.width ;; Ok (0 <? s))
    &&& Ok (on_cpu_or_vulkan weight)
    &&& Ok (ScalarType_eqb kFloat (scalar_type weight)
            || ScalarType_eqb kQInt8 (scalar_type weight))
    &&& Ok (negb (requires_grad weight)) = Ok r
    /\ (r = true <->
        length (sizes weight) = 2%nat
        /\ Forall (fun s => 0 < s) (sizes weight)
        /\ (device weight = CPU \/ device weight = Vulkan)
        /\ (scalar_type weight = kFloat \/ scalar_type weight = kQInt8)
        /\ requires_grad weight = false).
Proof.
  change 2 with (Z.of_nat 2) at 1. rewrite ndimension_eqb.
  change Layout.Param.height with (Z.of_nat 0).
  change Layout.Param.width with (Z.of_nat 1).
  destruct (sizes weight) as [|h [|w [|x l]]] eqn:Hs; cbn [length Nat.eqb];
    try (eexists; split; [reflexivity|]; split;
         [discriminate | intros [Hl _]; discriminate]).
  rewrite (size_lookup weight 0 h), (size_lookup weight 1 w)
    by (rewrite Hs; reflexivity).
  cbn [bind andthen].
  replace (if 0 <? h then Ok (0 <? w) else Ok false)
    with (Ok ((0 <? h) && (0 <? w)) : result bool)
    by (destruct (0 <? h); reflexivity).
  rewrite !andthen_pure. eexists; split; [reflexivity|].
  rewrite !andb_true_iff, !orb_true_iff, negb_true_iff, !Z.ltb_lt.
  unfold on_cpu_or_vulkan, is_cpu.
  rewrite orb_true_iff, !DeviceType_eqb_eq, !ScalarType_eqb_eq.
  split.
  - intros [[[[Hh Hw] Hd] Ht] Hg]. repeat split; auto.
    + destruct Hd; auto.
    + destruct Ht; auto.
  - intros (_ & HF & Hd & Ht & Hg).
    inversion HF as [|? ? Hh HF']; subst. inversion HF' as [|? ? Hw _]; subst.
    repeat split; auto.
    + destruct Hd; auto.
    + destruct Ht; auto.
Qed.

Lemma size_Ok_iff (t : Tensor) (i : nat) (x : Z) :
  size t (Z.of_nat i) = Ok x <-> sizes t !! i = Some x.
Proof.
  split; [|apply size_lookup].
  unfold size, ndimension.
  destruct (Z.ltb_spec (Z.of_nat i) 0) as [?|_]; [lia|].
  destruct ((0 <=? Z.of_nat i) && (Z.of_nat i <? Z.of_nat (length (sizes t))));
    [|discriminate].
  rewrite Nat2Z.id. destruct (sizes t !! i); congruence.
Qed.

(** The weight conjunct of [available_check_with_batch]. *)
Lemma weight_available_batched (weight : Tensor) :
  exists r : bool,
    Ok (3 =? ndimension weight)
    &&& (s <- size weight Layout.BatchMatrices.batch ;; Ok (0 <? s))
    &&& (s <- size weight Layout.BatchMatrices.height ;; Ok (0 <? s))
    &&& (s <- size weight Layout.BatchMatrices.width ;; Ok (0 <? s))
    &&& Ok (on_cpu_or_vulkan weight)
    &&& Ok (ScalarType_eqb kFloat (scalar_type weight))
    &&& Ok (negb (requires_grad weight)) = Ok r
    /\ (r = true <->
        length (sizes weight) = 3%nat
        /\ Forall (fun s => 0 < s) (sizes weight)
        /\ (device weight = CPU \/ device weight = Vulkan)
        /\ scalar_type weight = kFloat
        /\ requires_grad weight = false).
Proof.
  change 3 with (Z.of_nat 3) at 1. rewrite ndimension_eqb.
  change Layout.BatchMatrices.batch with (Z.of_nat 0).
  change Layout.BatchMatrices.height with (Z.of_nat 1).
  change Layout.BatchMatrices.width with (Z.of_nat 2).
  destruct (sizes weight) as [|b [|h [|w [|x l]]]] eqn:Hs;
    cbn [length Nat.eqb];
    try (eexists; split; [reflexivity|]; split;
         [discriminate | intros [Hl _]; discriminate]).
  rewrite (size_lookup weight 0 b), (size_lookup weight 1 h),
    (size_lookup weight 2 w) by (rewrite Hs; reflexivity).
  cbn [bind andthen].
  replace (if 0 <? b then Ok (0 <? h) else Ok false)
    with (Ok ((0 <? b) && (0 <? h)) : result bool)
    by (destruct (0 <? b); reflexivity).
  change (?a &&& (s <- Ok w ;; Ok (0 <? s))) with (a &&& Ok (0 <? w)).
  rewrite !andthen_pure. eexists; split; [reflexivity|].
  rewrite !andb_true_iff, negb_true_iff, !Z.ltb_lt.
  unfold on_cpu_or_vulkan, is_cpu.
  rewrite orb_true_iff, !DeviceType_eqb_eq, !ScalarType_eqb_eq.
  split.
  - intros [[[[[Hb Hh] Hw] Hd] Ht] Hg]. repeat split; auto.
    destruct Hd; auto.
  - intros (_ & HF & Hd & Ht & Hg).
    inversion HF as [|? ? Hb HF1]; subst.
    inversion HF1 as [|? ? Hh HF2]; subst.
    inversion HF2 as [|? ? Hw _]; subst.
    repeat split; auto. destruct Hd; auto.
Qed.

(** C5.  [available] answers false unless the weight has rank 2 (3 when
    batched), only strictly positive sizes, lives on the CPU or on Vulkan,
    is float (unbatched: float or kQInt8) and does not require gradients;
    and when it answers true the weight has all of these. *)
Theorem available_weight_requirements
    (g : GlobalContext) (weight : Tensor) (bias : option Tensor)
    (use_batch : bool) :
  let eligible :=
    length (sizes weight) = (if use_batch then 3 else 2)%nat
    /\ Forall (fun s => 0 < s) (sizes weight)
    /\ (device weight = CPU \/ device weight = Vulkan)
    /\ (scalar_type weight = kFloat
        \/ (use_batch = false /\ scalar_type weight = kQInt8))
    /\ requires_grad weight = false in
  (~ eligible -> available g weight bias use_batch = Ok false)
  /\ (available g weight bias use_batch = Ok true -> eligible).
Proof.
  intros eligible. subst eligible. unfold available.
  destruct (api_available g); cbn [negb];
    [|split; [reflexivity | discriminate]].
  destruct use_batch.
  - unfold available_check_with_batch.
    destruct (weight_available_batched weight) as (r & -> & Hr).
    cbn [bind]. destruct r; cbn [negb].
    + destruct (proj1 Hr eq_refl) as (Hl & HF & Hd & Ht & Hg).
      split; [intros Hn; exfalso; apply Hn | intros _]; auto 10.
    + split; [reflexivity | discriminate].
  - destruct (weight_available_unbatched weight) as (r & -> & Hr).
    cbn [bind]. destruct r; cbn [negb].
    + destruct (proj1 Hr eq_refl) as (Hl & HF & Hd & Ht & Hg).
      split; [intros Hn; exfalso; apply Hn | intros _];
        (repeat split; auto; destruct Ht; auto).
    + split; [reflexivity | discriminate].
Qed.

Lemma dim_match (input : Tensor) (uws : list Z) (i j : nat) :
  (s <- size input (Z.of_nat i) ;;
   w <- at_index uws (Z.of_nat j) ;; Ok (s =? w)) = Ok true
  <-> exists k, sizes input !! i = Some k /\ uws !! j = Some k.
Proof.
  rewrite at_index_lookup. split.
  - destruct (size input (Z.of_nat i)) as [s|] eqn:Hs; [|discriminate].
    apply size_Ok_iff in Hs. cbn [bind].
    destruct (uws !! j) as [w|]; [|discriminate]. cbn [bind].
    intros H. injection H as H. apply Z.eqb_eq in H. subst. eauto.
  - intros (k & Hi & Hj). rewrite (size_lookup _ _ _ Hi), Hj. cbn [bind].
    rewrite Z.eqb_refl. reflexivity.
Qed.

Lemma Ok_inj_iff {A : Type} (x y : A) : Ok x = Ok y <-> x = y.
Proof. split; congruence. Qed.

(** C4.  [usable] answers true exactly when the input has rank 2 (3 when
    batched), lives on Vulkan, is float (or, unbatched, kQInt8/kQUInt8 on a
    quantized image), does not require gradients, and its width is the
    weight's height (batched: and its batch size is the weight's). *)
Theorem usable_iff
    (input : Tensor) (unpacked_weight_sizes : list Z) (use_batch : bool) :
  usable input unpacked_weight_sizes use_batch = Ok true
  <-> length (sizes input) = (if use_batch then 3 else 2)%nat
      /\ device input = Vulkan
      /\ (scalar_type input = kFloat
          \/ (use_batch = false
              /\ v_is_quantized (convert input) = true
              /\ (scalar_type input = kQInt8
                  \/ scalar_type input = kQUInt8)))
      /\ requires_grad input = false
      /\ (exists k,
            sizes input !! (if use_batch then 2 else 1)%nat = Some k
            /\ unpacked_weight_sizes !! (if use_batch then 1 else 0)%nat
               = Some k)
      /\ (use_batch = true ->
          exists b, sizes input !! 0%nat = Some b
                    /\ unpacked_weight_sizes !! 0%nat = Some b).
Proof.
  unfold usable, usable_check_with_batch. destruct use_batch.
  - change Layout.BatchMatrices.width with (Z.of_nat 2).
    change Layout.BatchMatrices.height with (Z.of_nat 1).
    change Layout.BatchMatrices.batch with (Z.of_nat 0).
    change 3 with (Z.of_nat 3) at 1.
    rewrite !andthen_true, !dim_match, !Ok_inj_iff, ndimension_eqb,
      Nat.eqb_eq, DeviceType_eqb_eq, ScalarType_eqb_eq, negb_true_iff.
    split.
    + intros ((((((Hl & Hd) & Ht) & Hw) & Hb) & Hg) & _). auto 10.
    + intros (Hl & Hd & Ht & Hg & Hw & Hb).
      destruct Ht as [Ht|[Hf _]]; [|discriminate]. auto 10.
  - change Layout.Param.width with (Z.of_nat 1).
    change Layout.Param.height with (Z.of_nat 0).
    change 2 with (Z.of_nat 2) at 1.
    rewrite !andthen_true, !dim_match, !Ok_inj_iff, ndimension_eqb,
      Nat.eqb_eq, DeviceType_eqb_eq, negb_true_iff, orb_true_iff,
      andb_true_iff, orb_true_iff, !ScalarType_eqb_eq.
    split.
    + intros (((((Hl & Hd) & Ht) & Hw) & Hg) & _).
      repeat split; auto; [|discriminate].
      destruct Ht as [Ht|[Hq [Ht|Ht]]]; auto 10.
    + intros (Hl & Hd & Ht & Hg & Hw & _).
      repeat split; auto.
      destruct Ht as [Ht|(_ & Hq & [Ht|Ht])]; auto.
Qed.

Lemma available_weight_requirements_witness :
  available vulkan_on (with_requires_grad weight_3x4) None false = Ok false
  /\ (length (sizes weight_3x4) = 2%nat
      /\ Forall (fun s => 0 < s) (sizes weight_3x4)
      /\ (device weight_3x4 = CPU \/ device weight_3x4 = Vulkan)
      /\ (scalar_type weight_3x4 = kFloat
          \/ (false = false /\ scalar_type weight_3x4 = kQInt8))
      /\ requires_grad weight_3x4 = false).
Proof.
  split.
  - apply (proj1 (available_weight_requirements
                    vulkan_on (with_requires_grad weight_3x4) None false)).
    intros (_ & _ & _ & _ & H). discriminate.
  - apply (proj2 (available_weight_requirements
                    vulkan_on weight_3x4 None false)).
    reflexivity.
Defined.

Lemma usable_iff_witness :
  usable (vulkan input_2x3) [3; 4] false = Ok true.
Proof.
  apply (proj2 (usable_iff (vulkan input_2x3) [3; 4] false)).
  simpl. repeat split; auto.
  - exists 3. split; reflexivity.
  - discriminate.
Defined.

Lemma on_cpu_or_vulkan_true (t : Tensor) :
  device t = CPU \/ device t = Vulkan -> on_cpu_or_vulkan t = true.
Proof.
  unfold on_cpu_or_vulkan, is_cpu. intros [-> | ->]; reflexivity.
Qed.

(** C1, as the code has it.  Unbatched, next to an eligible weight, a
    defined float bias on the CPU or on Vulkan that does not require
    gradients is accepted when its shape is (1, W) and the weight's width is
    W; and it is accepted with any shape (W2) of rank 1: the width is
    compared for a bias of rank above 1 only (Mm.cpp:367-370). *)
Theorem available_bias_unbatched
    (g : GlobalContext) (weight bias : Tensor) (W : Z) :
  available g weight None false = Ok true ->
  defined bias = true ->
  device bias = CPU \/ device bias = Vulkan ->
  scalar_type bias = kFloat ->
  requires_grad bias = false ->
  (sizes bias = [1; W] -> sizes weight !! 1%nat = Some W ->
   available g weight (Some bias) false = Ok true)
  /\ (forall W2, sizes bias = [W2] ->
      available g weight (Some bias) false = Ok true).
Proof.
  unfold available. destruct (api_available g); cbn [negb]; [|discriminate].
  destruct (weight_available_unbatched weight) as (r & -> & _).
  cbn [bind]. destruct r; cbn [negb]; [|discriminate].
  intros _ Hdef Hdev Hty Hgrad. rewrite Hdef, Hty, Hgrad.
  rewrite (on_cpu_or_vulkan_true _ Hdev). unfold ndimension. split.
  - intros Hs Hw. rewrite Hs. cbn [length].
    change Layout.Param.width with (Z.of_nat 1).
    rewrite (size_lookup bias 1 W) by (rewrite Hs; reflexivity).
    rewrite (size_lookup weight 1 W Hw).
    cbn. rewrite Z.eqb_refl. reflexivity.
  - intros W2 Hs. rewrite Hs. reflexivity.
Qed.

Lemma available_bias_unbatched_witness :
  available vulkan_on weight_3x4 (Some bias_1x4) false = Ok true
  /\ available vulkan_on weight_3x4 (Some bias_7) false = Ok true.
Proof.
  split.
  - apply (proj1 (available_bias_unbatched vulkan_on weight_3x4 bias_1x4 4
                    eq_refl eq_refl (or_introl eq_refl) eq_refl eq_refl));
      reflexivity.
  - apply (proj2 (available_bias_unbatched vulkan_on weight_3x4 bias_7 4
                    eq_refl eq_refl (or_introl eq_refl) eq_refl eq_refl) 7).
    reflexivity.
Defined.

(** C1, as stated, fails: a rank-1 bias of 7 elements next to a weight of
    width 4 is accepted, although 7 is neither 4 nor 1. *)
Lemma available_accepts_rank1_bias_of_other_width :
  sizes bias_7 = [7] /\ sizes weight_3x4 = [3; 4] /\ 7 <> 4 /\ 7 <> 1
  /\ available vulkan_on weight_3x4 (Some bias_7) false = Ok true.
Proof. repeat split; discriminate. Qed.

(** The batched path does compare a rank-1 bias with the weight's width
    (Mm.cpp:327-333): there a bias of W2 elements, W2 neither the width nor
    1, is turned away. *)
Lemma available_batched_rejects_rank1_bias
    (g : GlobalContext) (weight bias : Tensor) (W W2 : Z) :
  available g weight None true = Ok true ->
  defined bias = true ->
  sizes bias = [W2] ->
  sizes weight !! 2%nat = Some W ->
  W2 <> W -> W2 <> 1 ->
  available g weight (Some bias) true = Ok false.
Proof.
  unfold available. destruct (api_available g); cbn [negb]; [|discriminate].
  unfold available_check_with_batch.
  destruct (weight_available_batched weight) as (r & -> & _).
  cbn [bind]. destruct r; cbn [negb]; [|discriminate].
  intros _ Hdef Hs Hw Hne Hne1. rewrite Hdef. cbn [negb].
  unfold ndimension. rewrite Hs. cbn [length Z.of_nat Z.eqb Pos.eqb].
  change Layout.BatchMatrices.batch with (Z.of_nat 0).
  change Layout.BatchMatrices.width with (Z.of_nat 2).
  rewrite (size_lookup bias 0 W2) by (rewrite Hs; reflexivity).
  rewrite (size_lookup weight 2 W Hw).
  apply Z.eqb_neq in Hne, Hne1. unfold andalways. cbn [bind].
  rewrite Hne, Hne1. cbn [orb]. rewrite andb_false_r. reflexivity.
Qed.

(** Batched, [available] raises on a bias of rank 0 instead of answering
    false: the conjuncts on the bias are joined with [&=], so
    [bias->size(0)] is evaluated although the rank test has failed.
    Unbatched the conjuncts are joined with [&&] and the answer is false. *)
Example available_rank0_bias :
  available vulkan_on batch_weight_2x3x2 (Some scalar_bias) true
  = Err IndexError
  /\ available vulkan_on weight_3x4 (Some scalar_bias) false = Ok false.
Proof. split; reflexivity. Qed.

(** The way into an unbatched [usable]. *)
Lemma usable_unbatched_intro (input : Tensor) (uws : list Z) :
  length (sizes input) = 2%nat ->
  device input = Vulkan ->
  (scalar_type input = kFloat
   \/ (v_is_quantized (convert input) = true
       /\ (scalar_type input = kQInt8 \/ scalar_type input = kQUInt8))) ->
  requires_grad input = false ->
  (exists k, sizes input !! 1%nat = Some k /\ uws !! 0%nat = Some k) ->
  usable input uws false = Ok true.
Proof.
  intros Hl Hd Ht Hg Hk. unfold usable.
  change Layout.Param.width with (Z.of_nat 1).
  change Layout.Param.height with (Z.of_nat 0).
  change 2 with (Z.of_nat 2) at 1.
  rewrite !andthen_true, !dim_match, !Ok_inj_iff, ndimension_eqb,
    Nat.eqb_eq, DeviceType_eqb_eq, negb_true_iff, orb_true_iff,
    andb_true_iff, orb_true_iff, !ScalarType_eqb_eq.
  repeat split; auto.
  destruct Ht as [Ht|(Hq & [Ht|Ht])]; auto.
Qed.

(** ** The staged copy *)

Lemma div_up_2_bounds (n : Z) :
  0 <= n -> n <= 2 * div_up n 2 <= n + 1.
Proof.
  intros Hn. unfold div_up. rewrite Z.quot_div_nonneg by lia.
  pose proof (Z.div_mod (n + 2 - 1) 2 ltac:(lia)) as Hd.
  pose proof (Z.mod_pos_bound (n + 2 - 1) 2 ltac:(lia)) as Hm. lia.
Qed.

Lemma ceil_div_spec (n d : Z) :
  0 < d -> d * (ceil_div n d - 1) < n <= d * ceil_div n d.
Proof.
  intros Hd. unfold ceil_div.
  pose proof (Z.div_mod (- n) d ltac:(lia)) as Hq.
  pose proof (Z.mod_pos_bound (- n) d Hd) as Hm. nia.
Qed.

(** [div_up] is the ceiling of the quotient. *)
Lemma div_up_ceil (n d : Z) :
  0 <= n -> 0 < d -> div_up n d = ceil_div n d.
Proof.
  intros Hn Hd. unfold div_up. rewrite Z.quot_div_nonneg by lia.
  pose proof (ceil_div_spec n d Hd) as Hc.
  symmetry. apply Z.div_unique with (r := n + d - 1 - d * ceil_div n d); lia.
Qed.

Lemma run_writes_app (src : list Z) (a b : list (Z * Z)) (dst : list Z) :
  run_writes src (a ++ b) dst =
  (dst' <- run_writes src a dst ;; run_writes src b dst').
Proof.
  revert dst. induction a as [|[d s] a IH]; intros dst; [reflexivity|].
  cbn [app run_writes]. destruct (memcpy1 src d s dst); cbn [bind]; auto.
Qed.

Lemma for_each_memcpy (src : list Z) (D S : Z -> Z) (l dst : list Z) :
  for_each l (fun i => memcpy1 src (D i) (S i)) dst =
  run_writes src (map (fun i => (D i, S i)) l) dst.
Proof.
  revert dst. induction l as [|i l IH]; intros dst; [reflexivity|].
  cbn [for_each map run_writes].
  destruct (memcpy1 src (D i) (S i) dst); cbn [bind]; auto.
Qed.

Lemma for_each_writes (src : list Z) (F : Z -> list Z -> result (list Z))
    (G : Z -> list (Z * Z)) (l dst : list Z) :
  (forall i d, F i d = run_writes src (G i) d) ->
  for_each l F dst = run_writes src (flat_map G l) dst.
Proof.
  intros HF. revert dst. induction l as [|i l IH]; intros dst; [reflexivity|].
  cbn [for_each flat_map]. rewrite run_writes_app, HF.
  destruct (run_writes src (G i) dst); cbn [bind]; auto.
Qed.

(** The three nested loops of a staged copy make the copies of
    [loop_writes]. *)
Lemma nested_loops_writes (src bs hs ws : list Z) (D S : Z -> Z -> Z -> Z)
    (dst : list Z) :
  for_each bs (fun b =>
    for_each hs (fun h =>
      for_each ws (fun w => memcpy1 src (D b h w) (S b h w)))) dst
  = run_writes src (loop_writes bs hs ws D S) dst.
Proof.
  unfold loop_writes. apply for_each_writes. intros b d.
  apply for_each_writes. intros h d'. apply for_each_memcpy.
Qed.

Lemma in_loop_writes (bs hs ws : list Z) (D S : Z -> Z -> Z -> Z) (d s : Z) :
  In (d, s) (loop_writes bs hs ws D S) <->
  exists b h w, In b bs /\ In h hs /\ In w ws
                /\ d = D b h w /\ s = S b h w.
Proof.
  unfold loop_writes. rewrite in_flat_map. split.
  - intros (b & Hb & H). apply in_flat_map in H as (h & Hh & H).
    apply in_map_iff in H as (w & Heq & Hw). injection Heq as <- <-.
    exists b, h, w. auto.
  - intros (b & h & w & Hb & Hh & Hw & -> & ->).
    exists b. split; [exact Hb|]. apply in_flat_map.
    exists h. split; [exact Hh|]. apply in_map_iff. exists w. auto.
Qed.

Lemma in_irange (i n : Z) : In i (irange n) <-> 0 <= i < n.
Proof.
  unfold irange. rewrite <- list_elem_of_In, elem_of_seqZ. lia.
Qed.

Lemma memcpy1_in_range (src dst : list Z) (d s : Z) :
  0 <= d < Z.of_nat (length dst) ->
  0 <= s < Z.of_nat (length src) ->
  exists x, src !! Z.to_nat s = Some x
            /\ memcpy1 src d s dst = Ok (<[Z.to_nat d := x]> dst).
Proof.
  intros Hd Hs. unfold memcpy1, at_index.
  destruct (Z.ltb_spec d 0); [lia|].
  destruct (Z.leb_spec (Z.of_nat (length dst)) d); [lia|].
  destruct (Z.ltb_spec s 0); [lia|].
  destruct (lookup_lt_is_Some_2 src (Z.to_nat s) ltac:(lia)) as [x Hx].
  exists x. rewrite Hx. auto.
Qed.

(** When every copy stays inside both arrays the copies succeed, keep the
    length, leave an offset no copy names as it was, and leave at an offset
    that is only ever written from one source offset that source element. *)
Lemma run_writes_spec (src : list Z) (ws : list (Z * Z)) :
  forall dst : list Z,
  (forall d s, In (d, s) ws ->
     0 <= d < Z.of_nat (length dst) /\ 0 <= s < Z.of_nat (length src)) ->
  exists dst',
    run_writes src ws dst = Ok dst'
    /\ length dst' = length dst
    /\ (forall d s, In (d, s) ws ->
          (forall s', In (d, s') ws -> s' = s) ->
          dst' !! Z.to_nat d = src !! Z.to_nat s)
    /\ (forall i : nat, (forall d s, In (d, s) ws -> Z.to_nat d <> i) ->
          dst' !! i = dst !! i).
Proof.
  induction ws as [|[d0 s0] ws IH] using rev_ind; intros dst Hin.
  - exists dst. repeat split; auto. intros d s [].
  - destruct (IH dst) as (dst1 & Hrun & Hlen & Hval & Hkeep).
    { intros d s H. apply (Hin d s), in_or_app. auto. }
    destruct (Hin d0 s0) as [Hd0 Hs0]; [apply in_or_app; simpl; auto|].
    destruct (memcpy1_in_range src dst1 d0 s0) as (x & Hx & Hcp);
      [rewrite Hlen; lia | lia |].
    exists (<[Z.to_nat d0 := x]> dst1).
    rewrite run_writes_app, Hrun. cbn [bind run_writes]. rewrite Hcp.
    split; [reflexivity|]. split; [rewrite length_insert; exact Hlen|]. split.
    + intros d s Hds Hfun.
      destruct (Z.eq_dec d d0) as [->|Hne].
      * rewrite (Hfun s0) in Hx by (apply in_or_app; simpl; auto).
        rewrite list_lookup_insert_eq by lia. congruence.
      * assert (Hd : 0 <= d) by (apply (Hin d s Hds)).
        rewrite list_lookup_insert_ne by lia.
        apply in_app_or in Hds as [Hds|[Heq|[]]]; [|congruence].
        apply Hval; [exact Hds|]. intros s' Hs'. apply (Hfun s'), in_or_app.
        auto.
    + intros i Hi.
      rewrite list_lookup_insert_ne
        by (apply (Hi d0 s0), in_or_app; simpl; auto).
      apply Hkeep. intros d s H. apply (Hi d s), in_or_app. auto.
Qed.

Lemma radix_inj (n a r a' r' : Z) :
  0 <= r < n -> 0 <= r' < n -> a * n + r = a' * n + r' ->
  a = a' /\ r = r'.
Proof. intros Hr Hr' Heq. assert (a = a') by nia. subst. lia. Qed.

Lemma radix_range (A n a r : Z) :
  0 <= a < A -> 0 <= r < n -> 0 <= a * n + r < A * n.
Proof. intros Ha Hr. nia. Qed.

Lemma image_offset_inj (H W b c y x b' c' y' x' : Z) :
  0 <= c < 4 -> 0 <= c' < 4 -> 0 <= y < H -> 0 <= y' < H ->
  0 <= x < W -> 0 <= x' < W ->
  image_offset H W b c y x = image_offset H W b' c' y' x' ->
  b = b' /\ c = c' /\ y = y' /\ x = x'.
Proof.
  unfold image_offset. intros Hc Hc' Hy Hy' Hx Hx' Heq.
  apply radix_inj in Heq as [Heq ->]; [|lia|lia].
  apply radix_inj in Heq as [Heq ->]; [|lia|lia].
  apply radix_inj in Heq as [-> ->]; [|lia|lia]. auto.
Qed.

Lemma image_offset_range (B H W b c y x : Z) :
  0 <= b < B -> 0 <= c < 4 -> 0 <= y < H -> 0 <= x < W ->
  0 <= image_offset H W b c y x < B * 4 * H * W.
Proof.
  unfold image_offset. intros Hb Hc Hy Hx.
  apply radix_range; [|lia]. apply radix_range; [|lia].
  apply radix_range; lia.
Qed.

(** The pointer arithmetic of the loops addresses channel 2*(h%2)+(w%2),
    plane position (h/2, w/2). *)
Lemma tile_offset_image (H W b h w : Z) :
  0 <= h -> 0 <= w ->
  tile_offset H W b h w =
  image_offset H W b (2 * (h mod 2) + w mod 2) (h / 2) (w / 2).
Proof.
  intros Hh Hw. unfold tile_offset, image_offset.
  rewrite !Z.rem_mod_nonneg, !Z.quot_div_nonneg by lia. ring.
Qed.

Lemma half_parts (h H : Z) :
  0 <= h < 2 * H ->
  0 <= h mod 2 < 2 /\ 0 <= h / 2 < H /\ h = 2 * (h / 2) + h mod 2.
Proof.
  intros Hh. pose proof (Z.div_mod h 2 ltac:(lia)).
  pose proof (Z.mod_pos_bound h 2 ltac:(lia)). lia.
Qed.

Lemma tile_offset_inj (H W b h w b' h' w' : Z) :
  0 <= h < 2 * H -> 0 <= h' < 2 * H -> 0 <= w < 2 * W -> 0 <= w' < 2 * W ->
  tile_offset H W b h w = tile_offset H W b' h' w' ->
  b = b' /\ h = h' /\ w = w'.
Proof.
  intros Hh Hh' Hw Hw'. rewrite !tile_offset_image by lia.
  destruct (half_parts h H Hh) as (? & ? & ?).
  destruct (half_parts h' H Hh') as (? & ? & ?).
  destruct (half_parts w W Hw) as (? & ? & ?).
  destruct (half_parts w' W Hw') as (? & ? & ?).
  intros Heq. apply image_offset_inj in Heq; lia.
Qed.

Lemma tile_offset_range (B H W b h w : Z) :
  0 <= b < B -> 0 <= h < 2 * H -> 0 <= w < 2 * W ->
  0 <= tile_offset H W b h w < B * 4 * H * W.
Proof.
  intros Hb Hh Hw. rewrite tile_offset_image by lia.
  destruct (half_parts h H Hh) as (? & ? & ?).
  destruct (half_parts w W Hw) as (? & ? & ?).
  apply image_offset_range; lia.
Qed.

(** A staged loop over [kb] matrices, [Hi] rows and [Wi] columns whose
    destination is [tile_offset] and whose source offset is [S]: it
    succeeds, and each (b, h, w) of the loop leaves its source element at
    channel 2*(h%2)+(w%2), plane position (h/2, w/2) of matrix [b]; every
    other element of the destination is as it was. *)
Lemma tiled_copy_spec (src dst : list Z) (kb Hi Wi H W : Z)
    (S : Z -> Z -> Z -> Z) :
  Hi <= 2 * H -> Wi <= 2 * W ->
  Z.of_nat (length dst) = kb * 4 * H * W ->
  (forall b h w, 0 <= b < kb -> 0 <= h < Hi -> 0 <= w < Wi ->
     0 <= S b h w < Z.of_nat (length src)) ->
  exists dst',
    run_writes src
      (loop_writes (irange kb) (irange Hi) (irange Wi) (tile_offset H W) S)
      dst = Ok dst'
    /\ length dst' = length dst
    /\ (forall b h w, 0 <= b < kb -> 0 <= h < Hi -> 0 <= w < Wi ->
          dst' !! Z.to_nat
                    (image_offset H W b (2 * (h mod 2) + w mod 2)
                                  (h / 2) (w / 2))
          = src !! Z.to_nat (S b h w))
    /\ (forall i : nat,
          (forall b h w, 0 <= b < kb -> 0 <= h < Hi -> 0 <= w < Wi ->
             Z.to_nat (tile_offset H W b h w) <> i) ->
          dst' !! i = dst !! i).
Proof.
  intros HHi HWi Hlen Hsrc.
  destruct (run_writes_spec src
              (loop_writes (irange kb) (irange Hi) (irange Wi)
                           (tile_offset H W) S) dst)
    as (dst' & Hrun & Hlen' & Hval & Hkeep).
  { intros d s Hin.
    apply in_loop_writes in Hin as (b & h & w & Hb & Hh & Hw & -> & ->).
    apply in_irange in Hb, Hh, Hw. split; [|auto].
    rewrite Hlen. apply tile_offset_range; lia. }
  exists dst'. split; [exact Hrun|]. split; [exact Hlen'|]. split.
  - intros b h w Hb Hh Hw. rewrite <- tile_offset_image by lia.
    apply Hval.
    + apply in_loop_writes. exists b, h, w. rewrite !in_irange. auto.
    + intros s' Hin.
      apply in_loop_writes in Hin as (b' & h' & w' & Hb' & Hh' & Hw' & Hd & ->).
      apply in_irange in Hb', Hh', Hw'.
      apply tile_offset_inj in Hd as (-> & -> & ->); auto; lia.
  - intros i Hi'. apply Hkeep. intros d s Hin.
    apply in_loop_writes in Hin as (b & h & w & Hb & Hh & Hw & -> & _).
    apply in_irange in Hb, Hh, Hw. auto.
Qed.

Lemma zeroed_staging_length (kb H W : Z) (dtype : ScalarType) :
  0 <= kb -> 0 <= H -> 0 <= W ->
  Z.of_nat (length (zeroed_staging (new_vTensor [kb; 4; H; W] dtype)))
  = kb * 4 * H * W.
Proof.
  intros Hb HH HW. unfold zeroed_staging, numel.
  cbn [new_vTensor v_sizes fold_right].
  rewrite length_replicate, Z2Nat.id by nia. ring.
Qed.

(** The source offset of the bias loop (Mm.cpp:246-248). *)
Lemma bias_source_offset (use_batch : bool) (kh kw b h w : Z) :
  0 <= kh -> 0 <= kw ->
  0 <= h < (if kh =? 1 then 2 else kh) ->
  0 <= w < (if use_batch && (kw =? 1) then 2 else kw) ->
  exists h' w',
    0 <= h' < kh /\ 0 <= w' < kw
    /\ (h < kh -> h' = h) /\ (w < kw -> w' = w)
    /\ b * (kw * kh)
       + (if kh =? 1 then 0 else h * kw)
       + (if use_batch && (kw =? 1) then 0 else w)
       = matrix_offset kh kw b h' w'.
Proof.
  intros Hkh Hkw Hh Hw. unfold matrix_offset.
  exists (if kh =? 1 then 0 else h),
         (if use_batch && (kw =? 1) then 0 else w).
  destruct (Z.eqb_spec kh 1) as [->|Hk1];
    (destruct use_batch; cbn [andb];
     [destruct (Z.eqb_spec kw 1) as [->|Hk2]|]);
    cbn [andb] in Hw;
    repeat split; try lia; try (intros; lia); ring.
Qed.

Lemma matrix_offset_range (B rows cols b h w : Z) :
  0 <= b < B -> 0 <= h < rows -> 0 <= w < cols ->
  0 <= matrix_offset rows cols b h w < B * rows * cols.
Proof.
  intros Hb Hh Hw. unfold matrix_offset.
  apply radix_range; [|lia]. apply radix_range; lia.
Qed.

(** The staged bias copy of [pack_biases] on a source of [kb] matrices of
    [kh] rows and [kw] columns. *)
Lemma stage_pack_biases_spec
    (src : list Z) (use_batch : bool) (kb kh kw : Z) (dtype : ScalarType) :
  0 <= kb -> 0 <= kh -> 0 <= kw ->
  kb * kh * kw <= Z.of_nat (length src) ->
  exists staged,
    stage_pack_biases
      (new_vTensor [kb; 4; div_up kh 2; div_up kw 2] dtype)
      src use_batch kb kh kw
      (kw * kh) (div_up kw 2) (div_up kw 2 * div_up kh 2)
      (div_up kw 2 * div_up kh 2 * 4)
    = Ok (pack_staging_to_vtensor staged
            (new_vTensor [kb; 4; div_up kh 2; div_up kw 2] dtype))
    /\ Z.of_nat (length staged) = kb * 4 * div_up kh 2 * div_up kw 2
    /\ forall b h w, 0 <= b < kb -> 0 <= h < kh -> 0 <= w < kw ->
         staged !! Z.to_nat
                     (image_offset (div_up kh 2) (div_up kw 2) b
                        (2 * (h mod 2) + w mod 2) (h / 2) (w / 2))
         = src !! Z.to_nat (matrix_offset kh kw b h w).
Proof.
  intros Hkb Hkh Hkw Hsrc.
  pose proof (div_up_2_bounds kh Hkh) as HH.
  pose proof (div_up_2_bounds kw Hkw) as HW.
  set (v := new_vTensor [kb; 4; div_up kh 2; div_up kw 2] dtype).
  destruct (tiled_copy_spec src (zeroed_staging v) kb
              (if kh =? 1 then 2 else kh)
              (if use_batch && (kw =? 1) then 2 else kw)
              (div_up kh 2) (div_up kw 2)
              (fun b h w =>
                 b * (kw * kh)
                 + (if kh =? 1 then 0 else h * kw)
                 + (if use_batch && (kw =? 1) then 0 else w)))
    as (dst' & Hrun & Hlen & Hval & _).
  - destruct (Z.eqb_spec kh 1); lia.
  - destruct (use_batch && (kw =? 1)) eqn:E; [|lia].
    apply andb_true_iff in E as [_ E]. apply Z.eqb_eq in E. lia.
  - apply zeroed_staging_length; lia.
  - intros b h w Hb Hh Hw.
    destruct (bias_source_offset use_batch kh kw b h w)
      as (h' & w' & Hh' & Hw' & _ & _ & ->); auto.
    pose proof (matrix_offset_range kb kh kw b h' w' Hb Hh' Hw'). lia.
  - exists dst'. split; [|split].
    + unfold stage_pack_biases. rewrite <- nested_loops_writes in Hrun.
      unfold tile_offset in Hrun. rewrite Hrun. reflexivity.
    + rewrite Hlen. apply zeroed_staging_length; lia.
    + intros b h w Hb Hh Hw. rewrite Hval.
      * destruct (bias_source_offset use_batch kh kw b h w)
          as (h' & w' & _ & _ & E1 & E2 & ->); auto.
        -- destruct (Z.eqb_spec kh 1); lia.
        -- destruct (use_batch && (kw =? 1)) eqn:E; [|lia].
           apply andb_true_iff in E as [_ E]. apply Z.eqb_eq in E. lia.
        -- rewrite E1, E2 by lia. reflexivity.
      * exact Hb.
      * destruct (Z.eqb_spec kh 1); lia.
      * destruct (use_batch && (kw =? 1)) eqn:E; [|lia].
        apply andb_true_iff in E as [_ E]. apply Z.eqb_eq in E. lia.
Qed.

(** The staged weight copy on [kb] matrices of [kh] rows and [kw]
    columns. *)
Lemma stage_pack_weights_spec
    (v_weight : vTensor) (weight : Tensor) (kb kh kw : Z) :
  0 <= kb -> 0 <= kh -> 0 <= kw ->
  v_sizes v_weight = [kb; 4; div_up kh 2; div_up kw 2] ->
  kb * kh * kw <= Z.of_nat (length (data weight)) ->
  exists staged,
    stage_pack_weights v_weight weight kb kh kw (div_up kh 2) (div_up kw 2)
    = Ok (pack_staging_to_vtensor staged v_weight)
    /\ Z.of_nat (length staged) = kb * 4 * div_up kh 2 * div_up kw 2
    /\ forall b h w, 0 <= b < kb -> 0 <= h < kh -> 0 <= w < kw ->
         staged !! Z.to_nat
                     (image_offset (div_up kh 2) (div_up kw 2) b
                        (2 * (h mod 2) + w mod 2) (h / 2) (w / 2))
         = data weight !! Z.to_nat (matrix_offset kh kw b h w).
Proof.
  intros Hkb Hkh Hkw Hsz Hsrc.
  pose proof (div_up_2_bounds kh Hkh) as HH.
  pose proof (div_up_2_bounds kw Hkw) as HW.
  assert (Hz : Z.of_nat (length (zeroed_staging v_weight))
               = kb * 4 * div_up kh 2 * div_up kw 2).
  { unfold zeroed_staging. rewrite Hsz.
    apply (zeroed_staging_length kb _ _ kFloat); lia. }
  destruct (tiled_copy_spec (data weight) (zeroed_staging v_weight) kb kh kw
              (div_up kh 2) (div_up kw 2)
              (fun b h w => b * (kw * kh) + h * kw + w))
    as (dst' & Hrun & Hlen & Hval & _); try lia.
  - intros b h w Hb Hh Hw.
    pose proof (matrix_offset_range kb kh kw b h w Hb Hh Hw) as Hr.
    unfold matrix_offset in Hr. lia.
  - exists dst'. split; [|split].
    + unfold stage_pack_weights. rewrite <- nested_loops_writes in Hrun.
      unfold tile_offset in Hrun. rewrite Hrun. reflexivity.
    + lia.
    + intros b h w Hb Hh Hw. rewrite Hval by auto.
      f_equal. f_equal. unfold matrix_offset. ring.
Qed.

Lemma lookup_in_range (l : list Z) (i : Z) :
  0 <= i < Z.of_nat (length l) -> exists x, l !! Z.to_nat i = Some x.
Proof. intros Hi. apply lookup_lt_is_Some_2. lia. Qed.

Lemma tiled_intro (src img : list Z) (kb kh kw H W : Z) :
  kb * kh * kw <= Z.of_nat (length src) ->
  (forall b h w, 0 <= b < kb -> 0 <= h < kh -> 0 <= w < kw ->
     img !! Z.to_nat
               (image_offset H W b (2 * (h mod 2) + w mod 2) (h / 2) (w / 2))
     = src !! Z.to_nat (matrix_offset kh kw b h w)) ->
  tiled src img kb kh kw H W.
Proof.
  intros Hlen Heq b h w Hb Hh Hw.
  pose proof (matrix_offset_range kb kh kw b h w Hb Hh Hw) as Hr.
  destruct (lookup_in_range src (matrix_offset kh kw b h w)) as [x Hx];
    [lia|].
  exists x. split; [exact Hx|]. rewrite Heq by auto. exact Hx.
Qed.

(** [pack_weights] on a staged path: batched, or a quantized tensor of an
    8-bit quantized element type. *)
Lemma pack_weights_staged_spec
    (weight : Tensor) (use_batch : bool) (kb kh kw : Z) :
  sizes weight = weight_shape use_batch kb kh kw ->
  (use_batch = false -> kb = 1) ->
  use_batch = true
  \/ (is_quantized weight = true
      /\ (scalar_type weight = kQInt8 \/ scalar_type weight = kQUInt8)) ->
  0 <= kb -> 0 <= kh -> 0 <= kw ->
  kb * kh * kw <= Z.of_nat (length (data weight)) ->
  exists v,
    pack_weights weight use_batch = Ok v
    /\ v_sizes v = [kb; 4; div_up kh 2; div_up kw 2]
    /\ tiled (data weight) (v_data v) kb kh kw (div_up kh 2) (div_up kw 2).
Proof.
  intros Hs Hkb1 Hpath Hkb Hkh Hkw Hlen. unfold pack_weights, contiguous.
  assert (Hcond : negb (is_quantized weight) && negb use_batch = false).
  { destruct Hpath as [->|[-> _]]; [apply andb_false_r | reflexivity]. }
  rewrite Hcond, Hs. clear Hcond.
  set (q := match scalar_type weight with
            | kQInt8 | kQUInt8 => true
            | _ => false
            end).
  assert (Hq : use_batch = false -> q = true).
  { intros ->. destruct Hpath as [?|[_ [Ht|Ht]]]; [discriminate| |];
      subst q; rewrite Ht; reflexivity. }
  assert (Hstage :
    forall v0, v_sizes v0 = [kb; 4; div_up kh 2; div_up kw 2] ->
    exists v,
      stage_pack_weights v0 weight kb kh kw (div_up kh 2) (div_up kw 2)
      = Ok v
      /\ v_sizes v = [kb; 4; div_up kh 2; div_up kw 2]
      /\ tiled (data weight) (v_data v) kb kh kw
               (div_up kh 2) (div_up kw 2)).
  { intros v0 Hv0.
    destruct (stage_pack_weights_spec v0 weight kb kh kw)
      as (staged & -> & _ & Hval); auto.
    eexists. split; [reflexivity|]. split; [exact Hv0|].
    apply tiled_intro; auto. }
  destruct use_batch; cbn [weight_shape length Z.of_nat].
  - cbn. destruct q; apply Hstage; reflexivity.
  - rewrite (Hkb1 eq_refl) in *. rewrite (Hq eq_refl). cbn.
    apply Hstage; reflexivity.
Qed.

(** [pack_biases] on its staged path: a batched call with a defined float
    bias that is not on the device. *)
Lemma pack_biases_staged_spec
    (weight bias : Tensor) (kb kh kw : Z) :
  is_vulkan bias = false ->
  defined bias = true ->
  scalar_type bias = kFloat ->
  bias_shape (sizes bias) kb kh kw ->
  0 <= kb -> 0 <= kh -> 0 <= kw ->
  kb * kh * kw <= Z.of_nat (length (data bias)) ->
  exists v,
    pack_biases weight (Some bias) true = Ok v
    /\ v_sizes v = [kb; 4; div_up kh 2; div_up kw 2]
    /\ tiled (data bias) (v_data v) kb kh kw (div_up kh 2) (div_up kw 2).
Proof.
  intros Hv Hd Ht Hs Hkb Hkh Hkw Hlen.
  unfold pack_biases, contiguous, data_ptr_float.
  rewrite Hv, Hd, Ht. cbn [andb ScalarType_eqb bind].
  destruct (stage_pack_biases_spec (data bias) true kb kh kw kFloat)
    as (staged & Hrun & _ & Hval); auto.
  assert (Hgoal :
    exists v,
      stage_pack_biases
        (new_vTensor [kb; 4; div_up kh 2; div_up kw 2] kFloat)
        (data bias) true kb kh kw
        (kw * kh) (div_up kw 2) (div_up kw 2 * div_up kh 2)
        (div_up kw 2 * div_up kh 2 * 4) = Ok v
      /\ v_sizes v = [kb; 4; div_up kh 2; div_up kw 2]
      /\ tiled (data bias) (v_data v) kb kh kw
               (div_up kh 2) (div_up kw 2)).
  { rewrite Hrun. eexists. split; [reflexivity|]. split; [reflexivity|].
    apply tiled_intro; auto. }
  destruct Hs as [Hs|[(-> & Hs)|(-> & -> & Hs)]]; rewrite Hs; cbn; exact Hgoal.
Qed.

(** The packed image of a 3 x 3 quantized weight, channel by channel. *)
Example pack_weights_qweight_3x3 :
  exists v, pack_weights qweight_3x3 false = Ok v
            /\ v_sizes v = [1; 4; 2; 2]
            /\ v_data v = [1; 3; 7; 9;  2; 0; 8; 0;  4; 6; 0; 0;  5; 0; 0; 0].
Proof. eexists. split; [reflexivity|]. split; reflexivity. Qed.

(** The packed image of a (1, 2) bias in a batched call: the single row is
    also copied to the channels of the odd rows. *)
Example pack_biases_batch_bias_1x2 :
  exists v, pack_biases batch_weight_2x3x2 (Some batch_bias_1x2) true = Ok v
            /\ v_sizes v = [1; 4; 1; 1]
            /\ v_data v = [5; 6; 5; 6].
Proof. eexists. split; [reflexivity|]. split; reflexivity. Qed.

(** C2.  In the staged copy of [pack_weights] (batched, or quantized 8-bit)
    and of [pack_biases] (batched), the copy succeeds and every source
    element (h, w) of matrix b is found at channel 2*(h%2)+(w%2), plane
    position (h/2, w/2) of matrix b of the destination. *)
Theorem staged_copy_tiles (kb kh kw : Z) :
  0 <= kb -> 0 <= kh -> 0 <= kw ->
  (forall (weight : Tensor) (use_batch : bool),
     sizes weight = weight_shape use_batch kb kh kw ->
     (use_batch = false -> kb = 1) ->
     use_batch = true
     \/ (is_quantized weight = true
         /\ (scalar_type weight = kQInt8 \/ scalar_type weight = kQUInt8)) ->
     kb * kh * kw <= Z.of_nat (length (data weight)) ->
     exists v,
       pack_weights weight use_batch = Ok v
       /\ tiled (data weight) (v_data v) kb kh kw
                (div_up kh 2) (div_up kw 2))
  /\ (forall weight bias : Tensor,
        is_vulkan bias = false ->
        defined bias = true ->
        scalar_type bias = kFloat ->
        bias_shape (sizes bias) kb kh kw ->
        kb * kh * kw <= Z.of_nat (length (data bias)) ->
        exists v,
          pack_biases weight (Some bias) true = Ok v
          /\ tiled (data bias) (v_data v) kb kh kw
                   (div_up kh 2) (div_up kw 2)).
Proof.
  intros Hkb Hkh Hkw. split.
  - intros weight use_batch Hs Hb1 Hpath Hlen.
    destruct (pack_weights_staged_spec weight use_batch kb kh kw)
      as (v & Hv & _ & Ht); eauto.
  - intros weight bias Hv Hd Hty Hs Hlen.
    destruct (pack_biases_staged_spec weight bias kb kh kw)
      as (v & Hp & _ & Ht); eauto.
Qed.

Lemma staged_copy_tiles_witness :
  (exists v,
     pack_weights qweight_3x3 false = Ok v
     /\ tiled (data qweight_3x3) (v_data v) 1 3 3 (div_up 3 2) (div_up 3 2))
  /\ (exists v,
        pack_biases batch_weight_2x3x2 (Some batch_bias_1x2) true = Ok v
        /\ tiled (data batch_bias_1x2) (v_data v) 1 1 2
                 (div_up 1 2) (div_up 2 2)).
Proof.
  split.
  - apply (proj1 (staged_copy_tiles 1 3 3 ltac:(lia) ltac:(lia) ltac:(lia))
             qweight_3x3 false).
    + reflexivity.
    + reflexivity.
    + right. split; [reflexivity | left; reflexivity].
    + simpl. lia.
  - apply (proj2 (staged_copy_tiles 1 1 2 ltac:(lia) ltac:(lia) ltac:(lia))
             batch_weight_2x3x2 batch_bias_1x2).
    + reflexivity.
    + reflexivity.
    + reflexivity.
    + right. left. split; reflexivity.
    + simpl. lia.
Defined.

(** C3.  On the staged path a source of [batch] matrices of [rows] x
    [cols], with [rows] and [cols] at least 1, is packed into an image
    allocated with sizes (batch, 4, ceil(rows/2), ceil(cols/2)). *)
Theorem staged_destination_sizes (batch rows cols : Z) :
  0 <= batch -> 1 <= rows -> 1 <= cols ->
  (forall (weight : Tensor) (use_batch : bool),
     sizes weight = weight_shape use_batch batch rows cols ->
     (use_batch = false -> batch = 1) ->
     use_batch = true
     \/ (is_quantized weight = true
         /\ (scalar_type weight = kQInt8 \/ scalar_type weight = kQUInt8)) ->
     batch * rows * cols <= Z.of_nat (length (data weight)) ->
     exists v,
       pack_weights weight use_batch = Ok v
       /\ v_sizes v = [batch; 4; ceil_div rows 2; ceil_div cols 2])
  /\ (forall weight bias : Tensor,
        is_vulkan bias = false ->
        defined bias = true ->
        scalar_type bias = kFloat ->
        bias_shape (sizes bias) batch rows cols ->
        batch * rows * cols <= Z.of_nat (length (data bias)) ->
        exists v,
          pack_biases weight (Some bias) true = Ok v
          /\ v_sizes v = [batch; 4; ceil_div rows 2; ceil_div cols 2]).
Proof.
  intros Hb Hr Hc.
  rewrite <- (div_up_ceil rows 2), <- (div_up_ceil cols 2) by lia. split.
  - intros weight use_batch Hs Hb1 Hpath Hlen.
    destruct (pack_weights_staged_spec weight use_batch batch rows cols)
      as (v & Hv & Hsz & _); eauto; lia.
  - intros weight bias Hv Hd Hty Hs Hlen.
    destruct (pack_biases_staged_spec weight bias batch rows cols)
      as (v & Hp & Hsz & _); eauto; lia.
Qed.

Lemma staged_destination_sizes_witness :
  (exists v,
     pack_weights batch_weight_2x3x2 true = Ok v
     /\ v_sizes v = [2; 4; ceil_div 3 2; ceil_div 2 2])
  /\ (exists v,
        pack_biases batch_weight_2x3x2 (Some batch_bias_1x2) true = Ok v
        /\ v_sizes v = [1; 4; ceil_div 1 2; ceil_div 2 2]).
Proof.
  split.
  - apply (proj1 (staged_destination_sizes 2 3 2
                    ltac:(lia) ltac:(lia) ltac:(lia))
             batch_weight_2x3x2 true).
    + reflexivity.
    + discriminate.
    + left. reflexivity.
    + simpl. lia.
  - apply (proj2 (staged_destination_sizes 1 1 2
                    ltac:(lia) ltac:(lia) ltac:(lia))
             batch_weight_2x3x2 batch_bias_1x2).
    + reflexivity.
    + reflexivity.
    + reflexivity.
    + right. left. split; reflexivity.
    + simpl. lia.
Defined.

(** ** The dispatcher *)

Ltac inv_bind H :=
  repeat match type of H with
  | bind ?m _ = Ok _ =>
    let E := fresh "E" in
    destruct m eqn:E; cbn [bind] in H; [|discriminate H]
  end.

Tactic Notation "step" hyp(H) "as" ident(x) ident(E) :=
  match type of H with
  | bind ?m _ = Ok _ =>
    destruct m as [x|] eqn:E; cbn [bind] in H; [|discriminate H]
  end.

Lemma torch_check_Ok (c : bool) (e : Error) (u : unit) :
  torch_check c e = Ok u -> c = true.
Proof. destruct c; [reflexivity | discriminate]. Qed.

Lemma torch_check_true (e : Error) : torch_check true e = Ok tt.
Proof. reflexivity. Qed.

Lemma get_tensor_inv (ctx : LinearPackedContext) (i : nat) (v : vTensor) :
  (iv <- get_val ctx i ;; t <- toTensor iv ;; Ok (convert t)) = Ok v ->
  exists t, get_val ctx i = Ok (IVTensor t) /\ v = convert t.
Proof.
  destruct (get_val ctx i) as [[t| | |]|]; cbn; try discriminate.
  intros H. injection H as <-. eauto.
Qed.

Lemma get_int_vector_inv (ctx : LinearPackedContext) (i : nat) (l : list Z) :
  (iv <- get_val ctx i ;; toIntVector iv) = Ok l ->
  get_val ctx i = Ok (IVIntVector l).
Proof.
  destruct (get_val ctx i) as [[| x | |]|]; cbn; try discriminate.
  intros H. injection H as <-. reflexivity.
Qed.

Lemma get_bool_inv (ctx : LinearPackedContext) (i : nat) (b : bool) :
  (iv <- get_val ctx i ;; toBool iv) = Ok b ->
  get_val ctx i = Ok (IVBool b).
Proof.
  destruct (get_val ctx i) as [[| | x |]|]; cbn; try discriminate.
  intros H. injection H as <-. reflexivity.
Qed.

Lemma safe_downcast_uint32_Ok (x y : Z) :
  safe_downcast_uint32 x = Ok y -> y = x /\ 0 <= x < 2 ^ 32.
Proof.
  unfold safe_downcast_uint32.
  destruct (Z.leb_spec 0 x) as [Hlo|Hlo],
           (Z.ltb_spec x (2 ^ 32)) as [Hhi|Hhi]; cbn;
    try discriminate.
  intros Heq. injection Heq as <-. lia.
Qed.

Section DispatchFacts.

Variable extents : vTensor -> uvec3.
Variable run_shader : ComputeJob -> list Z.

(** The job of the unbatched dispatcher: kernel by the table, global work
    group from the sizes of the output image, local work group 8 x 8 x 1. *)
Lemma dispatch_addmm_spec
    (input_arg : Tensor) (alpha beta : Q) (quantized : bool)
    (output_scale : Q) (output_zero_point : Z)
    (v_input packed_v_weight packed_v_bias v_output : vTensor)
    (bias_defined : bool) (job : ComputeJob) (h w : Z) :
  dispatch_addmm extents input_arg alpha beta quantized
    output_scale output_zero_point
    v_input packed_v_weight packed_v_bias v_output bias_defined = Ok job ->
  v_sizes v_output = [h; w] ->
  shader job = spec_kernel quantized bias_defined false
                           (scalar_type input_arg)
  /\ global_work_group job = (div_up w 4, div_up h 4, 1)
  /\ local_work_group job = (8, 8, 1)
  /\ job_output job = v_output
  /\ job_inputs job =
     [v_input; packed_v_weight] ++
     (if bias_defined then [packed_v_bias] else []).
Proof.
  intros H Hs. unfold dispatch_addmm in H. rewrite Hs in H.
  change (at_index [h; w] Layout.Param.width) with (Ok w : result Z) in H.
  change (at_index [h; w] Layout.Param.height) with (Ok h : result Z) in H.
  destruct bias_defined, quantized; cbn [bind] in H; inv_bind H;
    repeat match goal with
    | E : bind _ _ = Ok _ |- _ => inv_bind E
    | E : safe_downcast_uint32 _ = Ok _ |- _ =>
      apply safe_downcast_uint32_Ok in E as [-> _]
    | E : Ok (_, _) = Ok _ |- _ => injection E as <-
    end;
    injection H as <-; cbn; auto.
Qed.

(** The job of the batched dispatcher. *)
Lemma dispatch_baddbmm_spec
    (alpha beta : Q) (unpacked_weight_sizes : list Z)
    (v_input packed_v_weight packed_v_bias v_output : vTensor)
    (bias_defined : bool) (job : ComputeJob) (b h w : Z) :
  dispatch_baddbmm extents alpha beta unpacked_weight_sizes
    v_input packed_v_weight packed_v_bias v_output bias_defined = Ok job ->
  at_index (v_sizes v_input) Layout.BatchMatrices.batch = Ok b ->
  at_index (v_sizes v_input) Layout.BatchMatrices.height = Ok h ->
  at_index unpacked_weight_sizes Layout.BatchMatrices.width = Ok w ->
  shader job = spec_kernel false bias_defined true kFloat
  /\ global_work_group job = (div_up w 2, div_up h 2, div_up b 4)
  /\ local_work_group job = (8, 8, 1)
  /\ job_output job = v_output
  /\ job_inputs job =
     [v_input; packed_v_weight] ++
     (if bias_defined then [packed_v_bias] else []).
Proof.
  intros H Hb Hh Hw. unfold dispatch_baddbmm in H.
  rewrite Hb, Hh, Hw in H.
  destruct bias_defined; inv_bind H;
    repeat match goal with
    | E : safe_downcast_uint32 _ = Ok _ |- _ =>
      apply safe_downcast_uint32_Ok in E as [-> _]
    end;
    injection H as <-; cbn; auto.
Qed.

Lemma run_addmm_context_inv
    (input_arg : Tensor) (alpha beta : Q) (linear_context : nat)
    (quantized : bool) (output_scale : Q) (output_zero_point : Z)
    (st : VkState) (out : Tensor) (st' : VkState) :
  run_addmm_context extents run_shader input_arg alpha beta linear_context
    quantized output_scale output_zero_point st = Ok (out, st') ->
  exists r, addmm_steps extents run_shader input_arg alpha beta
              linear_context quantized
              output_scale output_zero_point st out st' r.
Proof.
  unfold run_addmm_context. intros H.
  step H as input_arg_2d E0. step H as v_input E1. step H as ctx E2.
  step H as packed_v_weight E3. step H as packed_v_bias E4.
  step H as uws E5. step H as bias_defined E6. step H as ok E7.
  step H as u1 E8. step H as u2 E9. step H as u3 E10.
  step H as out_h E11. step H as out_w E12. step H as job E13.
  apply get_tensor_inv in E3 as (pw & Epw & ->).
  apply get_tensor_inv in E4 as (pb & Epb & ->).
  apply get_int_vector_inv in E5. apply get_bool_inv in E6.
  apply torch_check_Ok in E8, E9, E10. subst ok.
  exists {| r_input_2d := input_arg_2d; r_v_input := v_input; r_ctx := ctx;
            r_weight := pw; r_bias := pb; r_weight_sizes := uws;
            r_bias_defined := bias_defined; r_out_h := out_h;
            r_out_w := out_w; r_job := job |}.
  unfold addmm_steps; cbn [r_input_2d r_v_input r_ctx r_weight r_bias
    r_weight_sizes r_bias_defined r_out_h r_out_w r_job].
  repeat (split; [assumption || reflexivity|]).
  destruct (dim input_arg =? 2).
  - injection H as <- <-. split; reflexivity.
  - inv_bind H. injection H as <- <-. split; reflexivity.
Qed.

Lemma run_addmm_context_intro
    (input_arg : Tensor) (alpha beta : Q) (linear_context : nat)
    (quantized : bool) (output_scale : Q) (output_zero_point : Z)
    (st : VkState) (out : Tensor) (st' : VkState) (r : addmm_run) :
  addmm_steps extents run_shader input_arg alpha beta linear_context
    quantized
    output_scale output_zero_point st out st' r ->
  run_addmm_context extents run_shader input_arg alpha beta linear_context
    quantized output_scale output_zero_point st = Ok (out, st').
Proof.
  intros (E0 & E1 & E2 & E3 & E4 & E5 & E6 & E7 & E8 & E9 & E10 & E11
          & E12 & -> & E14).
  unfold run_addmm_context.
  rewrite E0; cbn [bind]. rewrite E1; cbn [bind]. rewrite E2; cbn [bind].
  rewrite E3, E4, E5, E6; cbn [bind toTensor toIntVector toBool].
  rewrite E7; cbn [bind torch_check]. rewrite E8, E9; cbn [bind torch_check].
  rewrite E10, E11; cbn [bind].
  unfold addmm_output in E12. rewrite E12; cbn [bind].
  destruct (dim input_arg =? 2).
  - injection E14 as <-. reflexivity.
  - rewrite E14. reflexivity.
Qed.

(** A successful [run_baddbmm_context]: the context it read, the sizes of
    the output image and the one job it submitted. *)
Lemma run_baddbmm_context_inv
    (input_arg : Tensor) (alpha beta : Q) (linear_context : nat)
    (st : VkState) (out : Tensor) (st' : VkState) :
  run_baddbmm_context extents run_shader input_arg alpha beta linear_context
    st = Ok (out, st') ->
  exists ctx uws bd b h w job,
    deref st linear_context = Ok ctx
    /\ get_val ctx Packed.WeightSizes = Ok (IVIntVector uws)
    /\ get_val ctx Packed.BiasDefined = Ok (IVBool bd)
    /\ usable (to_vulkan input_arg) uws true = Ok true
    /\ job_output job = new_vTensor [b; h; w] (scalar_type input_arg)
    /\ shader job = spec_kernel false bd true kFloat
    /\ global_work_group job = (div_up w 2, div_up h 2, div_up b 4)
    /\ local_work_group job = (8, 8, 1)
    /\ st' = submit_compute_job st job
    /\ restore_shape input_arg (output_of run_shader job) = Ok out.
Proof.
  unfold run_baddbmm_context. intros H.
  step H as u0 E0. step H as ctx E2.
  step H as packed_v_weight E3. step H as packed_v_bias E4.
  step H as uws E5. step H as bias_defined E6. step H as ok E7.
  step H as u1 E8. step H as out_b E9. step H as out_h E10.
  step H as out_w E11. step H as job E12. step H as reshaped E13.
  apply get_int_vector_inv in E5. apply get_bool_inv in E6.
  apply torch_check_Ok in E8. subst ok. injection H as <- <-.
  destruct (dispatch_baddbmm_spec _ _ _ _ _ _ _ _ _ _ _ _ E12 E9 E10 E11)
    as (Hk & Hg & Hl & Ho & _).
  exists ctx, uws, bias_defined, out_b, out_h, out_w, job. auto 12.
Qed.

End DispatchFacts.

(** ** The shape adapter *)

Lemma leading_sizes_seqZ (t : Tensor) (k a : nat) :
  (a + k <= length (sizes t))%nat ->
  leading_sizes t (seqZ (Z.of_nat a) (Z.of_nat k))
  = Ok (take k (drop a (sizes t))).
Proof.
  revert a. induction k as [|k IH]; intros a Hlen; [reflexivity|].
  rewrite seqZ_cons by lia.
  replace (Z.succ (Z.of_nat a)) with (Z.of_nat (S a)) by lia.
  replace (Z.pred (Z.of_nat (S k))) with (Z.of_nat k) by lia.
  destruct (lookup_lt_is_Some_2 (sizes t) a ltac:(lia)) as [x Hx].
  cbn [leading_sizes]. rewrite (size_lookup t a x Hx), IH by lia.
  cbn [bind]. rewrite (drop_S _ _ _ Hx). reflexivity.
Qed.

Lemma leading_sizes_irange (t : Tensor) :
  1 <= dim t ->
  leading_sizes t (irange (dim t - 1)) = Ok (removelast (sizes t)).
Proof.
  unfold dim, ndimension, irange. intros Hd.
  replace (Z.of_nat (length (sizes t)) - 1)
    with (Z.of_nat (pred (length (sizes t)))) by lia.
  rewrite (leading_sizes_seqZ t _ 0) by lia.
  rewrite removelast_firstn_len. reflexivity.
Qed.

Lemma size_last_of_pair (t : Tensor) (h w : Z) :
  sizes t = [h; w] -> size t (-1) = Ok w.
Proof. intros Hs. unfold size, ndimension. rewrite Hs. reflexivity. Qed.

Lemma reshape_sizes (t t' : Tensor) (shape : list Z) :
  reshape t shape = Ok t' -> sizes t' = shape.
Proof.
  unfold reshape. destruct (numel shape =? numel (sizes t)); [|discriminate].
  intros H. injection H as <-. reflexivity.
Qed.

Lemma restore_shape_sizes (input_arg output out : Tensor) (h w : Z) :
  1 <= dim input_arg ->
  sizes output = [h; w] ->
  restore_shape input_arg output = Ok out ->
  sizes out = removelast (sizes input_arg) ++ [w].
Proof.
  intros Hd Hs. unfold restore_shape, restored_shape.
  rewrite (leading_sizes_irange _ Hd), (size_last_of_pair _ _ _ Hs).
  cbn [bind]. apply reshape_sizes.
Qed.

(** [reshape_to_2d] on success: all axes but the last become one, of the
    product of their sizes. *)
Lemma reshape_to_2d_sizes (input_arg t2 : Tensor) :
  reshape_to_2d input_arg = Ok t2 ->
  2 <= dim input_arg
  /\ exists last_sz,
       last (sizes input_arg) = Some last_sz
       /\ sizes t2 = [numel (removelast (sizes input_arg)); last_sz].
Proof.
  unfold reshape_to_2d. intros H.
  step H as u E0. step H as last_sz E1.
  apply torch_check_Ok, Z.leb_le in E0. split; [exact E0|].
  apply reshape_sizes in H. exists last_sz. split; [|exact H].
  revert E1. unfold size, dim, ndimension in *. cbn.
  destruct (sizes input_arg) as [|x l] using rev_ind; [cbn in E0; lia|].
  rewrite length_app, last_snoc. cbn [length].
  destruct (Z.leb_spec 0 (-1 + Z.of_nat (length l + 1))); [|lia].
  destruct (Z.ltb_spec (-1 + Z.of_nat (length l + 1))
                       (Z.of_nat (length l + 1))); [|lia].
  cbn [andb].
  replace (Z.to_nat (-1 + Z.of_nat (length l + 1))) with (length l) by lia.
  rewrite list_lookup_middle by reflexivity. congruence.
Qed.

Lemma deref_submit (st : VkState) (j : ComputeJob) (p : nat) :
  deref (submit_compute_job st j) p = deref st p.
Proof. reflexivity. Qed.

Section DispatchClaims.

Variable extents : vTensor -> uvec3.
Variable run_shader : ComputeJob -> list Z.

(** C6.  A successful call of the dispatcher appends exactly one job to the
    queue.  Unbatched, its kernel is the one of the table for (quantized,
    bias_defined) and the input's element type, and its global work group
    is (ceil(out_cols/4), ceil(out_rows/4), 1); batched, its kernel is bmm
    or baddbmm and its global work group is (ceil(out_cols/2),
    ceil(out_rows/2), ceil(batch/4)); the local work group is (8, 8, 1)
    either way.  The sizes are those of the output image of the job. *)
Theorem dispatcher_submits_one_job
    (input_arg : Tensor) (alpha beta : Q) (linear_context : nat)
    (quantized : bool) (output_scale : Q) (output_zero_point : Z)
    (st : VkState) (out : Tensor) (st' : VkState) :
  (run_addmm_context extents run_shader input_arg alpha beta linear_context
     quantized output_scale output_zero_point st = Ok (out, st') ->
   exists ctx bias_defined out_rows out_cols job,
     deref st linear_context = Ok ctx
     /\ get_val ctx Packed.BiasDefined = Ok (IVBool bias_defined)
     /\ queue st' = queue st ++ [job]
     /\ shader job = spec_kernel quantized bias_defined false
                                 (scalar_type input_arg)
     /\ v_sizes (job_output job) = [out_rows; out_cols]
     /\ global_work_group job = (div_up out_cols 4, div_up out_rows 4, 1)
     /\ (0 <= out_rows -> 0 <= out_cols ->
         global_work_group job
         = (ceil_div out_cols 4, ceil_div out_rows 4, 1))
     /\ local_work_group job = (8, 8, 1))
  /\ (run_baddbmm_context extents run_shader input_arg alpha beta
        linear_context st = Ok (out, st') ->
      exists ctx bias_defined batch out_rows out_cols job,
        deref st linear_context = Ok ctx
        /\ get_val ctx Packed.BiasDefined = Ok (IVBool bias_defined)
        /\ queue st' = queue st ++ [job]
        /\ shader job = spec_kernel false bias_defined true
                                    (scalar_type input_arg)
        /\ v_sizes (job_output job) = [batch; out_rows; out_cols]
        /\ global_work_group job
           = (div_up out_cols 2, div_up out_rows 2, div_up batch 4)
        /\ (0 <= batch -> 0 <= out_rows -> 0 <= out_cols ->
            global_work_group job
            = (ceil_div out_cols 2, ceil_div out_rows 2, ceil_div batch 4))
        /\ local_work_group job = (8, 8, 1)).
Proof.
  split.
  - intros H. apply run_addmm_context_inv in H as (r & Hr).
    destruct Hr as (_ & _ & Hctx & _ & _ & _ & Hbd & _ & _ & _ & _ & _
                    & Hjob & -> & _).
    assert (Hsz : v_sizes (addmm_output input_arg quantized output_scale
                             output_zero_point (r_out_h r) (r_out_w r))
                  = [r_out_h r; r_out_w r])
      by (unfold addmm_output; destruct quantized; reflexivity).
    destruct (dispatch_addmm_spec _ _ _ _ _ _ _ _ _ _ _ _ _ _ _ Hjob Hsz)
      as (Hk & Hg & Hl & Ho & _).
    exists (r_ctx r), (r_bias_defined r), (r_out_h r), (r_out_w r), (r_job r).
    rewrite Ho, Hg. repeat split; auto.
    intros Hr Hc. rewrite !div_up_ceil by lia. reflexivity.
  - intros H.
    apply run_baddbmm_context_inv
      in H as (ctx & uws & bd & b & h & w & job & Hctx & Huws & Hbd & Hus
               & Ho & Hk & Hg & Hl & -> & _).
    exists ctx, bd, b, h, w, job. rewrite Ho, Hg.
    repeat split; auto;
      try (rewrite Hk; destruct bd; reflexivity).
    intros Hb Hh Hw. rewrite !div_up_ceil by lia. reflexivity.
Qed.

(** A successful call only adds its job to the queue, and in any state
    whose context behind [linear_context] has the same four packed values
    the call returns the same tensor and submits the same job. *)
Lemma run_addmm_context_frame
    (input_arg : Tensor) (alpha beta : Q) (linear_context : nat)
    (quantized : bool) (output_scale : Q) (output_zero_point : Z)
    (st : VkState) (out : Tensor) (st' : VkState) :
  run_addmm_context extents run_shader input_arg alpha beta linear_context
    quantized output_scale output_zero_point st = Ok (out, st') ->
  exists job,
    st' = submit_compute_job st job
    /\ forall st2, same_packed st st2 linear_context ->
         run_addmm_context extents run_shader input_arg alpha beta
           linear_context quantized output_scale output_zero_point st2
         = Ok (out, submit_compute_job st2 job).
Proof.
  intros H. apply run_addmm_context_inv in H as (r & Hr).
  destruct Hr as (E0 & E1 & E2 & E3 & E4 & E5 & E6 & E7 & E8 & E9 & E10
                  & E11 & E12 & -> & E14).
  exists (r_job r). split; [reflexivity|]. intros st2 Hsame.
  destruct (Hsame _ E2) as (ctx2 & D2 & G0 & G1 & G2 & G3).
  apply run_addmm_context_intro
    with (r := {| r_input_2d := r_input_2d r; r_v_input := r_v_input r;
                  r_ctx := ctx2; r_weight := r_weight r;
                  r_bias := r_bias r; r_weight_sizes := r_weight_sizes r;
                  r_bias_defined := r_bias_defined r;
                  r_out_h := r_out_h r; r_out_w := r_out_w r;
                  r_job := r_job r |}).
  unfold addmm_steps; cbn [r_input_2d r_v_input r_ctx r_weight r_bias
    r_weight_sizes r_bias_defined r_out_h r_out_w r_job].
  rewrite G0, G1, G2, G3. auto 20.
Qed.

Lemma same_packed_submit (st : VkState) (job : ComputeJob) (p : nat) :
  same_packed st (submit_compute_job st job) p.
Proof. intros ctx Hctx. exists ctx. rewrite deref_submit. auto. Qed.

(** C7.  A successful [run_linear_context] leaves every context as it was
    (only the command queue grows); run again on the same input in the
    state it left, it returns the same tensor, again without changing a
    context; and all it reads of the context are the packed weight, the
    packed bias, the weight sizes and the bias-defined flag: in any state
    that agrees on these four it returns the same tensor. *)
Theorem run_linear_context_idempotent
    (input : Tensor) (linear_context : nat)
    (st : VkState) (out : Tensor) (st' : VkState) :
  run_linear_context extents run_shader input linear_context st
  = Ok (out, st') ->
  heap st' = heap st
  /\ (exists st'',
        run_linear_context extents run_shader input linear_context st'
        = Ok (out, st'')
        /\ heap st'' = heap st)
  /\ (forall st2, same_packed st st2 linear_context ->
        exists st2',
          run_linear_context extents run_shader input linear_context st2
          = Ok (out, st2')
          /\ heap st2' = heap st2).
Proof.
  unfold run_linear_context. intros H.
  apply run_addmm_context_frame in H as (job & -> & Hframe).
  split; [reflexivity|]. split.
  - eexists. split; [apply Hframe, same_packed_submit | reflexivity].
  - intros st2 Hsame. eexists. split; [apply Hframe, Hsame | reflexivity].
Qed.

(** C8.  A successful [run_addmm_context] on an input of rank d.  For
    d = 2 the output of the job is returned as it is.  For d > 2 the input
    is first reshaped to two dimensions, the product of all sizes but the
    last and the last size, and the output is reshaped back.  Either way
    the returned tensor has the sizes of the input with the last one
    replaced by the weight's width, hence rank d. *)
Theorem run_addmm_context_output_shape
    (input_arg : Tensor) (alpha beta : Q) (linear_context : nat)
    (quantized : bool) (output_scale : Q) (output_zero_point : Z)
    (st : VkState) (out : Tensor) (st' : VkState) :
  run_addmm_context extents run_shader input_arg alpha beta linear_context
    quantized output_scale output_zero_point st = Ok (out, st') ->
  exists ctx uws width job,
    deref st linear_context = Ok ctx
    /\ get_val ctx Packed.WeightSizes = Ok (IVIntVector uws)
    /\ uws !! 1%nat = Some width
    /\ st' = submit_compute_job st job
    /\ 2 <= dim input_arg
    /\ sizes out = removelast (sizes input_arg) ++ [width]
    /\ length (sizes out) = length (sizes input_arg)
    /\ (dim input_arg = 2 -> out = output_of run_shader job)
    /\ (2 < dim input_arg ->
        exists input_arg_2d last_sz,
          reshape_to_2d input_arg = Ok input_arg_2d
          /\ last (sizes input_arg) = Some last_sz
          /\ sizes input_arg_2d
             = [numel (removelast (sizes input_arg)); last_sz]
          /\ v_sizes (job_output job)
             = [numel (removelast (sizes input_arg)); width]).
Proof.
  intros H. apply run_addmm_context_inv in H as (r & Hr).
  destruct Hr as (E0 & _ & Hctx & _ & _ & Huws & _ & _ & _ & _ & Hh & Hw
                  & Hjob & -> & Hout).
  assert (Hsz : v_sizes (addmm_output input_arg quantized output_scale
                           output_zero_point (r_out_h r) (r_out_w r))
                = [r_out_h r; r_out_w r])
    by (unfold addmm_output; destruct quantized; reflexivity).
  destruct (dispatch_addmm_spec _ _ _ _ _ _ _ _ _ _ _ _ _ _ _ Hjob Hsz)
    as (_ & _ & _ & Ho & _).
  assert (Hos : sizes (output_of run_shader (r_job r))
                = [r_out_h r; r_out_w r])
    by (unfold output_of; cbn; rewrite Ho; exact Hsz).
  change Layout.Param.width with (Z.of_nat 1) in Hw.
  rewrite at_index_lookup in Hw.
  destruct (r_weight_sizes r !! 1%nat) as [width|] eqn:Hwidth;
    [|discriminate]. injection Hw as Hw.
  assert (Hlen : forall l : list Z, (1 <= length l)%nat ->
            length (removelast l ++ [width]) = length l).
  { intros l Hl. rewrite length_app, removelast_firstn_len, length_take.
    cbn [length]. lia. }
  exists (r_ctx r), (r_weight_sizes r), width, (r_job r).
  repeat (split; [assumption || reflexivity|]).
  destruct (Z.eqb_spec (dim input_arg) 2) as [Hd|Hd].
  - injection E0 as E0. injection Hout as <-. rewrite <- E0 in Hh.
    pose proof Hd as Hd'. unfold dim, ndimension in Hd'.
    destruct (sizes input_arg) as [|h [|k [|x l]]] eqn:Hs;
      cbn [length] in Hd'; try lia.
    cbn in Hh. injection Hh as Hh.
    split; [lia|]. split; [rewrite Hos, <- Hh, Hw; reflexivity|].
    split; [rewrite Hos; reflexivity|]. split; [reflexivity|]. lia.
  - destruct (reshape_to_2d_sizes _ _ E0) as (Hd2 & last_sz & Hlast & Hs2).
    rewrite Hs2 in Hh. cbn in Hh. injection Hh as Hh.
    assert (Hso : sizes out = removelast (sizes input_arg) ++ [width]).
    { assert (Hd1 : 1 <= dim input_arg) by lia.
      rewrite (restore_shape_sizes _ _ _ _ _ Hd1 Hos Hout), Hw.
      reflexivity. }
    split; [exact Hd2|]. split; [exact Hso|].
    split; [rewrite Hso; apply Hlen; unfold dim, ndimension in Hd2; lia|].
    split; [intros Heq; contradiction|]. intros _.
    exists (r_input_2d r), last_sz.
    repeat split; auto. rewrite Ho, Hsz, <- Hh, Hw. reflexivity.
Qed.

End DispatchClaims.

Lemma dispatcher_submits_one_job_witness :
  (exists ctx bias_defined out_rows out_cols job,
     deref sample_context_state 0 = Ok ctx
     /\ get_val ctx Packed.BiasDefined = Ok (IVBool bias_defined)
     /\ queue (snd sample_run) = queue sample_context_state ++ [job]
     /\ shader job = spec_kernel false bias_defined false
                                 (scalar_type input_2x3)
     /\ v_sizes (job_output job) = [out_rows; out_cols]
     /\ global_work_group job = (div_up out_cols 4, div_up out_rows 4, 1)
     /\ (0 <= out_rows -> 0 <= out_cols ->
         global_work_group job
         = (ceil_div out_cols 4, ceil_div out_rows 4, 1))
     /\ local_work_group job = (8, 8, 1))
  /\ (exists ctx bias_defined batch out_rows out_cols job,
        deref sample_batch_state 0 = Ok ctx
        /\ get_val ctx Packed.BiasDefined = Ok (IVBool bias_defined)
        /\ queue (snd sample_batch_run) = queue sample_batch_state ++ [job]
        /\ shader job = spec_kernel false bias_defined true
                                    (scalar_type batch_input_2x2x3)
        /\ v_sizes (job_output job) = [batch; out_rows; out_cols]
        /\ global_work_group job
           = (div_up out_cols 2, div_up out_rows 2, div_up batch 4)
        /\ (0 <= batch -> 0 <= out_rows -> 0 <= out_cols ->
            global_work_group job
            = (ceil_div out_cols 2, ceil_div out_rows 2, ceil_div batch 4))
        /\ local_work_group job = (8, 8, 1)).
Proof.
  split.
  - apply (proj1 (dispatcher_submits_one_job sample_extents sample_shader
                    input_2x3 1%Q 1%Q 0%nat false 0%Q 0
                    sample_context_state (fst sample_run) (snd sample_run))).
    vm_compute. reflexivity.
  - apply (proj2 (dispatcher_submits_one_job sample_extents sample_shader
                    batch_input_2x2x3 1%Q 1%Q 0%nat false 0%Q 0
                    sample_batch_state
                    (fst sample_batch_run) (snd sample_batch_run))).
    vm_compute. reflexivity.
Defined.

Lemma run_linear_context_idempotent_witness :
  heap (snd sample_run) = heap sample_context_state
  /\ (exists st'',
        run_linear_context sample_extents sample_shader input_2x3 0
                           (snd sample_run)
        = Ok (fst sample_run, st'')
        /\ heap st'' = heap sample_context_state)
  /\ (forall st2, same_packed sample_context_state st2 0 ->
        exists st2',
          run_linear_context sample_extents sample_shader input_2x3 0 st2
          = Ok (fst sample_run, st2')
          /\ heap st2' = heap st2).
Proof.
  apply (run_linear_context_idempotent sample_extents sample_shader
           input_2x3 0%nat sample_context_state
           (fst sample_run) (snd sample_run)).
  vm_compute. reflexivity.
Defined.

Lemma run_addmm_context_output_shape_witness :
  exists ctx uws width job,
    deref sample_context_state 0 = Ok ctx
    /\ get_val ctx Packed.WeightSizes = Ok (IVIntVector uws)
    /\ uws !! 1%nat = Some width
    /\ snd sample_run_4d = submit_compute_job sample_context_state job
    /\ 2 <= dim input_2x2x5x3
    /\ sizes (fst sample_run_4d) = removelast (sizes input_2x2x5x3) ++ [width]
    /\ length (sizes (fst sample_run_4d)) = length (sizes input_2x2x5x3)
    /\ (dim input_2x2x5x3 = 2 ->
        fst sample_run_4d = output_of sample_shader job)
    /\ (2 < dim input_2x2x5x3 ->
        exists input_arg_2d last_sz,
          reshape_to_2d input_2x2x5x3 = Ok input_arg_2d
          /\ last (sizes input_2x2x5x3) = Some last_sz
          /\ sizes input_arg_2d
             = [numel (removelast (sizes input_2x2x5x3)); last_sz]
          /\ v_sizes (job_output job)
             = [numel (removelast (sizes input_2x2x5x3)); width]).
Proof.
  apply (run_addmm_context_output_shape sample_extents sample_shader
           input_2x2x5x3 1%Q 1%Q 0%nat false 0%Q 0 sample_context_state
           (fst sample_run_4d) (snd sample_run_4d)).
  vm_compute. reflexivity.
Defined.

(** The rank-4 sample: (2, 2, 5, 3) by a weight (3, 4) gives (2, 2, 5, 4). *)
Example sample_run_4d_sizes : sizes (fst sample_run_4d) = [2; 2; 5; 4].
Proof. reflexivity. Qed.

(** Every kernel of the table is reached, by one job each. *)
Example kernel_mm :
  submitted (mm sample_extents sample_shader vulkan_on input_5x3 weight_3x9
                empty_state)
  = [(VK_mm, (3, 2, 1), (8, 8, 1))].
Proof. reflexivity. Qed.

Example kernel_addmm :
  submitted (addmm sample_extents sample_shader vulkan_on bias_4
                   input_2x2x5x3 weight_3x4 1%Q 1%Q empty_state)
  = [(VK_addmm, (1, 5, 1), (8, 8, 1))].
Proof. reflexivity. Qed.

Example kernel_bmm :
  submitted (bmm sample_extents sample_shader vulkan_on batch_input_2x2x3
                 batch_weight_2x3x2 empty_state)
  = [(VK_bmm, (1, 1, 1), (8, 8, 1))].
Proof. reflexivity. Qed.

Example kernel_baddbmm :
  submitted (baddbmm sample_extents sample_shader vulkan_on batch_bias_1x2
                     batch_input_2x2x3 batch_weight_2x3x2 1%Q 1%Q
                     empty_state)
  = [(VK_baddbmm, (1, 1, 1), (8, 8, 1))].
Proof. reflexivity. Qed.

Example kernel_quantized_mm :
  submitted (qlinear qweight_3x4 None (qinput_2x3 kQInt8))
  = [(VK_quantized_mm_qint8, (1, 1, 1), (8, 8, 1))]
  /\ submitted (qlinear qweight_3x4 None (qinput_2x3 kQUInt8))
     = [(VK_quantized_mm_quint8, (1, 1, 1), (8, 8, 1))].
Proof. split; reflexivity. Qed.

Example kernel_quantized_addmm :
  submitted (qlinear qweight_3x4 (Some bias_4) (qinput_2x3 kQInt8))
  = [(VK_quantized_addmm_qint8, (1, 1, 1), (8, 8, 1))]
  /\ submitted (qlinear qweight_3x4 (Some bias_4) (qinput_2x3 kQUInt8))
     = [(VK_quantized_addmm_quint8, (1, 1, 1), (8, 8, 1))].
Proof. split; reflexivity. Qed.

(** ** The prepacked context *)

(** A context that was constructed: what it holds. *)
Lemma LinearPackedContext_new_Ok
    (g : GlobalContext) (weight : Tensor) (bias : option Tensor)
    (use_batch : bool) (c : LinearPackedContext) :
  LinearPackedContext_new g weight bias use_batch = Ok c ->
  available g weight bias use_batch = Ok true
  /\ exists w b,
       pack_weights weight use_batch = Ok w
       /\ pack_biases weight bias use_batch = Ok b
       /\ packed_ c = [ IVTensor (convert_v w);
                        IVTensor (convert_v b);
                        IVIntVector (sizes weight);
                        IVBool (has_defined bias) ]
       /\ unpacked_ c =
          if releaseWeightsWhenPrepacking g then []
          else [ IVTensor weight; IValue_of_optional bias ].
Proof.
  unfold LinearPackedContext_new. intros H.
  step H as ok E0. step H as u E1. step H as w E2. step H as b E3.
  apply torch_check_Ok in E1. subst ok. injection H as <-.
  split; [reflexivity|]. exists w, b. cbn [packed_ unpacked_].
  repeat split. destruct (releaseWeightsWhenPrepacking g); reflexivity.
Qed.

(** C9, as the code has it.  The constructor raises whenever [available]
    answers false.  When it succeeds, [available] answered true, and the
    context holds the packed weight, the packed bias, the sizes of the
    unpacked weight and the bias-defined flag, and it retains the unpacked
    weight and bias exactly when [releaseWeightsWhenPrepacking] is off. *)
Theorem LinearPackedContext_new_spec
    (g : GlobalContext) (weight : Tensor) (bias : option Tensor)
    (use_batch : bool) :
  (available g weight bias use_batch = Ok false ->
   LinearPackedContext_new g weight bias use_batch = Err NotAvailable)
  /\ (forall c,
        LinearPackedContext_new g weight bias use_batch = Ok c ->
        available g weight bias use_batch = Ok true
        /\ exists w b,
             pack_weights weight use_batch = Ok w
             /\ pack_biases weight bias use_batch = Ok b
             /\ packed_ c = [ IVTensor (convert_v w);
                              IVTensor (convert_v b);
                              IVIntVector (sizes weight);
                              IVBool (has_defined bias) ]
             /\ unpacked_ c =
                if releaseWeightsWhenPrepacking g then []
                else [ IVTensor weight; IValue_of_optional bias ]).
Proof.
  split.
  - unfold LinearPackedContext_new. intros ->. reflexivity.
  - intros c. apply LinearPackedContext_new_Ok.
Qed.

Lemma LinearPackedContext_new_spec_witness :
  LinearPackedContext_new vulkan_on (with_requires_grad weight_3x4)
                          (Some bias_4) false = Err NotAvailable
  /\ (available vulkan_on weight_3x4 (Some bias_4) false = Ok true
      /\ exists w b,
           pack_weights weight_3x4 false = Ok w
           /\ pack_biases weight_3x4 (Some bias_4) false = Ok b
           /\ packed_ sample_context = [ IVTensor (convert_v w);
                                         IVTensor (convert_v b);
                                         IVIntVector (sizes weight_3x4);
                                         IVBool (has_defined (Some bias_4)) ]
           /\ unpacked_ sample_context =
              if releaseWeightsWhenPrepacking vulkan_on then []
              else [ IVTensor weight_3x4;
                     IValue_of_optional (Some bias_4) ]).
Proof.
  split.
  - apply (proj1 (LinearPackedContext_new_spec
                    vulkan_on (with_requires_grad weight_3x4)
                    (Some bias_4) false)).
    reflexivity.
  - apply (proj2 (LinearPackedContext_new_spec
                    vulkan_on weight_3x4 (Some bias_4) false)
             sample_context).
    reflexivity.
Defined.

(** C9, as stated, fails in the "only if" direction: for a float weight
    on the device behind a width-packed image [available] answers true,
    and the constructor raises all the same, at the check of Mm.cpp:75. *)
Lemma LinearPackedContext_new_raises_when_available :
  available vulkan_on weight_3x4_width_packed None false = Ok true
  /\ LinearPackedContext_new vulkan_on weight_3x4_width_packed None false
     = Err WeightNotHeightPacked.
Proof. split; reflexivity. Qed.

(** ** Which errors a call can raise *)

Lemma raises_only_Ok {A : Type} (P : Error -> Prop) (a : A) :
  raises_only P (Ok a).
Proof. intros e H. discriminate. Qed.

Lemma raises_only_Err {A : Type} (P : Error -> Prop) (e : Error) :
  P e -> raises_only P (Err e : result A).
Proof. intros HP e' H. injection H as <-. exact HP. Qed.

Lemma raises_only_bind {A B : Type} (P : Error -> Prop)
    (m : result A) (k : A -> result B) :
  raises_only P m -> (forall a, raises_only P (k a)) ->
  raises_only P (bind m k).
Proof.
  intros Hm Hk e. destruct m as [a|e0]; cbn [bind].
  - exact (Hk a e).
  - intros H. injection H as <-. exact (Hm e0 eq_refl).
Qed.

Lemma raises_only_for_each {S : Type} (P : Error -> Prop)
    (l : list Z) (body : Z -> S -> result S) (s : S) :
  (forall i s', raises_only P (body i s')) ->
  raises_only P (for_each l body s).
Proof.
  intros Hb. revert s. induction l as [|i l IH]; intros s.
  - apply raises_only_Ok.
  - cbn [for_each]. apply raises_only_bind; auto.
Qed.

Ltac raises_leaf :=
  first [ apply raises_only_Ok
        | apply raises_only_Err; split; discriminate ].

Ltac raises_step :=
  first
    [ raises_leaf
    | apply raises_only_bind; [|intros ?]
    | apply raises_only_for_each; intros ? ?
    | match goal with
      | |- raises_only _ (if ?c then _ else _) => destruct c
      | |- raises_only _ (match ?x with _ => _ end) => destruct x
      end ].

Ltac raises := repeat raises_step.

Lemma raises_torch_check (c : bool) (e : Error) :
  not_an_input_rejection e ->
  raises_only not_an_input_rejection (torch_check c e).
Proof.
  intros He. unfold torch_check. destruct c;
    [apply raises_only_Ok | apply raises_only_Err; exact He].
Qed.

Lemma raises_at_index (l : list Z) (i : Z) :
  raises_only not_an_input_rejection (at_index l i).
Proof. unfold at_index. raises. Qed.

Lemma raises_size (t : Tensor) (d : Z) :
  raises_only not_an_input_rejection (size t d).
Proof. unfold size. raises. Qed.

Lemma raises_reshape (t : Tensor) (shape : list Z) :
  raises_only not_an_input_rejection (reshape t shape).
Proof. unfold reshape. raises. Qed.

Lemma raises_reshape_to_2d (t : Tensor) :
  raises_only not_an_input_rejection (reshape_to_2d t).
Proof.
  unfold reshape_to_2d. apply raises_only_bind;
    [apply raises_torch_check; split; discriminate | intros _].
  apply raises_only_bind; [apply raises_size | intros ?].
  apply raises_reshape.
Qed.

Lemma raises_leading_sizes (t : Tensor) (l : list Z) :
  raises_only not_an_input_rejection (leading_sizes t l).
Proof.
  induction l as [|i l IH]; cbn [leading_sizes]; [apply raises_only_Ok|].
  apply raises_only_bind; [apply raises_size | intros ?].
  apply raises_only_bind; [exact IH | intros ?]. apply raises_only_Ok.
Qed.

Lemma raises_restore_shape (t output : Tensor) :
  raises_only not_an_input_rejection (restore_shape t output).
Proof.
  unfold restore_shape, restored_shape.
  repeat (apply raises_only_bind; [|intros ?]);
    auto using raises_leading_sizes, raises_size, raises_reshape,
               raises_only_Ok.
Qed.

Lemma raises_get_val (c : LinearPackedContext) (i : nat) :
  raises_only not_an_input_rejection (get_val c i).
Proof. unfold get_val. raises. Qed.

Lemma raises_deref (st : VkState) (p : nat) :
  raises_only not_an_input_rejection (deref st p).
Proof. unfold deref. raises. Qed.

Lemma raises_safe_downcast_uint32 (x : Z) :
  raises_only not_an_input_rejection (safe_downcast_uint32 x).
Proof. unfold safe_downcast_uint32. raises. Qed.

Lemma raises_safe_downcast_int32 (x : Z) :
  raises_only not_an_input_rejection (safe_downcast_int32 x).
Proof. unfold safe_downcast_int32. raises. Qed.

Lemma raises_memcpy1 (src : list Z) (d s : Z) (dst : list Z) :
  raises_only not_an_input_rejection (memcpy1 src d s dst).
Proof.
  unfold memcpy1. destruct ((d <? 0) || (Z.of_nat (length dst) <=? d));
    [raises_leaf|].
  apply raises_only_bind; [apply raises_at_index | intros ?]. raises_leaf.
Qed.

Ltac raises_known :=
  first
    [ apply raises_at_index | apply raises_size | apply raises_reshape
    | apply raises_reshape_to_2d | apply raises_restore_shape
    | apply raises_get_val | apply raises_deref
    | apply raises_safe_downcast_uint32 | apply raises_safe_downcast_int32
    | apply raises_memcpy1
    | apply raises_torch_check; split; discriminate ].

Ltac raises_all := repeat first [ raises_known | raises_step ].

Lemma raises_usable (t : Tensor) (uws : list Z) (use_batch : bool) :
  raises_only not_an_input_rejection (usable t uws use_batch).
Proof.
  unfold usable, usable_check_with_batch, andthen. raises_all.
Qed.

Lemma raises_available
    (g : GlobalContext) (weight : Tensor) (bias : option Tensor)
    (use_batch : bool) :
  raises_only not_an_input_rejection (available g weight bias use_batch).
Proof.
  unfold available, available_check_with_batch, andthen, andalways.
  raises_all.
Qed.

Lemma raises_pack_weights (weight : Tensor) (use_batch : bool) :
  raises_only not_an_input_rejection (pack_weights weight use_batch).
Proof.
  unfold pack_weights, pack_weights_using_height_packing, stage_pack_weights.
  raises_all.
Qed.

Lemma raises_pack_biases
    (weight : Tensor) (bias : option Tensor) (use_batch : bool) :
  raises_only not_an_input_rejection (pack_biases weight bias use_batch).
Proof.
  unfold pack_biases, stage_pack_biases, data_ptr_float. raises_all.
Qed.

Lemma raises_LinearPackedContext_new
    (g : GlobalContext) (weight : Tensor) (bias : option Tensor)
    (use_batch : bool) :
  raises_only not_an_input_rejection
    (LinearPackedContext_new g weight bias use_batch).
Proof.
  unfold LinearPackedContext_new.
  apply raises_only_bind; [apply raises_available | intros ?].
  apply raises_only_bind;
    [apply raises_torch_check; split; discriminate | intros ?].
  apply raises_only_bind; [apply raises_pack_weights | intros ?].
  apply raises_only_bind; [apply raises_pack_biases | intros ?].
  apply raises_only_Ok.
Qed.

Lemma device_to_vulkan (t : Tensor) : device (to_vulkan t) = Vulkan.
Proof.
  unfold to_vulkan, is_vulkan.
  destruct (DeviceType_eqb (device t) Vulkan) eqn:E; [|reflexivity].
  apply DeviceType_eqb_eq, E.
Qed.

(** The input packing never turns away, for its device, the tensor
    [run_addmm_context] hands it. *)
Lemma raises_pack_inputs_to_vulkan (t : Tensor) :
  raises_only not_an_input_rejection
    (pack_inputs_using_height_packing (to_vulkan t)).
Proof.
  unfold pack_inputs_using_height_packing, is_cpu, is_vulkan. cbv zeta.
  rewrite (device_to_vulkan t). cbn [DeviceType_eqb].
  rewrite (device_to_vulkan t). cbn [DeviceType_eqb].
  rewrite torch_check_true. cbn [bind]. raises_all.
Qed.

Section DispatchErrors.

Variable extents : vTensor -> uvec3.
Variable run_shader : ComputeJob -> list Z.

Lemma raises_dispatch_addmm
    (input_arg : Tensor) (alpha beta : Q) (quantized : bool)
    (output_scale : Q) (output_zero_point : Z)
    (v_input packed_v_weight packed_v_bias v_output : vTensor)
    (bias_defined : bool) :
  raises_only not_an_input_rejection
    (dispatch_addmm extents input_arg alpha beta quantized
       output_scale output_zero_point
       v_input packed_v_weight packed_v_bias v_output bias_defined).
Proof. unfold dispatch_addmm. raises_all. Qed.

Ltac estep H x E tac :=
  match type of H with
  | bind ?m _ = Err _ =>
    let e0 := fresh "e0" in
    let L := fresh "L" in
    assert (L : raises_only not_an_input_rejection m) by tac;
    destruct m as [x|e0] eqn:E; cbn [bind] in H;
    [ clear L
    | injection H as <-;
      let Ha := fresh in
      let Hb := fresh in
      destruct (L e0 eq_refl) as [Ha Hb];
      split; [exact Ha | intros ?; contradiction] ]
  end.

Ltac raises_run :=
  first [ apply raises_pack_inputs_to_vulkan
        | apply raises_usable
        | apply raises_dispatch_addmm
        | unfold toTensor, toIntVector, toBool; raises_all ].

(** An error of [run_addmm_context] is never the device check of the input
    packing; and when it is the [usable] check, the tensor checked was on
    the device and failed another condition. *)
Lemma run_addmm_context_errors
    (input_arg : Tensor) (alpha beta : Q) (linear_context : nat)
    (quantized : bool) (output_scale : Q) (output_zero_point : Z)
    (st : VkState) (e : Error) :
  run_addmm_context extents run_shader input_arg alpha beta linear_context
    quantized output_scale output_zero_point st = Err e ->
  e <> InputMustBeOnVulkan
  /\ (e = NotUsable ->
      exists ctx uws,
        deref st linear_context = Ok ctx
        /\ get_val ctx Packed.WeightSizes = Ok (IVIntVector uws)
        /\ usable_rejection input_arg uws).
Proof.
  unfold run_addmm_context. intros H.
  estep H input_arg_2d E0 raises_run.
  estep H v_input E1 raises_run.
  estep H ctx E2 raises_run.
  estep H packed_v_weight E3 raises_run.
  estep H packed_v_bias E4 raises_run.
  estep H uws E5 raises_run.
  estep H bias_defined E6 raises_run.
  estep H ok E7 raises_run.
  apply get_int_vector_inv in E5.
  destruct ok; cbn [torch_check bind] in H.
  - estep H u2 E9 raises_run.
    estep H u3 E10 raises_run.
    estep H out_h E11 raises_run.
    estep H out_w E12 raises_run.
    estep H job E13 raises_run.
    destruct (dim input_arg =? 2); [discriminate|].
    estep H reshaped E14 raises_run.
    discriminate.
  - injection H as <-. split; [discriminate|]. intros _.
    exists ctx, uws. split; [reflexivity|]. split; [exact E5|].
    exists input_arg_2d. split; [exact E0|].
    split; [apply device_to_vulkan|]. split; [exact E7|].
    intros (Hl & Hdt & Hg & Hk).
    assert (Hu : usable (to_vulkan input_arg_2d) uws false = Ok true).
    { apply usable_unbatched_intro; auto using device_to_vulkan. }
    congruence.
Qed.

End DispatchErrors.

(** ** The public entry points *)

Lemma deref_make_intrusive (st : VkState) (c : LinearPackedContext) :
  deref (snd (make_intrusive st c)) (fst (make_intrusive st c)) = Ok c.
Proof.
  unfold deref, make_intrusive. cbn [fst snd heap].
  rewrite list_lookup_middle by reflexivity. reflexivity.
Qed.

Lemma reshape_to_2d_device (t t2 : Tensor) :
  reshape_to_2d t = Ok t2 -> device t2 = device t.
Proof.
  unfold reshape_to_2d, reshape. intros H.
  step H as u E0. step H as last_sz E1.
  destruct (_ =? _) in H; [|discriminate]. injection H as <-. reflexivity.
Qed.

Section EntryPoints.

Variable extents : vTensor -> uvec3.
Variable run_shader : ComputeJob -> list Z.

(** An error of a call through a temporary context comes from the
    constructor or from the call. *)
Lemma with_temporary_context_errors
    (g : GlobalContext) (weight : Tensor) (bias : option Tensor)
    (input_arg : Tensor) (alpha beta : Q) (st : VkState) (e : Error) :
  with_temporary_context (LinearPackedContext_new g weight bias false) st
    (fun p => run_addmm_context extents run_shader input_arg alpha beta p
                false 0%Q 0) = Err e ->
  e <> InputMustBeOnVulkan
  /\ (e = NotUsable -> usable_rejection input_arg (sizes weight)).
Proof.
  unfold with_temporary_context. intros H.
  destruct (LinearPackedContext_new g weight bias false) as [ctx|e0] eqn:Ec;
    cbn [bind] in H.
  - pose proof (deref_make_intrusive st ctx) as Hd.
    destruct (make_intrusive st ctx) as [p st1]. cbn [fst snd] in Hd.
    destruct (run_addmm_context extents run_shader input_arg alpha beta p
                false 0%Q 0 st1) as [r|e1] eqn:Er; cbn [bind] in H;
      [discriminate|].
    injection H as <-.
    destruct (run_addmm_context_errors _ _ _ _ _ _ _ _ _ _ _ Er)
      as [Hne Hrej].
    split; [exact Hne|]. intros Hnu.
    destruct (Hrej Hnu) as (ctx' & uws & Hd' & Hv & Hu).
    rewrite Hd in Hd'. injection Hd' as <-.
    apply LinearPackedContext_new_Ok in Ec as (_ & w & b & _ & _ & Hp & _).
    unfold get_val in Hv. rewrite Hp in Hv. cbn in Hv.
    injection Hv as <-. exact Hu.
  - injection H as <-.
    destruct (raises_LinearPackedContext_new g weight bias false e0 Ec)
      as [Ha Hb].
    split; [exact Ha | intros ?; contradiction].
Qed.

(** C10.  At [run_linear_context], [run_qlinear_context], [mm] and
    [addmm] an input is never turned away for its device, a host input
    included: the tensor that reaches [usable] is the two-dimensional form
    of the input moved to the device (for a host input, its transfer
    [vulkan]), so an error of the call is never the device check of the
    input, and when the [usable] check fails the tensor it was handed lives
    on Vulkan and fails one of: rank 2, element type, no gradient, width
    equal to the weight's height. *)
Theorem host_input_not_rejected_for_device
    (g : GlobalContext) (input bias weight : Tensor) (beta alpha : Q)
    (output_scale : Q) (output_zero_point : Z) (linear_context : nat)
    (st : VkState) (e : Error) :
  (forall t,
     (if dim input =? 2 then Ok input else reshape_to_2d input) = Ok t ->
     device input = CPU ->
     to_vulkan t = vulkan t /\ device (to_vulkan t) = Vulkan)
  /\ (run_linear_context extents run_shader input linear_context st = Err e ->
      e <> InputMustBeOnVulkan
      /\ (e = NotUsable ->
          exists ctx uws,
            deref st linear_context = Ok ctx
            /\ get_val ctx Packed.WeightSizes = Ok (IVIntVector uws)
            /\ usable_rejection input uws))
  /\ (run_qlinear_context extents run_shader input output_scale
        output_zero_point linear_context st = Err e ->
      e <> InputMustBeOnVulkan
      /\ (e = NotUsable ->
          exists ctx uws,
            deref st linear_context = Ok ctx
            /\ get_val ctx Packed.WeightSizes = Ok (IVIntVector uws)
            /\ usable_rejection input uws))
  /\ (mm extents run_shader g input weight st = Err e ->
      e <> InputMustBeOnVulkan
      /\ (e = NotUsable -> usable_rejection input (sizes weight)))
  /\ (addmm extents run_shader g bias input weight beta alpha st = Err e ->
      e <> InputMustBeOnVulkan
      /\ (e = NotUsable -> usable_rejection input (sizes weight))).
Proof.
  split; [|split; [|split; [|split]]].
  - intros t Ht Hdev.
    assert (Hd : device t = CPU).
    { destruct (dim input =? 2).
      - injection Ht as <-. exact Hdev.
      - rewrite (reshape_to_2d_device _ _ Ht). exact Hdev. }
    split; [|apply device_to_vulkan].
    unfold to_vulkan, is_vulkan. rewrite Hd. reflexivity.
  - apply run_addmm_context_errors.
  - apply run_addmm_context_errors.
  - apply with_temporary_context_errors.
  - apply with_temporary_context_errors.
Qed.

End EntryPoints.

Lemma host_input_not_rejected_for_device_witness :
  (to_vulkan input_double_2x3 = vulkan input_double_2x3
   /\ device (to_vulkan input_double_2x3) = Vulkan)
  /\ (NotUsable <> InputMustBeOnVulkan
      /\ (NotUsable = NotUsable ->
          exists ctx uws,
            deref sample_context_state 0 = Ok ctx
            /\ get_val ctx Packed.WeightSizes = Ok (IVIntVector uws)
            /\ usable_rejection input_double_2x3 uws))
  /\ (NotUsable <> InputMustBeOnVulkan
      /\ (NotUsable = NotUsable ->
          exists ctx uws,
            deref sample_context_state 0 = Ok ctx
            /\ get_val ctx Packed.WeightSizes = Ok (IVIntVector uws)
            /\ usable_rejection input_double_2x3 uws))
  /\ (NotUsable <> InputMustBeOnVulkan
      /\ (NotUsable = NotUsable ->
          usable_rejection input_double_2x3 (sizes weight_3x4)))
  /\ (NotUsable <> InputMustBeOnVulkan
      /\ (NotUsable = NotUsable ->
          usable_rejection input_double_2x3 (sizes weight_3x4))).
Proof.
  pose proof (host_input_not_rejected_for_device
                sample_extents sample_shader vulkan_on
                input_double_2x3 bias_4 weight_3x4 1%Q 1%Q (1 # 8) 3 0%nat
                sample_context_state NotUsable) as T.
  destruct T as (T0 & T1 & T2 & T3 & T4).
  split; [|split; [|split; [|split]]].
  - apply (T0 input_double_2x3); reflexivity.
  - apply T1. vm_compute. reflexivity.
  - apply T2. vm_compute. reflexivity.
  - apply T3. vm_compute. reflexivity.
  - apply T4. vm_compute. reflexivity.
Defined.

(** ** A call that succeeds: [mm] on host matrices *)

Lemma safe_downcast_uint32_fits (x : Z) :
  0 <= x < 2 ^ 32 -> safe_downcast_uint32 x = Ok x.
Proof.
  intros Hx. unfold safe_downcast_uint32.
  destruct (Z.leb_spec 0 x); [|lia].
  destruct (Z.ltb_spec x (2 ^ 32)); [reflexivity | lia].
Qed.

Lemma div_up_4_fits (n : Z) :
  0 <= n < 2 ^ 32 -> 0 <= div_up n 4 < 2 ^ 32.
Proof.
  intros Hn. unfold div_up. rewrite Z.quot_div_nonneg by lia.
  pose proof (Z.div_mod (n + 4 - 1) 4 ltac:(lia)).
  pose proof (Z.mod_pos_bound (n + 4 - 1) 4 ltac:(lia)). lia.
Qed.

Lemma available_host_float_weight
    (g : GlobalContext) (k n : Z) (b : list Z) :
  api_available g = true -> 0 < k -> 0 < n ->
  available g (host_tensor [k; n] kFloat b) None false = Ok true.
Proof.
  intros Hg Hk Hn. unfold available. rewrite Hg. cbn [negb].
  destruct (weight_available_unbatched (host_tensor [k; n] kFloat b))
    as (r & -> & Hr).
  cbn [bind]. replace r with true; [reflexivity|].
  symmetry. apply Hr. cbn [host_tensor sizes device scalar_type
                           requires_grad length].
  repeat split; auto.
Qed.

Lemma LinearPackedContext_new_host_float_weight
    (g : GlobalContext) (k n : Z) (b : list Z) :
  api_available g = true -> 0 < k -> 0 < n ->
  LinearPackedContext_new g (host_tensor [k; n] kFloat b) None false
  = Ok (mm_context g k n b).
Proof.
  intros Hg Hk Hn. unfold LinearPackedContext_new.
  rewrite (available_host_float_weight g k n b Hg Hk Hn). reflexivity.
Qed.

Section EndToEnd.

Variable extents : vTensor -> uvec3.
Variable run_shader : ComputeJob -> list Z.

Lemma run_addmm_context_host_matrices
    (g : GlobalContext) (m k n : Z) (a b : list Z) (p : nat)
    (st : VkState) :
  deref st p = Ok (mm_context g k n b) ->
  0 <= m < 2 ^ 32 -> 0 <= n < 2 ^ 32 ->
  run_addmm_context extents run_shader (host_tensor [m; k] kFloat a)
    1%Q 1%Q p false 0%Q 0 st
  = Ok (output_of run_shader (mm_job extents m k n a b),
        submit_compute_job st (mm_job extents m k n a b)).
Proof.
  intros Hd Hm Hn.
  apply run_addmm_context_intro
    with (r := {| r_input_2d := host_tensor [m; k] kFloat a;
                  r_v_input :=
                    packing.convert_image_channels_packed_to_width_packed
                      (convert (vulkan (host_tensor [m; k] kFloat a)));
                  r_ctx := mm_context g k n b;
                  r_weight :=
                    convert_v
                      (packing.convert_image_channels_packed_to_height_packed
                         (convert (vulkan (host_tensor [k; n] kFloat b))));
                  r_bias :=
                    convert_v
                      (pack_staging_to_vtensor
                         (zeroed_staging (new_vTensor [1] kFloat))
                         (new_vTensor [1] kFloat));
                  r_weight_sizes := [k; n];
                  r_bias_defined := false;
                  r_out_h := m; r_out_w := n;
                  r_job := mm_job extents m k n a b |}).
  unfold addmm_steps; cbn [r_input_2d r_v_input r_ctx r_weight r_bias
    r_weight_sizes r_bias_defined r_out_h r_out_w r_job].
  split; [reflexivity|]. split; [reflexivity|]. split; [exact Hd|].
  do 4 (split; [reflexivity|]).
  split.
  { apply usable_unbatched_intro; cbn; auto.
    exists k. split; reflexivity. }
  do 4 (split; [reflexivity|]).
  split; [|split; reflexivity].
  unfold dispatch_addmm, addmm_output.
  cbn [bind fst snd v_sizes new_vTensor].
  change (at_index [m; n] Layout.Param.width) with (Ok n : result Z).
  change (at_index [m; n] Layout.Param.height) with (Ok m : result Z).
  cbn [bind].
  rewrite !safe_downcast_uint32_fits by (apply div_up_4_fits; lia).
  reflexivity.
Qed.

(** [mm] of a host float matrix (m, k) by a host float matrix (k, n), with
    Vulkan available: the call succeeds, returns a tensor of sizes (m, n),
    and submits the one job of kernel mm with global work group
    (ceil(n/4), ceil(m/4), 1). *)
Theorem mm_host_matrices
    (g : GlobalContext) (m k n : Z) (a b : list Z) (st : VkState) :
  api_available g = true ->
  0 <= m < 2 ^ 32 -> 0 < k -> 0 < n < 2 ^ 32 ->
  exists out st' job,
    mm extents run_shader g
       (host_tensor [m; k] kFloat a) (host_tensor [k; n] kFloat b) st
    = Ok (out, st')
    /\ sizes out = [m; n]
    /\ queue st' = queue st ++ [job]
    /\ heap st' = heap st ++ [None]
    /\ shader job = VK_mm
    /\ global_work_group job = (ceil_div n 4, ceil_div m 4, 1)
    /\ local_work_group job = (8, 8, 1).
Proof.
  intros Hg Hm Hk Hn.
  unfold mm, with_temporary_context.
  rewrite (LinearPackedContext_new_host_float_weight g k n b)
    by (assumption || lia).
  cbn [bind make_intrusive].
  rewrite (run_addmm_context_host_matrices g m k n a b)
    by (try lia; unfold deref; cbn [heap];
        rewrite list_lookup_middle by reflexivity; reflexivity).
  cbn [bind fst snd].
  exists (output_of run_shader (mm_job extents m k n a b)).
  eexists. exists (mm_job extents m k n a b). split; [reflexivity|].
  cbn [mm_job shader global_work_group local_work_group release
       submit_compute_job queue heap].
  rewrite !div_up_ceil by lia.
  repeat split.
  rewrite insert_app_r_alt by lia. rewrite Nat.sub_diag. reflexivity.
Qed.

End EndToEnd.

(** * Further properties *)

(** ** [available], completely *)

Lemma weight_eligible_unbatched_iff (weight : Tensor) :
  weight_eligible weight false <->
  length (sizes weight) = 2%nat
  /\ Forall (fun s => 0 < s) (sizes weight)
  /\ (device weight = CPU \/ device weight = Vulkan)
  /\ (scalar_type weight = kFloat \/ scalar_type weight = kQInt8)
  /\ requires_grad weight = false.
Proof.
  unfold weight_eligible. split.
  - intros (Hl & HF & Hd & [Ht|[_ Ht]] & Hg); auto 10.
  - intros (Hl & HF & Hd & [Ht|Ht] & Hg); auto 10.
Qed.

Lemma weight_eligible_batched_iff (weight : Tensor) :
  weight_eligible weight true <->
  length (sizes weight) = 3%nat
  /\ Forall (fun s => 0 < s) (sizes weight)
  /\ (device weight = CPU \/ device weight = Vulkan)
  /\ scalar_type weight = kFloat
  /\ requires_grad weight = false.
Proof.
  unfold weight_eligible. split.
  - intros (Hl & HF & Hd & [Ht|[Hf _]] & Hg); [auto 10 | discriminate].
  - intros (Hl & HF & Hd & Ht & Hg); auto 10.
Qed.

Lemma on_cpu_or_vulkan_iff (t : Tensor) :
  on_cpu_or_vulkan t = true <-> device t = CPU \/ device t = Vulkan.
Proof.
  unfold on_cpu_or_vulkan, is_cpu.
  rewrite orb_true_iff, !DeviceType_eqb_eq. intuition congruence.
Qed.

Lemma float_eqb_iff (t : Tensor) :
  ScalarType_eqb kFloat (scalar_type t) = true <-> scalar_type t = kFloat.
Proof. rewrite ScalarType_eqb_eq. intuition congruence. Qed.

Lemma rank_positive_iff (t : Tensor) :
  (0 <? ndimension t) = true <-> (1 <= length (sizes t))%nat.
Proof. unfold ndimension. rewrite Z.ltb_lt. lia. Qed.

(** The width conjunct of the unbatched bias check, next to a weight of
    rank 2: it never raises. *)
Lemma bias_width_conjunct (weight b : Tensor) :
  length (sizes weight) = 2%nat ->
  exists r : bool,
    (if 1 <? ndimension b
     then bs <- size b Layout.Param.width ;;
          ws <- size weight Layout.Param.width ;;
          Ok (bs =? ws)
     else Ok true) = Ok r
    /\ (r = true <-> bias_shape_unbatched (sizes b) (sizes weight)).
Proof.
  intros Hw. unfold bias_shape_unbatched, ndimension.
  change Layout.Param.width with (Z.of_nat 1).
  destruct (sizes weight) as [|wh [|ww [|x l]]] eqn:Hsw; try discriminate.
  rewrite (size_lookup weight 1 ww) by (rewrite Hsw; reflexivity).
  destruct (Z.ltb_spec 1 (Z.of_nat (length (sizes b)))) as [Hr|Hr].
  - destruct (sizes b) as [|b0 [|b1 bl]] eqn:Hsb; cbn [length] in Hr;
      try lia.
    rewrite (size_lookup b 1 b1) by (rewrite Hsb; reflexivity).
    cbn [bind]. eexists. split; [reflexivity|].
    rewrite Z.eqb_eq. split.
    + intros -> _. exists ww. split; reflexivity.
    + intros H. destruct H as (W & H1 & H2); [cbn [length]; lia|].
      cbn in H1, H2. congruence.
  - exists true. split; [reflexivity|]. split; [|reflexivity].
    intros _ H. lia.
Qed.

(** The unbatched [available], in full. *)
Lemma available_unbatched_char
    (g : GlobalContext) (weight : Tensor) (bias : option Tensor) :
  exists r : bool,
    available g weight bias false = Ok r
    /\ (r = true <->
        api_available g = true
        /\ weight_eligible weight false
        /\ forall b, bias = Some b -> defined b = true ->
             bias_eligible b
             /\ bias_shape_unbatched (sizes b) (sizes weight)).
Proof.
  unfold available. destruct (api_available g); cbn [negb].
  2: { exists false. split; [reflexivity|]. split; [discriminate|].
       intros (H & _). discriminate. }
  destruct (weight_available_unbatched weight) as (rw & -> & Hrw).
  rewrite <- weight_eligible_unbatched_iff in Hrw.
  cbn [bind]. destruct rw; cbn [negb].
  2: { exists false. split; [reflexivity|]. split; [discriminate|].
       intros (_ & Hw & _). apply Hrw in Hw. discriminate. }
  pose proof (proj1 Hrw eq_refl) as Hw.
  destruct bias as [b|].
  2: { exists true. split; [reflexivity|]. split; [|reflexivity].
       intros _. split; [reflexivity|]. split; [exact Hw|].
       intros b Hb. discriminate. }
  destruct (defined b) eqn:Hdef.
  2: { exists true. split; [reflexivity|]. split; [|reflexivity].
       intros _. split; [reflexivity|]. split; [exact Hw|].
       intros b' Hb Hd. injection Hb as <-. congruence. }
  destruct (bias_width_conjunct weight b (proj1 Hw)) as (rs & -> & Hrs).
  rewrite !andthen_pure. eexists. split; [reflexivity|].
  rewrite !andb_true_iff, rank_positive_iff, on_cpu_or_vulkan_iff,
    float_eqb_iff, negb_true_iff, Hrs.
  unfold bias_eligible. split.
  - intros ((((Hr & Hd) & Ht) & Hs) & Hg).
    split; [reflexivity|]. split; [exact Hw|].
    intros b' Hb _. injection Hb as <-. auto 10.
  - intros (_ & _ & Hb).
    destruct (Hb b eq_refl Hdef) as ((Hr & Hd & Ht & Hg) & Hs). auto 10.
Qed.

Lemma size_rank0 (t : Tensor) (d : Z) :
  sizes t = [] -> size t d = Err IndexError.
Proof.
  intros Hs. unfold size. rewrite Hs. cbv zeta.
  destruct (_ && _); reflexivity.
Qed.

Ltac reflect_bias :=
  rewrite !andb_true_iff, rank_positive_iff, on_cpu_or_vulkan_iff,
    float_eqb_iff, negb_true_iff, !orb_true_iff, !Z.eqb_eq;
  unfold bias_eligible; cbn [bias_shape_batched]; intuition.

(** The batched [available] on an eligible weight (Bw, Hw, Ww) and a
    defined bias: it raises on a bias of rank 0, and otherwise answers by
    the bias conditions. *)
Lemma available_check_with_batch_bias
    (weight b : Tensor) (Bw Hw Ww : Z) :
  weight_eligible weight true ->
  sizes weight = [Bw; Hw; Ww] ->
  defined b = true ->
  match sizes b with
  | [] => available_check_with_batch weight (Some b) = Err IndexError
  | _ =>
    exists r : bool,
      available_check_with_batch weight (Some b) = Ok r
      /\ (r = true <->
          bias_eligible b /\ bias_shape_batched (sizes b) Bw Ww)
  end.
Proof.
  intros Hel Hsw Hdef. unfold available_check_with_batch.
  destruct (weight_available_batched weight) as (rw & -> & Hrw).
  rewrite <- weight_eligible_batched_iff in Hrw.
  replace rw with true by (symmetry; apply Hrw, Hel).
  cbn [bind negb]. rewrite Hdef. cbn [negb].
  change Layout.BatchMatrices.batch with (Z.of_nat 0).
  change Layout.BatchMatrices.height with (Z.of_nat 1).
  change Layout.BatchMatrices.width with (Z.of_nat 2).
  rewrite (size_lookup weight 0 Bw), (size_lookup weight 2 Ww)
    by (rewrite Hsw; reflexivity).
  destruct (sizes b) as [|b0 [|b1 [|b2 [|b3 bl]]]] eqn:Hsb.
  - rewrite !(size_rank0 b) by exact Hsb.
    unfold ndimension. rewrite Hsb. reflexivity.
  - rewrite (size_lookup b 0 b0) by (rewrite Hsb; reflexivity).
    replace (ndimension b =? 3) with false
      by (unfold ndimension; rewrite Hsb; reflexivity).
    replace (ndimension b =? 2) with false
      by (unfold ndimension; rewrite Hsb; reflexivity).
    cbn [andalways bind]. eexists. split; [reflexivity|].
    reflect_bias.
  - rewrite (size_lookup b 1 b1) by (rewrite Hsb; reflexivity).
    replace (ndimension b =? 3) with false
      by (unfold ndimension; rewrite Hsb; reflexivity).
    replace (ndimension b =? 2) with true
      by (unfold ndimension; rewrite Hsb; reflexivity).
    cbn [andalways bind]. eexists. split; [reflexivity|].
    reflect_bias.
  - rewrite (size_lookup b 0 b0), (size_lookup b 2 b2)
      by (rewrite Hsb; reflexivity).
    replace (ndimension b =? 3) with true
      by (unfold ndimension; rewrite Hsb; reflexivity).
    cbn [andalways bind]. eexists. split; [reflexivity|].
    reflect_bias.
  - rewrite (size_lookup b 0 b0) by (rewrite Hsb; reflexivity).
    replace (ndimension b =? 3) with false
      by (unfold ndimension; rewrite Hsb; symmetry; apply Z.eqb_neq;
          cbn [length]; lia).
    replace (ndimension b =? 2) with false
      by (unfold ndimension; rewrite Hsb; symmetry; apply Z.eqb_neq;
          cbn [length]; lia).
    cbn [andalways bind]. eexists. split; [reflexivity|].
    reflect_bias.
Qed.

Lemma rank3_sizes (t : Tensor) :
  length (sizes t) = 3%nat -> exists B H W, sizes t = [B; H; W].
Proof.
  destruct (sizes t) as [|B [|H [|W [|x l]]]]; try discriminate. eauto.
Qed.

(** The answer of the batched [available] before it looks at a defined
    bias: false without Vulkan or with an ineligible weight. *)
Lemma available_batched_cases
    (g : GlobalContext) (weight : Tensor) (bias : option Tensor) :
  (available g weight bias true = Ok false
   /\ ~ (api_available g = true /\ weight_eligible weight true))
  \/ (api_available g = true /\ weight_eligible weight true
      /\ available g weight bias true
         = available_check_with_batch weight bias
      /\ (has_defined bias = false ->
          available_check_with_batch weight bias = Ok true)).
Proof.
  unfold available. destruct (api_available g); cbn [negb].
  2: { left. split; [reflexivity|]. intros [H _]. discriminate. }
  unfold available_check_with_batch.
  destruct (weight_available_batched weight) as (rw & -> & Hrw).
  rewrite <- weight_eligible_batched_iff in Hrw. cbn [bind].
  destruct rw; cbn [negb].
  - right. split; [reflexivity|]. split; [apply Hrw; reflexivity|].
    split; [reflexivity|].
    destruct bias as [b|]; cbn [has_defined]; [|reflexivity].
    intros ->. reflexivity.
  - left. split; [reflexivity|]. intros [_ H]. apply Hrw in H. discriminate.
Qed.

(** The batched [available] on a bias it does not raise on, in full. *)
Lemma available_batched_char
    (g : GlobalContext) (weight : Tensor) (bias : option Tensor) :
  (forall b, bias = Some b -> defined b = true -> sizes b <> []) ->
  exists r : bool,
    available g weight bias true = Ok r
    /\ (r = true <->
        api_available g = true
        /\ weight_eligible weight true
        /\ forall b, bias = Some b -> defined b = true ->
             bias_eligible b
             /\ exists Bw Hw Ww,
                  sizes weight = [Bw; Hw; Ww]
                  /\ bias_shape_batched (sizes b) Bw Ww).
Proof.
  intros Hrank.
  destruct (available_batched_cases g weight bias)
    as [[-> Hn]|(Hg & Hel & -> & Hnob)].
  { exists false. split; [reflexivity|]. split; [discriminate|].
    intros (H1 & H2 & _). exfalso. auto. }
  destruct (rank3_sizes weight (proj1 Hel)) as (Bw & Hw & Ww & Hsw).
  destruct (has_defined bias) eqn:Hdef.
  - destruct bias as [b|]; cbn [has_defined] in Hdef; [|discriminate].
    pose proof (available_check_with_batch_bias weight b Bw Hw Ww
                  Hel Hsw Hdef) as Hb.
    destruct (sizes b) as [|b0 bl] eqn:Hsb.
    { exfalso. apply (Hrank b eq_refl Hdef). exact Hsb. }
    destruct Hb as (r & -> & Hr). exists r. split; [reflexivity|].
    rewrite Hr. split.
    + intros [He Hs]. split; [exact Hg|]. split; [exact Hel|].
      intros b' Hb' _. injection Hb' as <-. rewrite Hsb.
      split; [exact He|]. exists Bw, Hw, Ww. auto.
    + intros (_ & _ & H). destruct (H b eq_refl Hdef) as [He Hs].
      split; [exact He|].
      destruct Hs as (Bw' & Hw' & Ww' & Heq & Hs). rewrite Hsb in Hs.
      congruence.
  - rewrite (Hnob eq_refl). exists true. split; [reflexivity|].
    split; [|reflexivity]. intros _. split; [exact Hg|].
    split; [exact Hel|]. intros b Hb Hd. subst bias.
    cbn [has_defined] in Hdef. congruence.
Qed.

(** [available] raises in one situation only: a batched call with Vulkan
    available, an eligible weight and a defined bias of rank 0, where
    [bias->size(0)] is evaluated although the rank test has already failed
    (the conjuncts are joined with [&=]); the error is the index error of
    [size]. *)
Theorem available_raises_iff
    (g : GlobalContext) (weight : Tensor) (bias : option Tensor)
    (use_batch : bool) (e : Error) :
  available g weight bias use_batch = Err e <->
  e = IndexError
  /\ use_batch = true
  /\ api_available g = true
  /\ weight_eligible weight true
  /\ exists b, bias = Some b /\ defined b = true /\ sizes b = [].
Proof.
  destruct use_batch.
  - destruct (available_batched_cases g weight bias)
      as [[-> Hn]|(Hg & Hel & -> & Hnob)].
    { split; [discriminate|]. intros (_ & _ & H1 & H2 & _).
      exfalso. auto. }
    destruct (rank3_sizes weight (proj1 Hel)) as (Bw & Hw & Ww & Hsw).
    destruct (has_defined bias) eqn:Hdef.
    + destruct bias as [b|]; cbn [has_defined] in Hdef; [|discriminate].
      pose proof (available_check_with_batch_bias weight b Bw Hw Ww
                    Hel Hsw Hdef) as Hb.
      destruct (sizes b) as [|b0 bl] eqn:Hsb.
      * rewrite Hb. split.
        -- intros H. injection H as <-. split; [reflexivity|].
           split; [reflexivity|]. split; [exact Hg|]. split; [exact Hel|].
           exists b. auto.
        -- intros (-> & _). reflexivity.
      * destruct Hb as (r & -> & _). split; [discriminate|].
        intros (_ & _ & _ & _ & b' & Hb' & _ & Hs').
        injection Hb' as <-. congruence.
    + rewrite (Hnob eq_refl). split; [discriminate|].
      intros (_ & _ & _ & _ & b & -> & Hd & _).
      cbn [has_defined] in Hdef. congruence.
  - destruct (available_unbatched_char g weight bias) as (r & -> & _).
    split; [discriminate|]. intros (_ & H & _). discriminate.
Qed.

(** The batched [available] does not look at the height of a rank-3 bias
    (Mm.cpp:309-311): two biases that differ in it only get the same
    answer. *)
Lemma available_batched_ignores_bias_height
    (g : GlobalContext) (weight b : Tensor) (B H H' W : Z) :
  available g weight (Some (with_sizes b [B; H; W])) true
  = available g weight (Some (with_sizes b [B; H'; W])) true.
Proof.
  destruct (available_batched_cases g weight
              (Some (with_sizes b [B; H; W])))
    as [[-> Hn]|(Hg & Hel & -> & Hnob)];
  destruct (available_batched_cases g weight
              (Some (with_sizes b [B; H'; W])))
    as [[-> Hn']|(Hg' & Hel' & -> & Hnob')];
    try reflexivity; try (exfalso; auto; fail).
Qed.

(** The unbatched [available] never raises, and it answers true exactly
    when Vulkan is available, the weight is eligible, and a bias that is
    present and defined has rank at least 1, lives on the CPU or on Vulkan,
    is float, does not require gradients and, when its rank is above 1, has
    the weight's width on axis 1. *)
Theorem available_unbatched_iff
    (g : GlobalContext) (weight : Tensor) (bias : option Tensor) :
  exists r : bool,
    available g weight bias false = Ok r
    /\ (r = true <->
        api_available g = true
        /\ weight_eligible weight false
        /\ forall b, bias = Some b -> defined b = true ->
             bias_eligible b
             /\ bias_shape_unbatched (sizes b) (sizes weight)).
Proof. apply available_unbatched_char. Qed.

(** The batched [available], for a bias that is absent, undefined or of
    rank at least 1: it answers true exactly when Vulkan is available, the
    weight (Bw, Hw, Ww) is eligible, and a defined bias is eligible and has
    a shape that broadcasts: rank 3, width Ww or 1 and batch Bw or 1; rank
    2, last size Ww or 1; any other rank, first size Ww or 1. *)
Theorem available_batched_iff
    (g : GlobalContext) (weight : Tensor) (bias : option Tensor) :
  (forall b, bias = Some b -> defined b = true -> sizes b <> []) ->
  exists r : bool,
    available g weight bias true = Ok r
    /\ (r = true <->
        api_available g = true
        /\ weight_eligible weight true
        /\ forall b, bias = Some b -> defined b = true ->
             bias_eligible b
             /\ exists Bw Hw Ww,
                  sizes weight = [Bw; Hw; Ww]
                  /\ bias_shape_batched (sizes b) Bw Ww).
Proof. apply available_batched_char. Qed.

Lemma available_batched_iff_witness :
  exists r : bool,
    available vulkan_on batch_weight_2x3x2 (Some batch_bias_1x2) true = Ok r
    /\ (r = true <->
        api_available vulkan_on = true
        /\ weight_eligible batch_weight_2x3x2 true
        /\ forall b, Some batch_bias_1x2 = Some b -> defined b = true ->
             bias_eligible b
             /\ exists Bw Hw Ww,
                  sizes batch_weight_2x3x2 = [Bw; Hw; Ww]
                  /\ bias_shape_batched (sizes b) Bw Ww).
Proof.
  apply (available_batched_iff vulkan_on batch_weight_2x3x2
           (Some batch_bias_1x2)).
  intros b Hb _. injection Hb as <-. discriminate.
Defined.

Lemma available_raises_iff_witness :
  available vulkan_on batch_weight_2x3x2 (Some scalar_bias) true
  = Err IndexError.
Proof.
  apply (proj2 (available_raises_iff vulkan_on batch_weight_2x3x2
                  (Some scalar_bias) true IndexError)).
  split; [reflexivity|]. split; [reflexivity|]. split; [reflexivity|].
  split.
  - unfold weight_eligible. cbn.
    repeat split; auto. repeat constructor.
  - exists scalar_bias. repeat split.
Defined.

(** ** Without Vulkan *)

Section Unavailable.

Variable extents : vTensor -> uvec3.
Variable run_shader : ComputeJob -> list Z.

(** When [api::available()] is false nothing can be prepacked and no
    operator runs: the constructor, [create_linear_context], [mm], [addmm],
    [bmm] and [baddbmm] all raise the availability error, whatever the
    operands. *)
Theorem nothing_runs_without_vulkan
    (g : GlobalContext) (weight input bias : Tensor)
    (obias : option Tensor) (use_batch : bool) (alpha beta : Q)
    (st : VkState) :
  api_available g = false ->
  LinearPackedContext_new g weight obias use_batch = Err NotAvailable
  /\ create_linear_context g weight obias st = Err NotAvailable
  /\ mm extents run_shader g input weight st = Err NotAvailable
  /\ addmm extents run_shader g bias input weight beta alpha st
     = Err NotAvailable
  /\ bmm extents run_shader g input weight st = Err NotAvailable
  /\ baddbmm extents run_shader g bias input weight beta alpha st
     = Err NotAvailable.
Proof.
  intros Hg.
  assert (Hnew : forall w b ub,
            LinearPackedContext_new g w b ub = Err NotAvailable).
  { intros w b ub. unfold LinearPackedContext_new, available.
    rewrite Hg. reflexivity. }
  unfold create_linear_context, mm, addmm, bmm, baddbmm,
    with_temporary_context.
  rewrite !Hnew. repeat split; reflexivity.
Qed.

End Unavailable.

Lemma nothing_runs_without_vulkan_witness :
  LinearPackedContext_new vulkan_off weight_3x4 None false = Err NotAvailable
  /\ create_linear_context vulkan_off weight_3x4 None empty_state
     = Err NotAvailable
  /\ mm sample_extents sample_shader vulkan_off input_2x3 weight_3x4
        empty_state = Err NotAvailable
  /\ addmm sample_extents sample_shader vulkan_off bias_4 input_2x3
           weight_3x4 1%Q 1%Q empty_state = Err NotAvailable
  /\ bmm sample_extents sample_shader vulkan_off input_2x3 weight_3x4
         empty_state = Err NotAvailable
  /\ baddbmm sample_extents sample_shader vulkan_off bias_4 input_2x3
             weight_3x4 1%Q 1%Q empty_state = Err NotAvailable.
Proof.
  apply (nothing_runs_without_vulkan sample_extents sample_shader
           vulkan_off weight_3x4 input_2x3 bias_4 None false 1%Q 1%Q
           empty_state).
  reflexivity.
Defined.

(** ** The input and weight packing *)

Lemma layout_cases (l : GPUMemoryLayout) :
  l = TENSOR_WIDTH_PACKED \/ l = TENSOR_HEIGHT_PACKED
  \/ l = TENSOR_CHANNELS_PACKED.
Proof. destruct l; auto. Qed.

(** The outcomes of [pack_inputs_using_height_packing]. *)
Lemma pack_inputs_using_height_packing_cases (input_arg : Tensor) :
  match pack_inputs_using_height_packing input_arg with
  | Ok v =>
    is_quantized input_arg = false
    /\ dim input_arg = 2
    /\ (device input_arg = CPU \/ device input_arg = Vulkan)
    /\ gpu_memory_layout (convert (moved input_arg)) <> TENSOR_HEIGHT_PACKED
    /\ v = set_layout (convert (moved input_arg)) TENSOR_WIDTH_PACKED
  | Err e =>
    (e = AssertInputNotQuantized /\ is_quantized input_arg = true)
    \/ (e = AssertInput2D
        /\ is_quantized input_arg = false /\ dim input_arg <> 2)
    \/ (e = InputMustBeOnVulkan
        /\ is_quantized input_arg = false /\ dim input_arg = 2
        /\ device input_arg = CUDA)
    \/ (e = InputNotWidthPacked
        /\ is_quantized input_arg = false /\ dim input_arg = 2
        /\ device input_arg = Vulkan
        /\ gpu_memory_layout (convert input_arg) = TENSOR_HEIGHT_PACKED)
  end.
Proof.
  unfold pack_inputs_using_height_packing, moved, is_cpu, is_vulkan.
  destruct (is_quantized input_arg); cbn [negb torch_check bind]; [auto|].
  destruct (Z.eqb_spec (dim input_arg) 2) as [Hd|Hd];
    cbn [torch_check bind]; [|auto 10].
  destruct (device input_arg) eqn:Hdev;
    cbn [DeviceType_eqb vulkan device torch_check bind convert opaque
         gpu_memory_layout GPUMemoryLayout_eqb
         packing.convert_image_channels_packed_to_width_packed set_layout];
    rewrite ?Hdev;
    cbn [DeviceType_eqb torch_check bind].
  - repeat split; auto; try discriminate.
  - unfold convert. destruct (opaque input_arg) as [sz dt l q sc zp d]; destruct l;
      cbn; auto 15; repeat split; auto; try discriminate.
  - auto 15.
Qed.

(** [pack_inputs_using_height_packing]: what it returns is width-packed
    and otherwise the image of the operand (moved to the device first when
    on the host); and it fails, in this order, on a quantized tensor, on a
    rank other than 2, on a tensor neither on the host nor on the device,
    and on a device tensor whose image is height-packed. *)
Theorem pack_inputs_using_height_packing_spec (input_arg : Tensor) :
  match pack_inputs_using_height_packing input_arg with
  | Ok v =>
    is_quantized input_arg = false
    /\ dim input_arg = 2
    /\ (device input_arg = CPU \/ device input_arg = Vulkan)
    /\ gpu_memory_layout (convert (moved input_arg)) <> TENSOR_HEIGHT_PACKED
    /\ v = set_layout (convert (moved input_arg)) TENSOR_WIDTH_PACKED
  | Err e =>
    (e = AssertInputNotQuantized /\ is_quantized input_arg = true)
    \/ (e = AssertInput2D
        /\ is_quantized input_arg = false /\ dim input_arg <> 2)
    \/ (e = InputMustBeOnVulkan
        /\ is_quantized input_arg = false /\ dim input_arg = 2
        /\ device input_arg = CUDA)
    \/ (e = InputNotWidthPacked
        /\ is_quantized input_arg = false /\ dim input_arg = 2
        /\ device input_arg = Vulkan
        /\ gpu_memory_layout (convert input_arg) = TENSOR_HEIGHT_PACKED)
  end.
Proof. apply pack_inputs_using_height_packing_cases. Qed.

(** The outcomes of [pack_weights_using_height_packing]. *)
Lemma pack_weights_using_height_packing_cases (weight_arg : Tensor) :
  match pack_weights_using_height_packing weight_arg with
  | Ok v =>
    is_quantized weight_arg = false
    /\ dim weight_arg = 2
    /\ (device weight_arg = CPU \/ device weight_arg = Vulkan)
    /\ gpu_memory_layout (convert (moved weight_arg)) <> TENSOR_WIDTH_PACKED
    /\ v = set_layout (convert (moved weight_arg)) TENSOR_HEIGHT_PACKED
  | Err e =>
    (e = AssertWeightNotQuantized /\ is_quantized weight_arg = true)
    \/ (e = AssertWeight2D
        /\ is_quantized weight_arg = false /\ dim weight_arg <> 2)
    \/ (e = WeightMustBeOnVulkan
        /\ is_quantized weight_arg = false /\ dim weight_arg = 2
        /\ device weight_arg = CUDA)
    \/ (e = WeightNotHeightPacked
        /\ is_quantized weight_arg = false /\ dim weight_arg = 2
        /\ device weight_arg = Vulkan
        /\ gpu_memory_layout (convert weight_arg) = TENSOR_WIDTH_PACKED)
  end.
Proof.
  unfold pack_weights_using_height_packing, moved, is_cpu, is_vulkan.
  destruct (is_quantized weight_arg); cbn [negb torch_check bind]; [auto|].
  destruct (Z.eqb_spec (dim weight_arg) 2) as [Hd|Hd];
    cbn [torch_check bind]; [|auto 10].
  destruct (device weight_arg) eqn:Hdev;
    cbn [DeviceType_eqb vulkan device torch_check bind convert opaque
         gpu_memory_layout GPUMemoryLayout_eqb
         packing.convert_image_channels_packed_to_height_packed set_layout];
    rewrite ?Hdev;
    cbn [DeviceType_eqb torch_check bind].
  - repeat split; auto; try discriminate.
  - unfold convert. destruct (opaque weight_arg) as [sz dt l q sc zp d]; destruct l;
      cbn; auto 15; repeat split; auto; try discriminate.
  - auto 15.
Qed.

(** [pack_weights_using_height_packing]: what it returns is height-packed
    and otherwise the image of the operand (moved to the device first when
    on the host); and it fails, in this order, on a quantized tensor, on a
    rank other than 2, on a tensor neither on the host nor on the device,
    and on a device tensor whose image is width-packed. *)
Theorem pack_weights_using_height_packing_spec (weight_arg : Tensor) :
  match pack_weights_using_height_packing weight_arg with
  | Ok v =>
    is_quantized weight_arg = false
    /\ dim weight_arg = 2
    /\ (device weight_arg = CPU \/ device weight_arg = Vulkan)
    /\ gpu_memory_layout (convert (moved weight_arg)) <> TENSOR_WIDTH_PACKED
    /\ v = set_layout (convert (moved weight_arg)) TENSOR_HEIGHT_PACKED
  | Err e =>
    (e = AssertWeightNotQuantized /\ is_quantized weight_arg = true)
    \/ (e = AssertWeight2D
        /\ is_quantized weight_arg = false /\ dim weight_arg <> 2)
    \/ (e = WeightMustBeOnVulkan
        /\ is_quantized weight_arg = false /\ dim weight_arg = 2
        /\ device weight_arg = CUDA)
    \/ (e = WeightNotHeightPacked
        /\ is_quantized weight_arg = false /\ dim weight_arg = 2
        /\ device weight_arg = Vulkan
        /\ gpu_memory_layout (convert weight_arg) = TENSOR_WIDTH_PACKED)
  end.
Proof. apply pack_weights_using_height_packing_cases. Qed.

(** ** The staged bias image, completely *)

Lemma bias_source_offset_mod (use_batch : bool) (kh kw b h w : Z) :
  0 <= h < broadcast_extent true kh ->
  0 <= w < broadcast_extent use_batch kw ->
  b * (kw * kh)
  + (if kh =? 1 then 0 else h * kw)
  + (if use_batch && (kw =? 1) then 0 else w)
  = matrix_offset kh kw b (h mod kh) (w mod kw).
Proof.
  unfold broadcast_extent, matrix_offset. cbn [andb].
  destruct (Z.eqb_spec kh 1) as [->|Hk1]; intros Hh;
    [rewrite Z.mod_1_r | rewrite (Z.mod_small h kh) by lia];
    (destruct use_batch; cbn [andb];
     [destruct (Z.eqb_spec kw 1) as [->|Hk2]|]); intros Hw;
    rewrite ?Z.mod_1_r, ?(Z.mod_small w kw) by lia; ring.
Qed.

Lemma quarter_parts (c : Z) :
  0 <= c < 4 ->
  0 <= c / 2 < 2 /\ 0 <= c mod 2 < 2 /\ c = 2 * (c / 2) + c mod 2.
Proof.
  intros Hc. pose proof (Z.div_mod c 2 ltac:(lia)).
  pose proof (Z.mod_pos_bound c 2 ltac:(lia)). lia.
Qed.

(** Row h = 2y + c/2 and column w = 2x + c%2 are tiled back to channel c,
    plane position (y, x). *)
Lemma untile (c y x : Z) :
  0 <= c < 4 -> 0 <= y -> 0 <= x ->
  let h := 2 * y + c / 2 in
  let w := 2 * x + c mod 2 in
  0 <= h /\ 0 <= w
  /\ 2 * (h mod 2) + w mod 2 = c /\ h / 2 = y /\ w / 2 = x.
Proof.
  intros Hc Hy Hx h w. subst h w.
  destruct (quarter_parts c Hc) as (Hq & Hr & Heq).
  assert (H1 : (2 * y + c / 2) mod 2 = c / 2).
  { rewrite Z.add_comm, Z.mul_comm, Z.mod_add by lia.
    apply Z.mod_small. lia. }
  assert (H2 : (2 * x + c mod 2) mod 2 = c mod 2).
  { rewrite Z.add_comm, Z.mul_comm, Z.mod_add by lia.
    apply Z.mod_small. lia. }
  assert (H3 : (2 * y + c / 2) / 2 = y).
  { rewrite Z.add_comm, Z.mul_comm, Z.div_add by lia.
    rewrite (Z.div_small (c / 2) 2) by lia. lia. }
  assert (H4 : (2 * x + c mod 2) / 2 = x).
  { rewrite Z.add_comm, Z.mul_comm, Z.div_add by lia.
    rewrite (Z.div_small (c mod 2) 2) by lia. lia. }
  rewrite H1, H2, H3, H4. lia.
Qed.

(** The whole staged bias image, element by element. *)
Lemma stage_pack_biases_image
    (src : list Z) (use_batch : bool) (kb kh kw : Z) (dtype : ScalarType) :
  0 <= kb -> 0 <= kh -> 0 <= kw ->
  kb * kh * kw <= Z.of_nat (length src) ->
  exists staged,
    stage_pack_biases
      (new_vTensor [kb; 4; div_up kh 2; div_up kw 2] dtype)
      src use_batch kb kh kw
      (kw * kh) (div_up kw 2) (div_up kw 2 * div_up kh 2)
      (div_up kw 2 * div_up kh 2 * 4)
    = Ok (pack_staging_to_vtensor staged
            (new_vTensor [kb; 4; div_up kh 2; div_up kw 2] dtype))
    /\ Z.of_nat (length staged) = kb * 4 * div_up kh 2 * div_up kw 2
    /\ forall b c y x,
         0 <= b < kb -> 0 <= c < 4 ->
         0 <= y < div_up kh 2 -> 0 <= x < div_up kw 2 ->
         staged !! Z.to_nat (image_offset (div_up kh 2) (div_up kw 2) b c y x)
         = bias_image_element src use_batch kh kw b c y x.
Proof.
  intros Hkb Hkh Hkw Hsrc.
  pose proof (div_up_2_bounds kh Hkh) as HH.
  pose proof (div_up_2_bounds kw Hkw) as HW.
  set (v := new_vTensor [kb; 4; div_up kh 2; div_up kw 2] dtype).
  assert (HHi : broadcast_extent true kh <= 2 * div_up kh 2).
  { unfold broadcast_extent. cbn [andb]. destruct (Z.eqb_spec kh 1); lia. }
  assert (HWi : broadcast_extent use_batch kw <= 2 * div_up kw 2).
  { unfold broadcast_extent. destruct (use_batch && (kw =? 1)) eqn:E; [|lia].
    apply andb_true_iff in E as [_ E]. apply Z.eqb_eq in E. lia. }
  assert (Hzlen : Z.of_nat (length (zeroed_staging v))
                  = kb * 4 * div_up kh 2 * div_up kw 2)
    by (apply zeroed_staging_length; lia).
  destruct (tiled_copy_spec src (zeroed_staging v) kb
              (broadcast_extent true kh) (broadcast_extent use_batch kw)
              (div_up kh 2) (div_up kw 2)
              (fun b h w =>
                 b * (kw * kh)
                 + (if kh =? 1 then 0 else h * kw)
                 + (if use_batch && (kw =? 1) then 0 else w)))
    as (dst' & Hrun & Hlen & Hval & Hkeep); auto.
  { intros b h w Hb Hh Hw. rewrite bias_source_offset_mod by assumption.
    assert (Hkh' : 0 < kh)
      by (unfold broadcast_extent in Hh; cbn [andb] in Hh;
          destruct (Z.eqb_spec kh 1); lia).
    assert (Hkw' : 0 < kw).
    { unfold broadcast_extent in Hw.
      destruct (use_batch && (kw =? 1)) eqn:E; [|lia].
      apply andb_true_iff in E as [_ E]. apply Z.eqb_eq in E. lia. }
    pose proof (Z.mod_pos_bound h kh Hkh').
    pose proof (Z.mod_pos_bound w kw Hkw').
    pose proof (matrix_offset_range kb kh kw b (h mod kh) (w mod kw)
                  Hb ltac:(lia) ltac:(lia)). lia. }
  exists dst'. split; [|split].
  - unfold stage_pack_biases. rewrite <- nested_loops_writes in Hrun.
    unfold tile_offset, broadcast_extent in Hrun. cbn [andb] in Hrun.
    rewrite Hrun. reflexivity.
  - rewrite Hlen. exact Hzlen.
  - intros b c y x Hb Hc Hy Hx. unfold bias_image_element. cbv zeta.
    destruct (untile c y x Hc ltac:(lia) ltac:(lia))
      as (Hh0 & Hw0 & Hc' & Hy' & Hx').
    destruct (quarter_parts c Hc) as (Hq & Hr2 & _).
    assert (Hhb : 2 * y + c / 2 < 2 * div_up kh 2) by lia.
    assert (Hwb : 2 * x + c mod 2 < 2 * div_up kw 2) by lia.
    set (h := 2 * y + c / 2) in *. set (w := 2 * x + c mod 2) in *.
    clearbody h w.
    destruct (Z.ltb_spec h (broadcast_extent true kh)) as [Hh|Hh];
      [destruct (Z.ltb_spec w (broadcast_extent use_batch kw)) as [Hw|Hw]|];
      cbn [andb].
    + rewrite <- Hc', <- Hy', <- Hx' at 1.
      rewrite Hval by lia. rewrite bias_source_offset_mod by lia.
      reflexivity.
    + rewrite Hkeep.
      * apply lookup_replicate_2.
        pose proof (image_offset_range kb (div_up kh 2) (div_up kw 2)
                      b c y x Hb Hc Hy Hx).
        unfold zeroed_staging in Hzlen. rewrite length_replicate in Hzlen.
        lia.
      * intros b' h' w' Hb' Hh' Hw' Heq.
        pose proof (tile_offset_range kb (div_up kh 2) (div_up kw 2)
                      b' h' w' Hb' ltac:(lia) ltac:(lia)) as Hr'.
        pose proof (image_offset_range kb (div_up kh 2) (div_up kw 2)
                      b c y x Hb Hc Hy Hx) as Hr.
        assert (Heq' : tile_offset (div_up kh 2) (div_up kw 2) b' h' w'
                       = image_offset (div_up kh 2) (div_up kw 2) b c y x)
          by lia.
        rewrite <- Hc', <- Hy', <- Hx', <- tile_offset_image in Heq' by lia.
        apply tile_offset_inj in Heq' as (_ & _ & Hweq); lia.
    + rewrite Hkeep.
      * apply lookup_replicate_2.
        pose proof (image_offset_range kb (div_up kh 2) (div_up kw 2)
                      b c y x Hb Hc Hy Hx).
        unfold zeroed_staging in Hzlen. rewrite length_replicate in Hzlen.
        lia.
      * intros b' h' w' Hb' Hh' Hw' Heq.
        pose proof (tile_offset_range kb (div_up kh 2) (div_up kw 2)
                      b' h' w' Hb' ltac:(lia) ltac:(lia)) as Hr'.
        pose proof (image_offset_range kb (div_up kh 2) (div_up kw 2)
                      b c y x Hb Hc Hy Hx) as Hr.
        assert (Heq' : tile_offset (div_up kh 2) (div_up kw 2) b' h' w'
                       = image_offset (div_up kh 2) (div_up kw 2) b c y x)
          by lia.
        rewrite <- Hc', <- Hy', <- Hx', <- tile_offset_image in Heq' by lia.
        apply tile_offset_inj in Heq' as (_ & Hheq & _); lia.
Qed.

(** The image [pack_biases] stages in a batched call, element by element:
    for a defined host float bias read as [kb] matrices of [kh] x [kw], the
    element at channel c, plane position (y, x) of matrix b is the bias
    element at row 2y + c/2 and column 2x + c%2, each read modulo the size
    of its axis, so that an axis of size 1 is repeated on the odd rows or
    columns; and it is zero where that row or column is outside the bias
    (the padding of an odd size). *)
Theorem pack_biases_image (weight bias : Tensor) (kb kh kw : Z) :
  is_vulkan bias = false ->
  defined bias = true ->
  scalar_type bias = kFloat ->
  bias_shape (sizes bias) kb kh kw ->
  0 <= kb -> 0 <= kh -> 0 <= kw ->
  kb * kh * kw <= Z.of_nat (length (data bias)) ->
  exists v,
    pack_biases weight (Some bias) true = Ok v
    /\ v_sizes v = [kb; 4; div_up kh 2; div_up kw 2]
    /\ Z.of_nat (length (v_data v)) = kb * 4 * div_up kh 2 * div_up kw 2
    /\ forall b c y x,
         0 <= b < kb -> 0 <= c < 4 ->
         0 <= y < div_up kh 2 -> 0 <= x < div_up kw 2 ->
         v_data v !! Z.to_nat
                       (image_offset (div_up kh 2) (div_up kw 2) b c y x)
         = bias_image_element (data bias) true kh kw b c y x.
Proof.
  intros Hv Hd Ht Hs Hkb Hkh Hkw Hlen.
  unfold pack_biases, contiguous, data_ptr_float.
  rewrite Hv, Hd, Ht. cbn [andb ScalarType_eqb bind].
  destruct (stage_pack_biases_image (data bias) true kb kh kw kFloat)
    as (staged & Hrun & Hl & Hval); auto.
  assert (Hgoal :
    exists v,
      stage_pack_biases
        (new_vTensor [kb; 4; div_up kh 2; div_up kw 2] kFloat)
        (data bias) true kb kh kw
        (kw * kh) (div_up kw 2) (div_up kw 2 * div_up kh 2)
        (div_up kw 2 * div_up kh 2 * 4) = Ok v
      /\ v_sizes v = [kb; 4; div_up kh 2; div_up kw 2]
      /\ Z.of_nat (length (v_data v))
         = kb * 4 * div_up kh 2 * div_up kw 2
      /\ forall b c y x,
           0 <= b < kb -> 0 <= c < 4 ->
           0 <= y < div_up kh 2 -> 0 <= x < div_up kw 2 ->
           v_data v !! Z.to_nat
                         (image_offset (div_up kh 2) (div_up kw 2) b c y x)
           = bias_image_element (data bias) true kh kw b c y x).
  { rewrite Hrun. eexists. split; [reflexivity|]. split; [reflexivity|].
    split; [exact Hl | exact Hval]. }
  destruct Hs as [Hs|[(-> & Hs)|(-> & -> & Hs)]]; rewrite Hs; cbn; exact Hgoal.
Qed.

Lemma pack_biases_image_witness :
  exists v,
    pack_biases batch_weight_2x3x2 (Some batch_bias_3x1) true = Ok v
    /\ v_sizes v = [1; 4; div_up 3 2; div_up 1 2]
    /\ Z.of_nat (length (v_data v)) = 1 * 4 * div_up 3 2 * div_up 1 2
    /\ forall b c y x,
         0 <= b < 1 -> 0 <= c < 4 ->
         0 <= y < div_up 3 2 -> 0 <= x < div_up 1 2 ->
         v_data v !! Z.to_nat
                       (image_offset (div_up 3 2) (div_up 1 2) b c y x)
         = bias_image_element (data batch_bias_3x1) true 3 1 b c y x.
Proof.
  apply (pack_biases_image batch_weight_2x3x2 batch_bias_3x1 1 3 1).
  - reflexivity.
  - reflexivity.
  - reflexivity.
  - right. left. split; reflexivity.
  - lia.
  - lia.
  - lia.
  - simpl. lia.
Defined.

(** A (3, 1) bias in a batched call: the column is repeated on the odd
    columns, the fourth row is padding. *)
Example pack_biases_batch_bias_3x1 :
  exists v, pack_biases batch_weight_2x3x2 (Some batch_bias_3x1) true = Ok v
            /\ v_sizes v = [1; 4; 2; 1]
            /\ v_data v = [7; 9;  7; 9;  8; 0;  8; 0].
Proof. eexists. split; [reflexivity|]. split; reflexivity. Qed.

(** ** When the constructor succeeds *)

Lemma rank2_sizes (t : Tensor) :
  length (sizes t) = 2%nat -> exists H W, sizes t = [H; W].
Proof.
  destruct (sizes t) as [|H [|W [|x l]]]; try discriminate. eauto.
Qed.

(** [pack_weights] on an eligible host weight that comes with its
    elements. *)
Lemma pack_weights_host_Ok (weight : Tensor) (use_batch : bool) :
  weight_eligible weight use_batch ->
  device weight = CPU ->
  numel (sizes weight) <= Z.of_nat (length (data weight)) ->
  exists v, pack_weights weight use_batch = Ok v.
Proof.
  intros (Hl & HF & _ & Ht & _) Hdev Hlen. destruct use_batch.
  - destruct (rank3_sizes weight Hl) as (kb & kh & kw & Hs).
    rewrite Hs in HF, Hlen. cbn [numel fold_right] in Hlen.
    inversion HF as [|? ? Hb HF1]; subst.
    inversion HF1 as [|? ? Hh HF2]; subst.
    inversion HF2 as [|? ? Hw _]; subst.
    destruct (pack_weights_staged_spec weight true kb kh kw)
      as (v & Hv & _); eauto; try lia; try discriminate.
  - destruct (rank2_sizes weight Hl) as (kh & kw & Hs).
    rewrite Hs in HF, Hlen. cbn [numel fold_right] in Hlen.
    inversion HF as [|? ? Hh HF1]; subst.
    inversion HF1 as [|? ? Hw _]; subst.
    destruct (is_quantized weight) eqn:Hq.
    + destruct Ht as [Ht|[_ Ht]].
      * unfold pack_weights, contiguous. rewrite Hq, Ht, Hs. cbn. eauto.
      * destruct (pack_weights_staged_spec weight false 1 kh kw)
          as (v & Hv & _); eauto; lia.
    + unfold pack_weights, pack_weights_using_height_packing, dim,
        ndimension, is_cpu, is_vulkan.
      rewrite Hq, Hs, Hdev. cbn. eauto.
Qed.

(** [pack_biases] on a bias [available] has accepted. *)
Lemma pack_biases_accepted_Ok
    (weight : Tensor) (bias : option Tensor) (use_batch : bool) :
  (forall b, bias = Some b ->
     defined b = true
     /\ bias_eligible b
     /\ (use_batch = true -> is_vulkan b = false ->
         (length (sizes b) <= 3)%nat
         /\ Forall (fun s => 0 <= s) (sizes b)
         /\ numel (sizes b) <= Z.of_nat (length (data b)))) ->
  exists v, pack_biases weight bias use_batch = Ok v.
Proof.
  intros Hb. destruct bias as [b|]; [|cbn; eauto].
  destruct (Hb b eq_refl) as (Hdef & (Hr & _ & Ht & _) & Hwf).
  destruct (is_vulkan b) eqn:Hv.
  { unfold pack_biases. rewrite Hv. eauto. }
  destruct use_batch.
  - destruct (Hwf eq_refl eq_refl) as (Hl & HF & Hlen).
    destruct (sizes b) as [|s0 [|s1 [|s2 [|s3 l]]]] eqn:Hs;
      cbn [length] in Hr, Hl; try lia;
      cbn [numel fold_right] in Hlen.
    + inversion HF as [|? ? H0 _]; subst.
      destruct (pack_biases_staged_spec weight b 1 1 s0)
        as (v & Hp & _); eauto; try lia.
      right. right. auto.
    + inversion HF as [|? ? H0 HF1]; subst.
      inversion HF1 as [|? ? H1 _]; subst.
      destruct (pack_biases_staged_spec weight b 1 s0 s1)
        as (v & Hp & _); eauto; try lia.
      right. left. auto.
    + inversion HF as [|? ? H0 HF1]; subst.
      inversion HF1 as [|? ? H1 HF2]; subst.
      inversion HF2 as [|? ? H2 _]; subst.
      destruct (pack_biases_staged_spec weight b s0 s1 s2)
        as (v & Hp & _); eauto; try lia.
      left. auto.
  - unfold pack_biases, contiguous, data_ptr_float.
    rewrite Hv, Hdef, Ht. cbn. eauto.
Qed.

(** For a host weight that comes with its elements and a bias that is
    absent, or defined and (in a batched call, when on the host) of rank at
    most 3 with its elements, the constructor succeeds exactly when
    [available] answers true. *)
Theorem constructor_succeeds_iff_available
    (g : GlobalContext) (weight : Tensor) (bias : option Tensor)
    (use_batch : bool) :
  device weight = CPU ->
  numel (sizes weight) <= Z.of_nat (length (data weight)) ->
  (forall b, bias = Some b ->
     defined b = true
     /\ (use_batch = true -> is_vulkan b = false ->
         (length (sizes b) <= 3)%nat
         /\ Forall (fun s => 0 <= s) (sizes b)
         /\ numel (sizes b) <= Z.of_nat (length (data b)))) ->
  (exists c, LinearPackedContext_new g weight bias use_batch = Ok c)
  <-> available g weight bias use_batch = Ok true.
Proof.
  intros Hdev Hlen Hb. split.
  - intros [c Hc]. apply LinearPackedContext_new_Ok in Hc. apply Hc.
  - intros Hav.
    assert (Hel : weight_eligible weight use_batch
                  /\ forall b, bias = Some b -> bias_eligible b).
    { destruct use_batch.
      - destruct (available_batched_cases g weight bias)
          as [[Hf _]|(_ & Hel & Heq & _)]; [congruence|].
        split; [exact Hel|]. intros b ->.
        destruct (Hb b eq_refl) as [Hdef _].
        destruct (rank3_sizes weight (proj1 Hel)) as (Bw & Hw & Ww & Hsw).
        pose proof (available_check_with_batch_bias weight b Bw Hw Ww
                      Hel Hsw Hdef) as Hc.
        rewrite Heq in Hav. rewrite Hav in Hc.
        destruct (sizes b); [discriminate|].
        destruct Hc as (r & Hr & Hiff). injection Hr as <-.
        apply Hiff. reflexivity.
      - destruct (available_unbatched_char g weight bias) as (r & Hr & Hiff).
        rewrite Hav in Hr. injection Hr as <-.
        destruct (proj1 Hiff eq_refl) as (_ & Hel & Hbias).
        split; [exact Hel|]. intros b ->.
        apply (Hbias b eq_refl), (Hb b eq_refl). }
    destruct Hel as [Hel Hbel].
    destruct (pack_weights_host_Ok weight use_batch Hel Hdev Hlen)
      as (w & Hw).
    destruct (pack_biases_accepted_Ok weight bias use_batch) as (pb & Hpb).
    { intros b Hbs. destruct (Hb b Hbs) as [Hdef Hwf]. auto. }
    unfold LinearPackedContext_new.
    rewrite Hav, Hw, Hpb. cbn. eauto.
Qed.

Lemma constructor_succeeds_iff_available_witness :
  (exists c,
     LinearPackedContext_new vulkan_on batch_weight_2x3x2
                             (Some batch_bias_1x2) true = Ok c)
  <-> available vulkan_on batch_weight_2x3x2 (Some batch_bias_1x2) true
      = Ok true.
Proof.
  apply (constructor_succeeds_iff_available vulkan_on batch_weight_2x3x2
           (Some batch_bias_1x2) true).
  - reflexivity.
  - simpl. lia.
  - intros b Hb. injection Hb as <-. split; [reflexivity|].
    intros _ _. split; [simpl; lia|]. split; [|simpl; lia].
    repeat constructor; lia.
Defined.

(** ** Re-packing a context from its unpacked values *)

Lemma pack_of_retained
    (g : GlobalContext) (weight : Tensor) (bias : option Tensor) :
  pack g [IVTensor weight; IValue_of_optional bias]
  = LinearPackedContext_new g weight bias false.
Proof.
  unfold pack, get_optional_tensor, list_get. cbn.
  destruct bias; reflexivity.
Qed.

(** [pack] and the unbatched constructor are a round trip: with
    [releaseWeightsWhenPrepacking] off, packing the unpacked values a
    context retained gives that context again. *)
Theorem pack_unpacked_roundtrip
    (g : GlobalContext) (weight : Tensor) (bias : option Tensor)
    (c : LinearPackedContext) :
  LinearPackedContext_new g weight bias false = Ok c ->
  releaseWeightsWhenPrepacking g = false ->
  pack g (unpacked_ c) = Ok c.
Proof.
  intros Hc Hrel.
  destruct (LinearPackedContext_new_Ok _ _ _ _ _ Hc)
    as (_ & w & b & _ & _ & _ & Hu).
  rewrite Hu, Hrel, pack_of_retained. exact Hc.
Qed.

Lemma pack_unpacked_roundtrip_witness :
  pack vulkan_on (unpacked_ sample_context) = Ok sample_context.
Proof.
  apply (pack_unpacked_roundtrip vulkan_on weight_3x4 (Some bias_4)
           sample_context); reflexivity.
Defined.

(** What cannot be packed again.  A context built with
    [releaseWeightsWhenPrepacking] on retained nothing, and [pack] fails on
    its empty list.  A batched context retained a weight of rank 3, and
    [pack], which always builds an unbatched context, turns it away as not
    available. *)
Theorem pack_unpacked_fails
    (g : GlobalContext) (weight : Tensor) (bias : option Tensor)
    (use_batch : bool) (c : LinearPackedContext) :
  LinearPackedContext_new g weight bias use_batch = Ok c ->
  (releaseWeightsWhenPrepacking g = true ->
   pack g (unpacked_ c) = Err OutOfBounds)
  /\ (releaseWeightsWhenPrepacking g = false -> use_batch = true ->
      pack g (unpacked_ c) = Err NotAvailable).
Proof.
  intros Hc.
  destruct (LinearPackedContext_new_Ok _ _ _ _ _ Hc)
    as (Hav & w & b & _ & _ & _ & Hu).
  rewrite Hu. split.
  - intros ->. reflexivity.
  - intros -> ->. rewrite pack_of_retained.
    destruct (available_batched_cases g weight bias)
      as [[Hf _]|(_ & (Hl & _) & _)]; [congruence|].
    destruct (available_unbatched_char g weight bias) as (r & Hr & Hiff).
    unfold LinearPackedContext_new. rewrite Hr. destruct r; [|reflexivity].
    destruct (proj1 Hiff eq_refl) as (_ & (Hl2 & _) & _).
    cbn in Hl, Hl2. congruence.
Qed.

Lemma pack_unpacked_fails_witness :
  pack vulkan_releasing (unpacked_ sample_released_context)
  = Err OutOfBounds
  /\ pack vulkan_on (unpacked_ sample_batch_context) = Err NotAvailable.
Proof.
  split.
  - apply (proj1 (pack_unpacked_fails vulkan_releasing weight_3x4
                    (Some bias_4) false sample_released_context eq_refl)).
    reflexivity.
  - apply (proj2 (pack_unpacked_fails vulkan_on batch_weight_2x3x2
                    (Some batch_bias_1x2) true sample_batch_context
                    eq_refl)); reflexivity.
Defined.

(** ** The shape adapter, both ways *)

Lemma numel_snoc (l : list Z) (x : Z) : numel (l ++ [x]) = numel l * x.
Proof.
  unfold numel. induction l as [|a l IH]; cbn [app fold_right]; [lia|].
  rewrite IH. ring.
Qed.

Lemma size_last (t : Tensor) (l : list Z) (x : Z) :
  sizes t = l ++ [x] -> size t (-1) = Ok x.
Proof.
  intros Hs. unfold size, ndimension. rewrite Hs, length_app.
  cbn [length Z.ltb Z.compare].
  destruct (Z.leb_spec 0 (-1 + Z.of_nat (length l + 1))); [|lia].
  destruct (Z.ltb_spec (-1 + Z.of_nat (length l + 1))
                       (Z.of_nat (length l + 1))); [|lia].
  cbn [andb].
  replace (Z.to_nat (-1 + Z.of_nat (length l + 1))) with (length l) by lia.
  rewrite list_lookup_middle by reflexivity. reflexivity.
Qed.

Lemma reshape_Ok (t : Tensor) (shape : list Z) :
  numel shape = numel (sizes t) ->
  exists t', reshape t shape = Ok t'
             /\ sizes t' = shape /\ data t' = data t
             /\ device t' = device t /\ scalar_type t' = scalar_type t
             /\ requires_grad t' = requires_grad t.
Proof.
  intros Hn. unfold reshape. rewrite (proj2 (Z.eqb_eq _ _) Hn).
  eexists. split; [reflexivity|]. cbn. auto.
Qed.

(** [reshape_to_2d], both outcomes. *)
Lemma reshape_to_2d_spec_core (input_arg : Tensor) :
  (dim input_arg < 2 -> reshape_to_2d input_arg = Err InputDimBelow2)
  /\ (2 <= dim input_arg ->
      exists t2 last_sz,
        reshape_to_2d input_arg = Ok t2
        /\ last (sizes input_arg) = Some last_sz
        /\ sizes t2 = [numel (removelast (sizes input_arg)); last_sz]
        /\ numel (sizes t2) = numel (sizes input_arg)
        /\ data t2 = data input_arg
        /\ device t2 = device input_arg
        /\ scalar_type t2 = scalar_type input_arg
        /\ requires_grad t2 = requires_grad input_arg).
Proof.
  unfold reshape_to_2d. split.
  - intros Hd. destruct (Z.leb_spec 2 (dim input_arg)); [lia|]. reflexivity.
  - intros Hd. destruct (Z.leb_spec 2 (dim input_arg)); [|lia].
    cbn [torch_check bind].
    destruct (sizes input_arg) as [|x l _] eqn:Hs using rev_ind.
    { unfold dim, ndimension in Hd. rewrite Hs in Hd. cbn in Hd. lia. }
    rewrite (size_last input_arg l x Hs). cbn [bind].
    rewrite removelast_last, last_snoc.
    destruct (reshape_Ok input_arg [numel l; x])
      as (t2 & -> & Hsz & Hrest).
    { rewrite Hs, numel_snoc. unfold numel. cbn [fold_right]. ring. }
    exists t2, x. split; [reflexivity|]. split; [reflexivity|].
    split; [exact Hsz|]. split; [|exact Hrest].
    rewrite Hsz, numel_snoc. unfold numel. cbn [fold_right]. ring.
Qed.

(** [reshape_to_2d] fails exactly on a rank below 2, with the check of
    Mm.cpp:408; on any other tensor it returns the same elements, on the same
    device, under the sizes (product of all sizes but the last, last
    size). *)
Theorem reshape_to_2d_spec (input_arg : Tensor) :
  (dim input_arg < 2 -> reshape_to_2d input_arg = Err InputDimBelow2)
  /\ (2 <= dim input_arg ->
      exists t2 last_sz,
        reshape_to_2d input_arg = Ok t2
        /\ last (sizes input_arg) = Some last_sz
        /\ sizes t2 = [numel (removelast (sizes input_arg)); last_sz]
        /\ numel (sizes t2) = numel (sizes input_arg)
        /\ data t2 = data input_arg
        /\ device t2 = device input_arg
        /\ scalar_type t2 = scalar_type input_arg
        /\ requires_grad t2 = requires_grad input_arg).
Proof. apply reshape_to_2d_spec_core. Qed.

Lemma reshape_to_2d_spec_witness :
  reshape_to_2d scalar_bias = Err InputDimBelow2
  /\ exists t2 last_sz,
       reshape_to_2d input_2x2x5x3 = Ok t2
       /\ last (sizes input_2x2x5x3) = Some last_sz
       /\ sizes t2 = [numel (removelast (sizes input_2x2x5x3)); last_sz]
       /\ numel (sizes t2) = numel (sizes input_2x2x5x3)
       /\ data t2 = data input_2x2x5x3
       /\ device t2 = device input_2x2x5x3
       /\ scalar_type t2 = scalar_type input_2x2x5x3
       /\ requires_grad t2 = requires_grad input_2x2x5x3.
Proof.
  split.
  - apply (proj1 (reshape_to_2d_spec scalar_bias)). reflexivity.
  - apply (proj2 (reshape_to_2d_spec input_2x2x5x3)). discriminate.
Defined.

(** The way back never fails: for an input of rank at least 1 and a
    two-dimensional output with as many rows as the collapsed input,
    [restore_shape] returns the elements of the output under the sizes of
    the input with the last one replaced by the output's width.  In
    particular collapsing an input with [reshape_to_2d] and restoring it
    gives back the sizes it had. *)
Theorem restore_shape_after_reshape_to_2d
    (input_arg output : Tensor) (w : Z) :
  1 <= dim input_arg ->
  sizes output = [numel (removelast (sizes input_arg)); w] ->
  (exists out,
     restore_shape input_arg output = Ok out
     /\ sizes out = removelast (sizes input_arg) ++ [w]
     /\ data out = data output)
  /\ (forall t2, reshape_to_2d input_arg = Ok t2 ->
      exists out,
        restore_shape input_arg t2 = Ok out
        /\ sizes out = sizes input_arg
        /\ data out = data input_arg).
Proof.
  intros Hd Hs.
  assert (Hrestore : forall o x,
            sizes o = [numel (removelast (sizes input_arg)); x] ->
            exists out,
              restore_shape input_arg o = Ok out
              /\ sizes out = removelast (sizes input_arg) ++ [x]
              /\ data out = data o).
  { intros o x Ho. unfold restore_shape, restored_shape.
    rewrite (leading_sizes_irange _ Hd), (size_last_of_pair _ _ _ Ho).
    cbn [bind].
    destruct (reshape_Ok o (removelast (sizes input_arg) ++ [x]))
      as (out & -> & Hsz & Hdata & _).
    { rewrite Ho, numel_snoc. unfold numel. cbn [fold_right]. ring. }
    eauto. }
  split; [apply Hrestore, Hs|].
  intros t2 Ht2.
  assert (Hd2 : 2 <= dim input_arg).
  { unfold reshape_to_2d in Ht2.
    destruct (Z.leb_spec 2 (dim input_arg)); [assumption | discriminate]. }
  destruct (proj2 (reshape_to_2d_spec_core input_arg) Hd2)
    as (t2' & last_sz & Ht2' & Hlast & Hsz & _ & Hdata & _).
  rewrite Ht2 in Ht2'. injection Ht2' as <-.
  destruct (Hrestore t2 last_sz Hsz) as (out & Hout & Hso & Hdo).
  exists out. split; [exact Hout|]. split; [|congruence].
  rewrite Hso.
  destruct (sizes input_arg) as [|x l _] using rev_ind; [discriminate|].
  rewrite last_snoc in Hlast. injection Hlast as <-.
  rewrite removelast_last. reflexivity.
Qed.

Lemma restore_shape_after_reshape_to_2d_witness :
  (exists out,
     restore_shape input_2x2x5x3 sample_output_20x4 = Ok out
     /\ sizes out = removelast (sizes input_2x2x5x3) ++ [4]
     /\ data out = data sample_output_20x4)
  /\ (forall t2, reshape_to_2d input_2x2x5x3 = Ok t2 ->
      exists out,
        restore_shape input_2x2x5x3 t2 = Ok out
        /\ sizes out = sizes input_2x2x5x3
        /\ data out = data input_2x2x5x3).
Proof.
  apply (restore_shape_after_reshape_to_2d input_2x2x5x3
           sample_output_20x4 4).
  - discriminate.
  - reflexivity.
Defined.

(** ** The batched dispatcher: shapes *)

Lemma to_vulkan_sizes (t : Tensor) : sizes (to_vulkan t) = sizes t.
Proof. unfold to_vulkan. destruct (is_vulkan t); reflexivity. Qed.

Lemma to_vulkan_scalar_type (t : Tensor) :
  scalar_type (to_vulkan t) = scalar_type t.
Proof. unfold to_vulkan. destruct (is_vulkan t); reflexivity. Qed.

(** What a batched [usable] tells of the sizes. *)
Lemma usable_batched_sizes (input : Tensor) (uws : list Z) :
  usable input uws true = Ok true ->
  scalar_type input = kFloat
  /\ exists B H K,
       sizes input = [B; H; K]
       /\ uws !! 0%nat = Some B /\ uws !! 1%nat = Some K.
Proof.
  unfold usable, usable_check_with_batch.
  change Layout.BatchMatrices.width with (Z.of_nat 2).
  change Layout.BatchMatrices.height with (Z.of_nat 1).
  change Layout.BatchMatrices.batch with (Z.of_nat 0).
  change 3 with (Z.of_nat 3) at 1.
  rewrite !andthen_true, !dim_match, !Ok_inj_iff, ndimension_eqb,
    Nat.eqb_eq, ScalarType_eqb_eq.
  intros ((((((Hl & _) & Ht) & (k & Hk & Hwk)) & (b & Hb & Hwb)) & _) & _).
  split; [congruence|].
  destruct (sizes input) as [|B [|H [|K [|x l]]]]; try discriminate.
  cbn in Hk, Hb. injection Hk as ->. injection Hb as ->.
  exists b, H, k. auto.
Qed.

Lemma reshape_same_sizes (t t' : Tensor) :
  v_sizes (opaque t) = sizes t ->
  reshape t (sizes t) = Ok t' -> t' = t.
Proof.
  unfold reshape. rewrite Z.eqb_refl. intros Hv H. injection H as <-.
  destruct t as [df sz dv ty rg iq qs qz dt [vs vd gl vq gs gz vdt]].
  cbn in *. subst vs. reflexivity.
Qed.

Section BatchedShape.

Variable extents : vTensor -> uvec3.
Variable run_shader : ComputeJob -> list Z.

(** [run_baddbmm_context] asks for rank 3 before anything else: on any
    other input it raises the check of Mm.cpp:683, whatever the state and
    the context.  A successful call, on an input whose image has the sizes
    of the tensor, has multiplied B matrices of H x K by B matrices of
    K x W: the input has sizes (B, H, K), the weight sizes of the context
    start with B and K, and the result is the output of the submitted job
    itself, of sizes (B, H, W) and element type float; the reshape at the
    end changes nothing. *)
Theorem run_baddbmm_context_output_shape
    (input_arg : Tensor) (alpha beta : Q) (linear_context : nat)
    (st : VkState) :
  (dim input_arg <> 3 ->
   run_baddbmm_context extents run_shader input_arg alpha beta
     linear_context st = Err BatchInputNot3D)
  /\ (forall out st',
      v_sizes (convert (to_vulkan input_arg)) = sizes input_arg ->
      run_baddbmm_context extents run_shader input_arg alpha beta
        linear_context st = Ok (out, st') ->
      exists ctx uws B H K W job,
        deref st linear_context = Ok ctx
        /\ get_val ctx Packed.WeightSizes = Ok (IVIntVector uws)
        /\ sizes input_arg = [B; H; K]
        /\ uws !! 0%nat = Some B /\ uws !! 1%nat = Some K
        /\ uws !! 2%nat = Some W
        /\ st' = submit_compute_job st job
        /\ out = output_of run_shader job
        /\ sizes out = [B; H; W]
        /\ scalar_type out = kFloat).
Proof.
  split.
  - intros Hd. unfold run_baddbmm_context.
    destruct (Z.eqb_spec (dim input_arg) 3); [contradiction|]. reflexivity.
  - intros out st' Hv H. unfold run_baddbmm_context in H.
    step H as u0 E0. step H as ctx E2.
    step H as packed_v_weight E3. step H as packed_v_bias E4.
    step H as uws E5. step H as bias_defined E6. step H as ok E7.
    step H as u1 E8. step H as out_b E9. step H as out_h E10.
    step H as out_w E11. step H as job E12. step H as reshaped E13.
    apply get_int_vector_inv in E5.
    apply torch_check_Ok in E8. subst ok. injection H as <- <-.
    destruct (dispatch_baddbmm_spec _ _ _ _ _ _ _ _ _ _ _ _ _ E12 E9 E10 E11)
      as (_ & _ & _ & Ho & _).
    apply usable_batched_sizes in E7 as (Hty & B & H & K & Hs & HB & HK).
    rewrite to_vulkan_sizes in Hs. rewrite to_vulkan_scalar_type in Hty.
    rewrite Hv, Hs in E9, E10. cbn in E9, E10.
    injection E9 as <-. injection E10 as <-.
    change Layout.BatchMatrices.width with (Z.of_nat 2) in E11.
    rewrite at_index_lookup in E11.
    destruct (uws !! 2%nat) as [W|] eqn:HW; [|discriminate].
    injection E11 as <-.
    assert (Hos : sizes (output_of run_shader job) = [B; H; W])
      by (unfold output_of; cbn; rewrite Ho; reflexivity).
    assert (Hot : scalar_type (output_of run_shader job) = kFloat)
      by (unfold output_of; cbn; rewrite Ho; exact Hty).
    assert (Hr : reshaped = output_of run_shader job).
    { unfold restore_shape, restored_shape in E13.
      rewrite leading_sizes_irange in E13
        by (unfold dim, ndimension; rewrite Hs; cbn; lia).
      rewrite (size_last _ [B; H] W Hos) in E13. cbn [bind] in E13.
      rewrite Hs in E13. cbn [removelast app] in E13.
      rewrite <- Hos in E13.
      apply reshape_same_sizes in E13; [exact E13 | reflexivity]. }
    exists ctx, uws, B, H, K, W, job. subst reshaped. auto 12.
Qed.

End BatchedShape.

Lemma run_baddbmm_context_output_shape_witness :
  run_baddbmm_context sample_extents sample_shader input_2x3 1%Q 1%Q 0
    sample_batch_state = Err BatchInputNot3D
  /\ exists ctx uws B H K W job,
       deref sample_batch_state 0 = Ok ctx
       /\ get_val ctx Packed.WeightSizes = Ok (IVIntVector uws)
       /\ sizes batch_input_2x2x3 = [B; H; K]
       /\ uws !! 0%nat = Some B /\ uws !! 1%nat = Some K
       /\ uws !! 2%nat = Some W
       /\ snd sample_batch_run = submit_compute_job sample_batch_state job
       /\ fst sample_batch_run = output_of sample_shader job
       /\ sizes (fst sample_batch_run) = [B; H; W]
       /\ scalar_type (fst sample_batch_run) = kFloat.
Proof.
  split.
  - apply (proj1 (run_baddbmm_context_output_shape sample_extents
                    sample_shader input_2x3 1%Q 1%Q 0 sample_batch_state)).
    discriminate.
  - apply (proj2 (run_baddbmm_context_output_shape sample_extents
                    sample_shader batch_input_2x2x3 1%Q 1%Q 0
                    sample_batch_state)).
    + reflexivity.
    + vm_compute. reflexivity.
Defined.

(** ** The four operators *)

Lemma run_temporary_state
    (c : result LinearPackedContext) (st : VkState)
    (call : nat -> VkState -> result (Tensor * VkState))
    (out : Tensor) (st' : VkState) :
  (forall p st1 r, call p st1 = Ok r ->
     exists job, snd r = submit_compute_job st1 job) ->
  with_temporary_context c st call = Ok (out, st') ->
  exists job,
    queue st' = queue st ++ [job] /\ heap st' = heap st ++ [None].
Proof.
  intros Hcall H. unfold with_temporary_context in H.
  step H as ctx E0. cbn [make_intrusive] in H.
  step H as r E1. injection H as _ <-.
  destruct (Hcall _ _ _ E1) as (job & ->).
  exists job. cbn [release submit_compute_job queue heap].
  split; [reflexivity|].
  rewrite insert_app_r_alt by lia. rewrite Nat.sub_diag. reflexivity.
Qed.

(** An unbatched [usable] on sizes that do not chain. *)
Lemma usable_unbatched_mismatch (input : Tensor) (uws : list Z) (k k' : Z) :
  sizes input !! 1%nat = Some k -> uws !! 0%nat = Some k' -> k <> k' ->
  usable input uws false = Ok false.
Proof.
  intros Hi Hw Hk. unfold usable.
  change Layout.Param.width with (Z.of_nat 1).
  change Layout.Param.height with (Z.of_nat 0).
  rewrite (size_lookup _ _ _ Hi), at_index_lookup, Hw. cbn [bind].
  rewrite (proj2 (Z.eqb_neq _ _) Hk), !andthen_pure.
  f_equal. rewrite andb_false_r. reflexivity.
Qed.

Section Operators.

Variable extents : vTensor -> uvec3.
Variable run_shader : ComputeJob -> list Z.

Lemma run_addmm_context_submits
    (input_arg : Tensor) (alpha beta : Q) (p : nat)
    (quantized : bool) (output_scale : Q) (output_zero_point : Z)
    (st : VkState) (r : Tensor * VkState) :
  run_addmm_context extents run_shader input_arg alpha beta p
    quantized output_scale output_zero_point st = Ok r ->
  exists job, snd r = submit_compute_job st job.
Proof.
  destruct r as [out st']. intros H.
  apply run_addmm_context_inv in H as (a & Ha).
  exists (r_job a). apply Ha.
Qed.

Lemma run_baddbmm_context_submits
    (input_arg : Tensor) (alpha beta : Q) (p : nat)
    (st : VkState) (r : Tensor * VkState) :
  run_baddbmm_context extents run_shader input_arg alpha beta p st = Ok r ->
  exists job, snd r = submit_compute_job st job.
Proof.
  destruct r as [out st']. intros H.
  apply run_baddbmm_context_inv
    in H as (ctx & uws & bd & b & h & w & job & _ & _ & _ & _ & _ & _ & _
             & _ & -> & _).
  exists job. reflexivity.
Qed.

(** Whatever the operands, a call of [addmm], [mm], [bmm] or [baddbmm] that
    returns has submitted exactly one job, has left every context that
    existed before as it was, and keeps none: the only new cell is the one
    of the context built for the call, and it is empty again. *)
Theorem operators_keep_no_context
    (g : GlobalContext) (bias input weight : Tensor) (beta alpha : Q)
    (st : VkState) (out : Tensor) (st' : VkState) :
  addmm extents run_shader g bias input weight beta alpha st = Ok (out, st')
  \/ mm extents run_shader g input weight st = Ok (out, st')
  \/ bmm extents run_shader g input weight st = Ok (out, st')
  \/ baddbmm extents run_shader g bias input weight beta alpha st
     = Ok (out, st') ->
  exists job,
    queue st' = queue st ++ [job] /\ heap st' = heap st ++ [None].
Proof.
  unfold addmm, mm, bmm, baddbmm.
  intros [H|[H|[H|H]]];
    (eapply run_temporary_state; [|exact H]); intros p st1 r;
    first [apply run_addmm_context_submits
          | apply run_baddbmm_context_submits].
Qed.

(** The dispatcher behind a context for a weight whose height is not the
    width of the input. *)
Lemma run_addmm_context_inner_mismatch
    (g : GlobalContext) (m k k' n : Z) (a b : list Z) (p : nat)
    (st : VkState) :
  deref st p = Ok (mm_context g k' n b) ->
  k <> k' ->
  run_addmm_context extents run_shader (host_tensor [m; k] kFloat a)
    1%Q 1%Q p false 0%Q 0 st
  = Err NotUsable.
Proof.
  intros Hd Hk. unfold run_addmm_context.
  change (dim (host_tensor [m; k] kFloat a) =? 2) with true.
  cbv iota. cbn [bind].
  change (pack_inputs_using_height_packing
            (to_vulkan (host_tensor [m; k] kFloat a)))
    with (Ok (packing.convert_image_channels_packed_to_width_packed
                (convert (vulkan (host_tensor [m; k] kFloat a))))).
  cbn [bind]. rewrite Hd. cbn [bind].
  change (get_val (mm_context g k' n b) Packed.WeightSizes)
    with (Ok (IVIntVector [k'; n])).
  change (get_val (mm_context g k' n b) Packed.Weight)
    with (Ok (IVTensor
                (convert_v
                   (packing.convert_image_channels_packed_to_height_packed
                      (convert (vulkan (host_tensor [k'; n] kFloat b))))))).
  change (get_val (mm_context g k' n b) Packed.Bias)
    with (Ok (IVTensor
                (convert_v
                   (pack_staging_to_vtensor
                      (zeroed_staging (new_vTensor [1] kFloat))
                      (new_vTensor [1] kFloat))))).
  change (get_val (mm_context g k' n b) Packed.BiasDefined)
    with (Ok (IVBool false)).
  cbn [bind toTensor toIntVector toBool].
  assert (Hu : usable (to_vulkan (host_tensor [m; k] kFloat a)) [k'; n] false
               = Ok false).
  { apply usable_unbatched_mismatch with (k := k) (k' := k');
      [reflexivity | reflexivity | exact Hk]. }
  rewrite Hu. reflexivity.
Qed.

(** [mm] of host float matrices (m, k) and (k', n) whose inner sizes
    differ, with Vulkan available: the context for the second matrix is
    built, and the call is then turned away by the [usable] check. *)
Theorem mm_inner_dimension_mismatch
    (g : GlobalContext) (m k k' n : Z) (a b : list Z) (st : VkState) :
  api_available g = true -> 0 < k' -> 0 < n -> k <> k' ->
  mm extents run_shader g
     (host_tensor [m; k] kFloat a) (host_tensor [k'; n] kFloat b) st
  = Err NotUsable.
Proof.
  intros Hg Hk' Hn Hk.
  unfold mm, with_temporary_context.
  rewrite (LinearPackedContext_new_host_float_weight g k' n b)
    by assumption.
  cbn [bind make_intrusive].
  rewrite (run_addmm_context_inner_mismatch g m k k' n a b)
    by (try assumption; unfold deref; cbn [heap];
        rewrite list_lookup_middle by reflexivity; reflexivity).
  reflexivity.
Qed.

End Operators.

Lemma operators_keep_no_context_witness :
  exists job,
    queue (snd sample_mm) = queue sample_context_state ++ [job]
    /\ heap (snd sample_mm) = heap sample_context_state ++ [None].
Proof.
  apply (operators_keep_no_context sample_extents sample_shader vulkan_on
           bias_4 input_2x3 weight_3x4 1%Q 1%Q sample_context_state
           (fst sample_mm) (snd sample_mm)).
  right. left. vm_compute. reflexivity.
Defined.

Lemma mm_inner_dimension_mismatch_witness :
  mm sample_extents sample_shader vulkan_on
     (host_tensor [2; 5] kFloat (replicate 10 1))
     (host_tensor [3; 4] kFloat (replicate 12 1)) empty_state
  = Err NotUsable.
Proof.
  apply (mm_inner_dimension_mismatch sample_extents sample_shader vulkan_on
           2 5 3 4 (replicate 10 1) (replicate 12 1) empty_state);
    [reflexivity | lia | lia | lia].
Defined.

Lemma mm_host_matrices_witness :
  exists out st' job,
    mm sample_extents sample_shader vulkan_on
       (host_tensor [2; 3] kFloat [1; 2; 3; 4; 5; 6])
       (host_tensor [3; 4] kFloat (replicate 12 1)) empty_state
    = Ok (out, st')
    /\ sizes out = [2; 4]
    /\ queue st' = queue empty_state ++ [job]
    /\ heap st' = heap empty_state ++ [None]
    /\ shader job = VK_mm
    /\ global_work_group job = (ceil_div 4 4, ceil_div 2 4, 1)
    /\ local_work_group job = (8, 8, 1).
Proof.
  apply (mm_host_matrices sample_extents sample_shader vulkan_on
           2 3 4 [1; 2; 3; 4; 5; 6] (replicate 12 1) empty_state);
    [reflexivity | lia | lia | lia].
Defined.

(** ** What a job is handed *)

Lemma to_vulkan_device (t : Tensor) : device (to_vulkan t) = Vulkan.
Proof.
  unfold to_vulkan, is_vulkan.
  destruct (device t) eqn:Hd; cbn; rewrite ?Hd; reflexivity.
Qed.

Lemma moved_to_vulkan (t : Tensor) : moved (to_vulkan t) = to_vulkan t.
Proof. unfold moved, is_cpu. rewrite to_vulkan_device. reflexivity. Qed.

(** The image [run_addmm_context] packs of its input. *)
Lemma pack_inputs_to_vulkan (t : Tensor) (v : vTensor) :
  pack_inputs_using_height_packing (to_vulkan t) = Ok v ->
  v = set_layout (convert (to_vulkan t)) TENSOR_WIDTH_PACKED.
Proof.
  intros H.
  pose proof (pack_inputs_using_height_packing_cases (to_vulkan t)) as C.
  rewrite H, moved_to_vulkan in C. apply C.
Qed.

Lemma reshape_image (t t' : Tensor) (shape : list Z) :
  reshape t shape = Ok t' ->
  v_is_quantized (convert t') = v_is_quantized (convert t)
  /\ get_scale (convert t') = get_scale (convert t)
  /\ get_zero_point (convert t') = get_zero_point (convert t)
  /\ v_dtype (convert t') = v_dtype (convert t).
Proof.
  unfold reshape. destruct (numel shape =? numel (sizes t)); [|discriminate].
  intros H. injection H as <-. cbn. auto.
Qed.

Lemma restore_shape_image (input_arg output out : Tensor) :
  restore_shape input_arg output = Ok out ->
  v_is_quantized (convert out) = v_is_quantized (convert output)
  /\ get_scale (convert out) = get_scale (convert output)
  /\ get_zero_point (convert out) = get_zero_point (convert output)
  /\ v_dtype (convert out) = v_dtype (convert output).
Proof.
  unfold restore_shape. intros H. step H as shape E.
  eapply reshape_image, H.
Qed.

Section JobOperands.

Variable extents : vTensor -> uvec3.
Variable run_shader : ComputeJob -> list Z.

(** The images a submitted job reads.  Unbatched: the image of the
    two-dimensional form of the input, moved to the device and
    width-packed, then the packed weight of the context, then the packed
    bias of the context when the context says a bias is defined, and not
    otherwise.  Batched: the same with the image of the input as it is. *)
Theorem dispatcher_binds_images
    (input_arg : Tensor) (alpha beta : Q) (linear_context : nat)
    (quantized : bool) (output_scale : Q) (output_zero_point : Z)
    (st : VkState) (out : Tensor) (st' : VkState) :
  (run_addmm_context extents run_shader input_arg alpha beta linear_context
     quantized output_scale output_zero_point st = Ok (out, st') ->
   exists ctx weight bias bias_defined input_2d job,
     deref st linear_context = Ok ctx
     /\ get_val ctx Packed.Weight = Ok (IVTensor weight)
     /\ get_val ctx Packed.Bias = Ok (IVTensor bias)
     /\ get_val ctx Packed.BiasDefined = Ok (IVBool bias_defined)
     /\ (if dim input_arg =? 2 then Ok input_arg
         else reshape_to_2d input_arg) = Ok input_2d
     /\ st' = submit_compute_job st job
     /\ job_inputs job
        = [set_layout (convert (to_vulkan input_2d)) TENSOR_WIDTH_PACKED;
           convert weight]
          ++ (if bias_defined then [convert bias] else []))
  /\ (run_baddbmm_context extents run_shader input_arg alpha beta
        linear_context st = Ok (out, st') ->
      exists ctx weight bias bias_defined job,
        deref st linear_context = Ok ctx
        /\ get_val ctx Packed.Weight = Ok (IVTensor weight)
        /\ get_val ctx Packed.Bias = Ok (IVTensor bias)
        /\ get_val ctx Packed.BiasDefined = Ok (IVBool bias_defined)
        /\ st' = submit_compute_job st job
        /\ job_inputs job
           = [convert (to_vulkan input_arg); convert weight]
             ++ (if bias_defined then [convert bias] else [])).
Proof.
  split.
  - intros H. apply run_addmm_context_inv in H as (r & Hr).
    destruct Hr as (E0 & E1 & Hctx & Hw & Hb & _ & Hbd & _ & _ & _ & _ & _
                    & Hjob & -> & _).
    assert (Hsz : v_sizes (addmm_output input_arg quantized output_scale
                             output_zero_point (r_out_h r) (r_out_w r))
                  = [r_out_h r; r_out_w r])
      by (unfold addmm_output; destruct quantized; reflexivity).
    destruct (dispatch_addmm_spec _ _ _ _ _ _ _ _ _ _ _ _ _ _ _ Hjob Hsz)
      as (_ & _ & _ & _ & Hin).
    apply pack_inputs_to_vulkan in E1. rewrite E1 in Hin.
    exists (r_ctx r), (r_weight r), (r_bias r), (r_bias_defined r),
      (r_input_2d r), (r_job r). auto 10.
  - intros H. unfold run_baddbmm_context in H.
    step H as u0 E0. step H as ctx E2.
    step H as packed_v_weight E3. step H as packed_v_bias E4.
    step H as uws E5. step H as bias_defined E6. step H as ok E7.
    step H as u1 E8. step H as out_b E9. step H as out_h E10.
    step H as out_w E11. step H as job E12. step H as reshaped E13.
    apply get_tensor_inv in E3 as (pw & Epw & ->).
    apply get_tensor_inv in E4 as (pb & Epb & ->).
    apply get_bool_inv in E6. injection H as <- <-.
    destruct (dispatch_baddbmm_spec _ _ _ _ _ _ _ _ _ _ _ _ _ E12 E9 E10 E11)
      as (_ & _ & _ & _ & Hin).
    exists ctx, pw, pb, bias_defined, job. auto 10.
Qed.

(** A call of [run_qlinear_context] that returns: the packed weight of the
    context is a quantized image and so is the image of the input; the
    tensor returned is backed by a quantized image that carries the scale
    and the zero point asked for, with the element type of the input. *)
Theorem run_qlinear_context_quantized_output
    (input_arg : Tensor) (output_scale : Q) (output_zero_point : Z)
    (linear_context : nat) (st : VkState) (out : Tensor) (st' : VkState) :
  run_qlinear_context extents run_shader input_arg output_scale
    output_zero_point linear_context st = Ok (out, st') ->
  exists ctx weight input_2d,
    deref st linear_context = Ok ctx
    /\ get_val ctx Packed.Weight = Ok (IVTensor weight)
    /\ (if dim input_arg =? 2 then Ok input_arg
        else reshape_to_2d input_arg) = Ok input_2d
    /\ v_is_quantized (convert weight) = true
    /\ v_is_quantized (convert (to_vulkan input_2d)) = true
    /\ v_is_quantized (convert out) = true
    /\ get_scale (convert out) = output_scale
    /\ get_zero_point (convert out) = output_zero_point
    /\ v_dtype (convert out) = scalar_type input_arg.
Proof.
  unfold run_qlinear_context. intros H.
  apply run_addmm_context_inv in H as (r & Hr).
  destruct Hr as (E0 & E1 & Hctx & Hw & _ & _ & _ & _ & Hq & _ & _ & _
                  & Hjob & -> & Hout).
  assert (Hsz : v_sizes (addmm_output input_arg true output_scale
                           output_zero_point (r_out_h r) (r_out_w r))
                = [r_out_h r; r_out_w r]) by reflexivity.
  destruct (dispatch_addmm_spec _ _ _ _ _ _ _ _ _ _ _ _ _ _ _ Hjob Hsz)
    as (_ & _ & _ & Ho & _).
  apply pack_inputs_to_vulkan in E1. rewrite E1 in Hq.
  cbn [negb orb] in Hq. apply andb_true_iff in Hq as [Hqw Hqi].
  exists (r_ctx r), (r_weight r), (r_input_2d r).
  do 3 (split; [assumption|]). split; [exact Hqw|]. split; [exact Hqi|].
  assert (Hjo : v_is_quantized (convert (output_of run_shader (r_job r)))
                = true
                /\ get_scale (convert (output_of run_shader (r_job r)))
                   = output_scale
                /\ get_zero_point (convert (output_of run_shader (r_job r)))
                   = output_zero_point
                /\ v_dtype (convert (output_of run_shader (r_job r)))
                   = scalar_type input_arg)
    by (unfold output_of; cbn; rewrite Ho; cbn; auto).
  destruct (dim input_arg =? 2).
  - injection Hout as <-. exact Hjo.
  - apply restore_shape_image in Hout as (-> & -> & -> & ->). exact Hjo.
Qed.

End JobOperands.

Lemma dispatcher_binds_images_witness :
  (exists ctx weight bias bias_defined input_2d job,
     deref sample_context_state 0 = Ok ctx
     /\ get_val ctx Packed.Weight = Ok (IVTensor weight)
     /\ get_val ctx Packed.Bias = Ok (IVTensor bias)
     /\ get_val ctx Packed.BiasDefined = Ok (IVBool bias_defined)
     /\ (if dim input_2x3 =? 2 then Ok input_2x3
         else reshape_to_2d input_2x3) = Ok input_2d
     /\ snd sample_run = submit_compute_job sample_context_state job
     /\ job_inputs job
        = [set_layout (convert (to_vulkan input_2d)) TENSOR_WIDTH_PACKED;
           convert weight]
          ++ (if bias_defined then [convert bias] else []))
  /\ (exists ctx weight bias bias_defined job,
        deref sample_batch_state 0 = Ok ctx
        /\ get_val ctx Packed.Weight = Ok (IVTensor weight)
        /\ get_val ctx Packed.Bias = Ok (IVTensor bias)
        /\ get_val ctx Packed.BiasDefined = Ok (IVBool bias_defined)
        /\ snd sample_batch_run
           = submit_compute_job sample_batch_state job
        /\ job_inputs job
           = [convert (to_vulkan batch_input_2x2x3); convert weight]
             ++ (if bias_defined then [convert bias] else [])).
Proof.
  split.
  - apply (proj1 (dispatcher_binds_images sample_extents sample_shader
                    input_2x3 1%Q 1%Q 0 false 0%Q 0 sample_context_state
                    (fst sample_run) (snd sample_run))).
    vm_compute. reflexivity.
  - apply (proj2 (dispatcher_binds_images sample_extents sample_shader
                    batch_input_2x2x3 1%Q 1%Q 0 false 0%Q 0
                    sample_batch_state
                    (fst sample_batch_run) (snd sample_batch_run))).
    vm_compute. reflexivity.
Defined.

Lemma run_qlinear_context_quantized_output_witness :
  exists ctx weight input_2d,
    deref sample_quantized_state 0 = Ok ctx
    /\ get_val ctx Packed.Weight = Ok (IVTensor weight)
    /\ (if dim (qinput_2x3 kQInt8) =? 2 then Ok (qinput_2x3 kQInt8)
        else reshape_to_2d (qinput_2x3 kQInt8)) = Ok input_2d
    /\ v_is_quantized (convert weight) = true
    /\ v_is_quantized (convert (to_vulkan input_2d)) = true
    /\ v_is_quantized (convert (fst sample_quantized_run)) = true
    /\ get_scale (convert (fst sample_quantized_run)) = (1 # 8)%Q
    /\ get_zero_point (convert (fst sample_quantized_run)) = 3
    /\ v_dtype (convert (fst sample_quantized_run))
       = scalar_type (qinput_2x3 kQInt8).
Proof.
  apply (run_qlinear_context_quantized_output sample_extents sample_shader
           (qinput_2x3 kQInt8) (1 # 8) 3 0 sample_quantized_state
           (fst sample_quantized_run) (snd sample_quantized_run)).
  vm_compute. reflexivity.
Defined.

(** ** The image of a packed weight, and which run accepts it *)

Lemma stage_pack_weights_image
    (v_weight : vTensor) (weight : Tensor) (kb kh kw dh dw : Z)
    (w : vTensor) :
  stage_pack_weights v_weight weight kb kh kw dh dw = Ok w ->
  w = pack_staging_to_vtensor (v_data w) v_weight.
Proof.
  unfold stage_pack_weights. intros H. step H as dst E.
  injection H as <-. reflexivity.
Qed.

(** The outcomes of [pack_weights], by its two ways. *)
Lemma pack_weights_image_cases
    (weight_arg : Tensor) (use_batch : bool) (w : vTensor) :
  pack_weights weight_arg use_batch = Ok w ->
  if negb (is_quantized weight_arg) && negb use_batch
  then
    w = set_layout (convert (moved weight_arg)) TENSOR_HEIGHT_PACKED
  else
    gpu_memory_layout w = TENSOR_CHANNELS_PACKED
    /\ v_dtype w = scalar_type weight_arg
    /\ v_is_quantized w = quantized_dtype (scalar_type weight_arg)
    /\ (quantized_dtype (scalar_type weight_arg) = true ->
        get_scale w = q_scale weight_arg
        /\ get_zero_point w = q_zero_point weight_arg)
    /\ (quantized_dtype (scalar_type weight_arg) = false ->
        use_batch = false -> v_data w = []).
Proof.
  unfold pack_weights.
  destruct (negb (is_quantized weight_arg) && negb use_batch).
  - intros H.
    pose proof (pack_weights_using_height_packing_cases weight_arg) as C.
    rewrite H in C. apply C.
  - intros H. step H as u E0. step H as kb E1. step H as kw E2.
    step H as kh E3.
    change (match scalar_type weight_arg with
            | kQInt8 | kQUInt8 => true
            | _ => false
            end) with (quantized_dtype (scalar_type weight_arg)) in H.
    destruct (quantized_dtype (scalar_type weight_arg)).
    + apply stage_pack_weights_image in H. rewrite H. cbn.
      repeat split; auto; discriminate.
    + destruct use_batch.
      * apply stage_pack_weights_image in H. rewrite H. cbn.
        repeat split; auto; discriminate.
      * injection H as <-. cbn. repeat split; auto; discriminate.
Qed.

(** [pack_weights] goes one of two ways.  A weight that is not quantized,
    unbatched, becomes its own image (moved to the device when on the
    host), height-packed.  Any other weight is staged into a fresh image,
    channels-packed, of the weight's element type; the image is marked
    quantized, with the weight's scale and zero point, exactly when the
    element type is kQInt8 or kQUInt8; and when it is neither quantized by
    type nor batched, nothing is staged into it. *)
Theorem pack_weights_image
    (weight_arg : Tensor) (use_batch : bool) (w : vTensor) :
  pack_weights weight_arg use_batch = Ok w ->
  if negb (is_quantized weight_arg) && negb use_batch
  then
    w = set_layout (convert (moved weight_arg)) TENSOR_HEIGHT_PACKED
  else
    gpu_memory_layout w = TENSOR_CHANNELS_PACKED
    /\ v_dtype w = scalar_type weight_arg
    /\ v_is_quantized w = quantized_dtype (scalar_type weight_arg)
    /\ (quantized_dtype (scalar_type weight_arg) = true ->
        get_scale w = q_scale weight_arg
        /\ get_zero_point w = q_zero_point weight_arg)
    /\ (quantized_dtype (scalar_type weight_arg) = false ->
        use_batch = false -> v_data w = []).
Proof. apply pack_weights_image_cases. Qed.

Lemma pack_weights_image_witness :
  (if negb (is_quantized qweight_3x4) && negb false
   then
     sample_quantized_weight
     = set_layout (convert (moved qweight_3x4)) TENSOR_HEIGHT_PACKED
   else
     gpu_memory_layout sample_quantized_weight = TENSOR_CHANNELS_PACKED
     /\ v_dtype sample_quantized_weight = scalar_type qweight_3x4
     /\ v_is_quantized sample_quantized_weight
        = quantized_dtype (scalar_type qweight_3x4)
     /\ (quantized_dtype (scalar_type qweight_3x4) = true ->
         get_scale sample_quantized_weight = q_scale qweight_3x4
         /\ get_zero_point sample_quantized_weight
            = q_zero_point qweight_3x4)
     /\ (quantized_dtype (scalar_type qweight_3x4) = false ->
         false = false -> v_data sample_quantized_weight = [])).
Proof.
  apply (pack_weights_image qweight_3x4 false sample_quantized_weight).
  vm_compute. reflexivity.
Defined.

Section ContextKinds.

Variable extents : vTensor -> uvec3.
Variable run_shader : ComputeJob -> list Z.

(** A context is of the kind of its weight, and only the run of that kind
    takes it.  With a context built, unbatched, from a quantized weight,
    [run_linear_context] never returns; with one built from a host weight
    that is not quantized, [run_qlinear_context] never returns. *)
Theorem context_kind_must_match
    (g : GlobalContext) (weight : Tensor) (bias : option Tensor)
    (ctx : LinearPackedContext) (p : nat) (st : VkState) :
  LinearPackedContext_new g weight bias false = Ok ctx ->
  deref st p = Ok ctx ->
  (is_quantized weight = true ->
   forall input,
     exists e, run_linear_context extents run_shader input p st = Err e)
  /\ (is_quantized weight = false -> device weight = CPU ->
      forall input output_scale output_zero_point,
        exists e, run_qlinear_context extents run_shader input output_scale
                    output_zero_point p st = Err e).
Proof.
  intros Hnew Hctx.
  apply LinearPackedContext_new_Ok in Hnew as (_ & w & b & Hw & _ & Hp & _).
  apply pack_weights_image_cases in Hw.
  assert (Hget : get_val ctx Packed.Weight = Ok (IVTensor (convert_v w)))
    by (unfold get_val; rewrite Hp; reflexivity).
  split.
  - intros Hq input. rewrite Hq in Hw. cbn [negb andb] in Hw.
    destruct Hw as (Hl & _).
    unfold run_linear_context.
    destruct (run_addmm_context extents run_shader input 1 1 p false 0 0 st)
      as [[out st']|e] eqn:H; [exfalso | eauto].
    apply run_addmm_context_inv in H as (r & Hr).
    destruct Hr as (_ & _ & Hc & Hgw & _ & _ & _ & _ & _ & Hlay & _).
    rewrite Hctx in Hc. injection Hc as Hc. rewrite <- Hc in Hgw.
    rewrite Hget in Hgw. injection Hgw as Hgw. rewrite <- Hgw in *.
    cbn [orb convert convert_v opaque] in Hlay. rewrite Hl in Hlay.
    discriminate.
  - intros Hq Hdev input output_scale output_zero_point.
    rewrite Hq in Hw. cbn [negb andb] in Hw.
    unfold run_qlinear_context.
    destruct (run_addmm_context extents run_shader input 1 1 p true
                output_scale output_zero_point st)
      as [[out st']|e] eqn:H; [exfalso | eauto].
    apply run_addmm_context_inv in H as (r & Hr).
    destruct Hr as (_ & _ & Hc & Hgw & _ & _ & _ & _ & Hqq & _).
    rewrite Hctx in Hc. injection Hc as Hc. rewrite <- Hc in Hgw.
    rewrite Hget in Hgw. injection Hgw as Hgw. rewrite <- Hgw in *.
    cbn [negb orb convert convert_v opaque] in Hqq.
    apply andb_true_iff in Hqq as [Hqw _].
    rewrite Hw in Hqw. unfold moved, is_cpu in Hqw. rewrite Hdev in Hqw.
    cbn in Hqw. congruence.
Qed.

End ContextKinds.

Lemma context_kind_must_match_witness :
  (forall input,
     exists e, run_linear_context sample_extents sample_shader input 0
                 sample_quantized_state = Err e)
  /\ (forall input output_scale output_zero_point,
        exists e, run_qlinear_context sample_extents sample_shader input
                    output_scale output_zero_point 0 sample_context_state
                  = Err e).
Proof.
  split.
  - apply (proj1 (context_kind_must_match sample_extents sample_shader
                    vulkan_on qweight_3x4 (Some bias_4)
                    sample_quantized_context 0 sample_quantized_state
                    ltac:(vm_compute; reflexivity)
                    ltac:(vm_compute; reflexivity))).
    reflexivity.
  - apply (proj2 (context_kind_must_match sample_extents sample_shader
                    vulkan_on weight_3x4 (Some bias_4)
                    sample_context 0 sample_context_state
                    ltac:(vm_compute; reflexivity)
                    ltac:(vm_compute; reflexivity)));
      reflexivity.
Defined.

(** ** The multipliers *)

Lemma bind_ext {A B : Type} (m : result A) (k k' : A -> result B) :
  (forall x, m = Ok x -> k x = k' x) -> bind m k = bind m k'.
Proof. intros H. destruct m as [x|e]; cbn [bind]; auto. Qed.

Section Multipliers.

Variable extents : vTensor -> uvec3.
Variable run_shader : ComputeJob -> list Z.

(** [alpha] and [beta] reach the shader with the bias only: behind a
    context that says no bias is defined, both dispatchers do the same,
    job included, whatever the two multipliers are. *)
Theorem multipliers_unused_without_bias
    (input_arg : Tensor) (linear_context : nat) (ctx : LinearPackedContext)
    (quantized : bool) (output_scale : Q) (output_zero_point : Z)
    (st : VkState) (alpha beta alpha' beta' : Q) :
  deref st linear_context = Ok ctx ->
  get_val ctx Packed.BiasDefined = Ok (IVBool false) ->
  run_addmm_context extents run_shader input_arg alpha beta linear_context
    quantized output_scale output_zero_point st
  = run_addmm_context extents run_shader input_arg alpha' beta'
      linear_context quantized output_scale output_zero_point st
  /\ run_baddbmm_context extents run_shader input_arg alpha beta
       linear_context st
     = run_baddbmm_context extents run_shader input_arg alpha' beta'
         linear_context st.
Proof.
  intros Hctx Hbd. split.
  - unfold run_addmm_context.
    apply bind_ext; intros input_arg_2d _.
    apply bind_ext; intros v_input _.
    rewrite Hctx. cbn [bind].
    apply bind_ext; intros packed_v_weight _.
    apply bind_ext; intros packed_v_bias _.
    apply bind_ext; intros uws _.
    rewrite Hbd. cbn [bind toBool]. reflexivity.
  - unfold run_baddbmm_context.
    apply bind_ext; intros u0 _.
    rewrite Hctx. cbn [bind].
    apply bind_ext; intros packed_v_weight _.
    apply bind_ext; intros packed_v_bias _.
    apply bind_ext; intros uws _.
    rewrite Hbd. cbn [bind toBool]. reflexivity.
Qed.

End Multipliers.

Lemma multipliers_unused_without_bias_witness :
  run_addmm_context sample_extents sample_shader input_2x3 (1 # 2) 3
    0 false 0 0 sample_no_bias_state
  = run_addmm_context sample_extents sample_shader input_2x3 5 (7 # 3)
      0 false 0 0 sample_no_bias_state
  /\ run_baddbmm_context sample_extents sample_shader input_2x3 (1 # 2) 3
       0 sample_no_bias_state
     = run_baddbmm_context sample_extents sample_shader input_2x3 5 (7 # 3)
         0 sample_no_bias_state.
Proof.
  apply (multipliers_unused_without_bias sample_extents sample_shader
           input_2x3 0 (mm_context vulkan_on 3 4 (data weight_3x4))
           false 0%Q 0 sample_no_bias_state (1 # 2) 3 5 (7 # 3));
    reflexivity.
Defined.

(** ** A batched call that succeeds: [bmm] on host matrices *)

Lemma safe_downcast_int32_fits (x : Z) :
  - 2 ^ 31 <= x < 2 ^ 31 -> safe_downcast_int32 x = Ok x.
Proof.
  intros Hx. unfold safe_downcast_int32.
  destruct (Z.leb_spec (- 2 ^ 31) x); [|lia].
  destruct (Z.ltb_spec x (2 ^ 31)); [reflexivity | lia].
Qed.

Lemma div_up_fits (n d : Z) :
  0 < d -> 0 <= n -> 0 <= div_up n d <= n.
Proof.
  intros Hd Hn. unfold div_up. rewrite Z.quot_div_nonneg by lia.
  split; [apply Z.div_pos; lia|].
  destruct (Z.eq_dec n 0) as [->|Hn0].
  - rewrite Z.div_small by lia. lia.
  - apply Z.div_le_upper_bound; nia.
Qed.

(** The way into a batched [usable]. *)
Lemma usable_batched_intro (input : Tensor) (uws : list Z) (B H K : Z) :
  sizes input = [B; H; K] ->
  device input = Vulkan ->
  scalar_type input = kFloat ->
  requires_grad input = false ->
  uws !! 0%nat = Some B -> uws !! 1%nat = Some K ->
  usable input uws true = Ok true.
Proof.
  intros Hs Hd Ht Hg HB HK. unfold usable, usable_check_with_batch.
  change Layout.BatchMatrices.width with (Z.of_nat 2).
  change Layout.BatchMatrices.height with (Z.of_nat 1).
  change Layout.BatchMatrices.batch with (Z.of_nat 0).
  change 3 with (Z.of_nat 3) at 1.
  rewrite !andthen_true, !dim_match, !Ok_inj_iff, ndimension_eqb,
    Nat.eqb_eq, DeviceType_eqb_eq, ScalarType_eqb_eq, negb_true_iff.
  rewrite Hs. repeat split; auto; eauto.
Qed.

(** The reshape at the end of the batched dispatcher, on an output of
    rank 3 next to an input of rank 3 with the same two leading sizes. *)
Lemma restore_shape_rank3 (input_arg output : Tensor) (B H K W : Z) :
  sizes input_arg = [B; H; K] ->
  sizes output = [B; H; W] ->
  v_sizes (opaque output) = sizes output ->
  restore_shape input_arg output = Ok output.
Proof.
  intros Hs Hos Hv. unfold restore_shape, restored_shape.
  rewrite leading_sizes_irange
    by (unfold dim, ndimension; rewrite Hs; cbn; lia).
  rewrite (size_last _ [B; H] W Hos). cbn [bind].
  rewrite Hs. cbn [removelast app]. rewrite <- Hos.
  unfold reshape. rewrite Z.eqb_refl. f_equal.
  destruct output as [df sz dv ty rg iq qs qz dt [vs vd gl vq gs gz vdt]].
  cbn in *. subst vs. reflexivity.
Qed.

Section BatchedEndToEnd.

Variable extents : vTensor -> uvec3.
Variable run_shader : ComputeJob -> list Z.

(** [bmm] of B host float matrices (M, K) by B host float matrices (K, N)
    that come with their elements, with Vulkan available: the call
    succeeds, returns a tensor of sizes (B, M, N), keeps no context, and
    submits the one job of kernel bmm with global work group
    (ceil(N/2), ceil(M/2), ceil(B/4)). *)
Theorem bmm_host_matrices
    (g : GlobalContext) (B M K N : Z) (a b : list Z) (st : VkState) :
  api_available g = true ->
  0 < B < 2 ^ 32 -> 0 <= M < 2 ^ 32 -> 0 < K < 2 ^ 31 -> 0 < N < 2 ^ 32 ->
  B * K * N <= Z.of_nat (length b) ->
  exists out st' job,
    bmm extents run_shader g
        (host_tensor [B; M; K] kFloat a) (host_tensor [B; K; N] kFloat b) st
    = Ok (out, st')
    /\ sizes out = [B; M; N]
    /\ queue st' = queue st ++ [job]
    /\ heap st' = heap st ++ [None]
    /\ shader job = VK_bmm
    /\ global_work_group job = (ceil_div N 2, ceil_div M 2, ceil_div B 4)
    /\ local_work_group job = (8, 8, 1).
Proof.
  intros Hg HB HM HK HN Hlen.
  set (weight := host_tensor [B; K; N] kFloat b).
  set (input := host_tensor [B; M; K] kFloat a).
  assert (Hel : weight_eligible weight true).
  { unfold weight_eligible. cbn. repeat split; auto.
    repeat constructor; lia. }
  assert (Hav : available g weight None true = Ok true).
  { destruct (available_batched_char g weight None) as (r & Hr & Hiff);
      [intros ? [=]|].
    rewrite Hr. f_equal. apply Hiff.
    split; [exact Hg|]. split; [exact Hel|]. intros ? [=]. }
  destruct (pack_weights_staged_spec weight true B K N)
    as (w & Hw & Hwsz & _); auto; try lia; try discriminate.
  set (vb := pack_staging_to_vtensor
               (zeroed_staging (new_vTensor [1] kFloat))
               (new_vTensor [1] kFloat)).
  set (ctx := {| packed_ := [IVTensor (convert_v w); IVTensor (convert_v vb);
                             IVIntVector [B; K; N]; IVBool false];
                 unpacked_ :=
                   if negb (releaseWeightsWhenPrepacking g)
                   then [IVTensor weight; IVNone] else [] |}).
  assert (Hnew : LinearPackedContext_new g weight None true = Ok ctx).
  { unfold LinearPackedContext_new. rewrite Hav. cbn [torch_check bind].
    rewrite Hw. reflexivity. }
  unfold bmm, with_temporary_context.
  fold weight. fold input. rewrite Hnew.
  cbn [bind make_intrusive].
  unfold run_baddbmm_context.
  change (dim input =? 3) with true. cbn [torch_check bind].
  unfold deref. cbn [heap].
  rewrite list_lookup_middle by reflexivity. cbn [bind].
  change (get_val ctx Packed.Weight) with (Ok (IVTensor (convert_v w))).
  change (get_val ctx Packed.Bias) with (Ok (IVTensor (convert_v vb))).
  change (get_val ctx Packed.WeightSizes) with (Ok (IVIntVector [B; K; N])).
  change (get_val ctx Packed.BiasDefined) with (Ok (IVBool false)).
  cbn [bind toTensor toIntVector toBool].
  rewrite (usable_batched_intro (to_vulkan input) [B; K; N] B M K)
    by reflexivity.
  cbn [torch_check bind].
  change (v_sizes (convert (to_vulkan input))) with [B; M; K].
  change (at_index [B; M; K] Layout.BatchMatrices.batch)
    with (Ok B : result Z).
  change (at_index [B; M; K] Layout.BatchMatrices.height)
    with (Ok M : result Z).
  change (at_index [B; K; N] Layout.BatchMatrices.width)
    with (Ok N : result Z).
  cbn [bind]. unfold dispatch_baddbmm.
  change (v_sizes (convert (to_vulkan input))) with [B; M; K].
  change (at_index [B; M; K] Layout.BatchMatrices.batch)
    with (Ok B : result Z).
  change (at_index [B; M; K] Layout.BatchMatrices.height)
    with (Ok M : result Z).
  change (at_index [B; M; K] Layout.BatchMatrices.width)
    with (Ok K : result Z).
  change (at_index [B; K; N] Layout.BatchMatrices.width)
    with (Ok N : result Z).
  cbn [bind].
  pose proof (div_up_fits K 2 ltac:(lia) ltac:(lia)).
  pose proof (div_up_fits N 2 ltac:(lia) ltac:(lia)).
  pose proof (div_up_fits M 2 ltac:(lia) ltac:(lia)).
  pose proof (div_up_fits B 4 ltac:(lia) ltac:(lia)).
  rewrite safe_downcast_int32_fits by lia. cbn [bind].
  rewrite !safe_downcast_uint32_fits by lia. cbn [bind].
  match goal with
  | |- context [restore_shape input (output_of run_shader ?j)] =>
    set (job := j)
  end.
  rewrite (restore_shape_rank3 input (output_of run_shader job) B M K N)
    by reflexivity.
  cbn [bind fst snd].
  exists (output_of run_shader job). eexists. exists job.
  split; [reflexivity|].
  cbn [release submit_compute_job queue heap].
  rewrite insert_app_r_alt by lia. rewrite Nat.sub_diag.
  subst job. cbn [shader global_work_group local_work_group].
  rewrite !div_up_ceil by lia.
  repeat split.
Qed.

End BatchedEndToEnd.

Lemma bmm_host_matrices_witness :
  exists out st' job,
    bmm sample_extents sample_shader vulkan_on
        (host_tensor [2; 2; 3] kFloat (replicate 12 1))
        (host_tensor [2; 3; 2] kFloat (replicate 12 1)) empty_state
    = Ok (out, st')
    /\ sizes out = [2; 2; 2]
    /\ queue st' = queue empty_state ++ [job]
    /\ heap st' = heap empty_state ++ [None]
    /\ shader job = VK_bmm
    /\ global_work_group job = (ceil_div 2 2, ceil_div 2 2, ceil_div 2 4)
    /\ local_work_group job = (8, 8, 1).
Proof.
  apply (bmm_host_matrices sample_extents sample_shader vulkan_on
           2 2 3 2 (replicate 12 1) (replicate 12 1) empty_state);
    [reflexivity | lia | lia | lia | lia | cbn; lia].
Defined.
